(** * api_certificado: extraction of NFS-e revenue with an A1 certificate

    A shallow embedding of [src/api_certificado.py] and the properties of
    its login, page parser, pagination loop and endpoint.

    Modelling boundaries, stated once:
    - Text is a [string] of bytes (UTF-8 for what the source writes with
      accents).  The character classes [\d] and [\s] of [re], and the
      digits and blanks accepted by [int()] and [float()], are the ASCII
      ones; a substring test on UTF-8 bytes agrees with the test on code
      points.
    - A Python [float] is an exact rational, or an infinity, or NaN: the
      rounding of binary64 (in [float()], [+=] and [round]) is not
      modelled.
    - The HTML of a response is the structure that the BeautifulSoup
      queries of the source observe: which elements are found and the text
      they carry.
    - The remote portal, the PKCS#12 loader and the file system are an
      explicit world: oracles for what the outside answers, a state for the
      three temporary paths, and a log of the calls made.
    - Python exceptions are values (class and message); only subclasses of
      [Exception] are modelled. *)

From Stdlib Require Import ZArith QArith Qround String Ascii List Lia Bool
  DecimalString DecimalNat FinFun Finite.
Import ListNotations.

Local Open Scope string_scope.
Local Open Scope list_scope.

(** ** Characters and strings *)

Module Texto.

Definition codigo (c : ascii) : nat := nat_of_ascii c.

(** [\d] on ASCII, and the digit test of [int()] and [float()]. *)
Definition is_digit (c : ascii) : bool :=
  (48 <=? codigo c)%nat && (codigo c <=? 57)%nat.

Definition digit_val (c : ascii) : Z := Z.of_nat (codigo c) - 48.

(** [Py_ISSPACE]: the blanks that [int()] and [float()] strip. *)
Definition is_space (c : ascii) : bool :=
  ((9 <=? codigo c)%nat && (codigo c <=? 13)%nat) || (codigo c =? 32)%nat.

(** [\s] of [re] on a [str] pattern, ASCII range: [Py_UNICODE_ISSPACE]. *)
Definition is_re_space (c : ascii) : bool :=
  is_space c || ((28 <=? codigo c)%nat && (codigo c <=? 31)%nat).

Definition lower (c : ascii) : ascii :=
  if ((65 <=? codigo c)%nat && (codigo c <=? 90)%nat)%bool
  then ascii_of_nat (codigo c + 32) else c.

Definition chars (s : string) : list ascii := list_ascii_of_string s.
Definition texto (l : list ascii) : string := string_of_list_ascii l.

(** [old in s] for strings. *)
Fixpoint contains (old s : string) : bool :=
  prefix old s ||
  match s with
  | EmptyString => false
  | String _ s' => contains old s'
  end.

(** [s.replace(c, novo)] for a pattern [c] of one character. *)
Fixpoint replace (c : ascii) (novo : string) (s : string) : string :=
  match s with
  | EmptyString => EmptyString
  | String x s' =>
      if Ascii.eqb x c then novo ++ replace c novo s'
      else String x (replace c novo s')
  end.

(** [s[i:j]] for [0 <= i <= j]. *)
Definition slice (i j : nat) (s : string) : string := substring i (j - i) s.

(** [s[i:]] for [0 <= i]. *)
Definition slice_from (i : nat) (s : string) : string :=
  substring i (String.length s - i) s.

(** [str(n)] for a natural number. *)
Definition str_nat (n : nat) : string := NilEmpty.string_of_uint (Nat.to_uint n).

(** [str(z)] for an integer. *)
Definition str_Z (z : Z) : string := NilEmpty.string_of_int (Z.to_int z).

Fixpoint zeros (n : nat) : string :=
  match n with O => EmptyString | S k => String "0" (zeros k) end.

(** [s.zfill(w)]: zeros go after a leading sign. *)
Definition zfill (w : nat) (s : string) : string :=
  let pad := zeros (w - String.length s) in
  match s with
  | String c s' =>
      if (Ascii.eqb c "-" || Ascii.eqb c "+")%bool then String c (pad ++ s')
      else pad ++ s
  | EmptyString => pad
  end.

Fixpoint drop_while (p : ascii -> bool) (l : list ascii) : list ascii :=
  match l with
  | c :: l' => if p c then drop_while p l' else l
  | [] => []
  end.

Fixpoint take_while (p : ascii -> bool) (l : list ascii) : list ascii :=
  match l with
  | c :: l' => if p c then c :: take_while p l' else []
  | [] => []
  end.

(** Blanks stripped at both ends, as [int()] and [float()] do. *)
Definition strip_space (l : list ascii) : list ascii :=
  rev (drop_while is_space (rev (drop_while is_space l))).

(** The value of a run of decimal digits, most significant first. *)
Definition digits_val (l : list ascii) : Z :=
  fold_left (fun acc c => (10 * acc + digit_val c)%Z) l 0%Z.

(** An underscore is accepted by [int()] and [float()] only between two
    digits; the accepted underscores are dropped. *)
Fixpoint drop_underscores (prev : option ascii) (l : list ascii)
  : option (list ascii) :=
  match l with
  | [] => Some []
  | c :: l' =>
      if Ascii.eqb c "_" then
        match prev, l' with
        | Some p, d :: _ =>
            if (is_digit p && is_digit d)%bool
            then drop_underscores (Some c) l' else None
        | _, _ => None
        end
      else option_map (cons c) (drop_underscores (Some c) l')
  end.

(** An optional sign: [(negative, rest)]. *)
Definition split_sign (l : list ascii) : bool * list ascii :=
  match l with
  | c :: l' =>
      if Ascii.eqb c "-" then (true, l')
      else if Ascii.eqb c "+" then (false, l')
      else (false, l)
  | [] => (false, [])
  end.

(** [int(s)] in base 10: [None] is [ValueError]. *)
Definition py_int (s : string) : option Z :=
  match drop_underscores None (chars s) with
  | None => None
  | Some l =>
      let (neg, ds) := split_sign (strip_space l) in
      match ds with
      | [] => None
      | _ :: _ =>
          if forallb is_digit ds
          then Some (if neg then (- digits_val ds)%Z else digits_val ds)
          else None
      end
  end.

End Texto.

(** ** Python floats, exactly *)

Module PyFloat.
Import Texto.

Inductive float : Type :=
| Finito (q : Q)
| Inf (negativo : bool)
| NaN.

Definition zero : float := Finito 0.

(** [x + y]. *)
Definition add (x y : float) : float :=
  match x, y with
  | NaN, _ | _, NaN => NaN
  | Inf a, Inf b => if Bool.eqb a b then Inf a else NaN
  | Inf a, Finito _ | Finito _, Inf a => Inf a
  | Finito p, Finito q => Finito (Qred (p + q))
  end.

(** [x <= y]: false as soon as one side is NaN. *)
Definition le (x y : float) : Prop :=
  match x, y with
  | NaN, _ | _, NaN => False
  | Inf true, _ => True
  | _, Inf false => True
  | Finito p, Finito q => (p <= q)%Q
  | _, _ => False
  end.

(** [round(x, 2)]: to the nearest multiple of 1/100, ties to even. *)
Definition round2 (x : float) : float :=
  match x with
  | Finito q =>
      let s := (q * 100)%Q in
      let n := Qfloor s in
      let r := (s - inject_Z n)%Q in
      let m :=
        match (r ?= 1 # 2)%Q with
        | Lt => n
        | Gt => (n + 1)%Z
        | Eq => if Z.even n then n else (n + 1)%Z
        end in
      Finito (Qred (m # 100))
  | _ => x
  end.

(** Ten to the power of an integer. *)
Definition pow10 (e : Z) : Q :=
  if (e <? 0)%Z then 1 # Z.to_pos (10 ^ (- e)) else inject_Z (10 ^ e).

(** The exponent part of a decimal numeral: empty, or [e], an optional sign
    and at least one digit. *)
Definition parse_exponent (l : list ascii) : option Z :=
  match l with
  | [] => Some 0%Z
  | c :: l' =>
      if Ascii.eqb (lower c) "e" then
        let (neg, ds) := split_sign l' in
        match ds with
        | [] => None
        | _ :: _ =>
            if forallb is_digit ds
            then Some (if neg then (- digits_val ds)%Z else digits_val ds)
            else None
        end
      else None
  end.

(** A decimal numeral without sign: digits, an optional point and digits,
    at least one digit in all, and an optional exponent. *)
Definition parse_decimal (l : list ascii) : option Q :=
  let int_part := take_while is_digit l in
  let r1 := drop_while is_digit l in
  let (frac_part, r2) :=
    match r1 with
    | c :: r =>
        if Ascii.eqb c "." then (take_while is_digit r, drop_while is_digit r)
        else ([], r1)
    | [] => ([], [])
    end in
  match int_part ++ frac_part with
  | [] => None
  | _ :: _ =>
      match parse_exponent r2 with
      | None => None
      | Some e =>
          let m := digits_val (int_part ++ frac_part) in
          Some (Qred (inject_Z m * pow10 (e - Z.of_nat (List.length frac_part))))
      end
  end.

(** [float(s)]: [None] is [ValueError]. *)
Definition float_of_string (s : string) : option float :=
  match drop_underscores None (chars s) with
  | None => None
  | Some l =>
      let (neg, body) := split_sign (strip_space l) in
      let word := texto (map lower body) in
      if (String.eqb word "inf" || String.eqb word "infinity")%bool
      then Some (Inf neg)
      else if String.eqb word "nan" then Some NaN
      else
        match parse_decimal body with
        | Some q => Some (Finito (if neg then Qred (- q) else q))
        | None => None
        end
  end.

End PyFloat.

(** ** Regular expressions of the source *)

Module Regex.
Import Texto.

(** [(\d{2})/(\d{4})] anchored at the head of [l]: groups 1 and 2. *)
Definition competencia_at (l : list ascii) : option (string * string) :=
  match l with
  | m1 :: m2 :: b :: a1 :: a2 :: a3 :: a4 :: _ =>
      if (forallb is_digit [m1; m2] && Ascii.eqb b "/"
          && forallb is_digit [a1; a2; a3; a4])%bool
      then Some (texto [m1; m2], texto [a1; a2; a3; a4])
      else None
  | _ => None
  end.

Fixpoint search_competencia_chars (l : list ascii) : option (string * string) :=
  match competencia_at l with
  | Some g => Some g
  | None =>
      match l with
      | [] => None
      | _ :: l' => search_competencia_chars l'
      end
  end.

(** [re.search(r'(\d{2})/(\d{4})', s)]: the groups of the leftmost match. *)
Definition search_competencia (s : string) : option (string * string) :=
  search_competencia_chars (chars s).

(** [l] without the prefix [p], when it has it. *)
Fixpoint strip_prefix (p l : list ascii) : option (list ascii) :=
  match p, l with
  | [], _ => Some l
  | x :: p', y :: l' => if Ascii.eqb x y then strip_prefix p' l' else None
  | _ :: _, [] => None
  end.

(** [CNPJ:\s*(\d+)] anchored at the head of [l]: group 1.  Blanks and
    digits are disjoint, so the greedy match is the only one. *)
Definition cnpj_at (l : list ascii) : option string :=
  match strip_prefix (chars "CNPJ:") l with
  | None => None
  | Some r =>
      match take_while is_digit (drop_while is_re_space r) with
      | [] => None
      | d :: ds => Some (texto (d :: ds))
      end
  end.

Fixpoint search_cnpj_chars (l : list ascii) : option string :=
  match cnpj_at l with
  | Some g => Some g
  | None =>
      match l with
      | [] => None
      | _ :: l' => search_cnpj_chars l'
      end
  end.

(** [re.search(r'CNPJ:\s*(\d+)', s)]: group 1 of the leftmost match. *)
Definition search_cnpj (s : string) : option string :=
  search_cnpj_chars (chars s).

End Regex.

(** ** The pages, as BeautifulSoup shows them to the source *)

(** A [tr] of the table body: whether
    [find('img', src='/EmissorNacional/img/tb-gerada.svg')] finds the icon,
    and [get_text(strip=True)] of the first [td] of class [td-competencia]
    and of class [td-valor], when the row has one. *)
Record linha : Type := Linha {
  img_gerada : bool;
  td_competencia : option string;
  td_valor : option string
}.

(** The [a] found by [find('a', title='Próxima')], with its [href]
    attribute when it has one. *)
Record tag_a : Type := TagA { href : option string }.

(** The [div] of class [paginacao]. *)
Record div_paginacao : Type := DivPaginacao { link_proxima : option tag_a }.

(** A page of the listing: [find('tbody')] with its [find_all('tr')], and
    [find('div', class_='paginacao')]. *)
Record soup : Type := Soup {
  tbody : option (list linha);
  paginacao : option div_paginacao
}.

(** ** processar_pagina *)

Module Pagina.
Import Texto PyFloat Regex.

(** Truth value of an optional string: [None] and the empty string are false. *)
Definition truthy (o : option string) : bool :=
  match o with
  | Some s => negb (String.eqb s "")
  | None => false
  end.

(** [mes_filtro and mes_nota != mes_filtro]. *)
Definition mes_diferente (mes_filtro : option string) (mes_nota : string) : bool :=
  match mes_filtro with
  | Some m => truthy mes_filtro && negb (String.eqb mes_nota m)
  | None => false
  end.

(** [valor_texto.replace('.', '').replace(',', '.')]. *)
Definition valor_limpo (valor_texto : string) : string :=
  replace "," "." (replace "." "" valor_texto).

(** What the body of the [for] loop does with one row: it reaches the two
    [+=] with a value, or leaves the row by [continue] (written, or taken by
    the bare [except]), or sets [continuar = False] and breaks. *)
Inductive passo : Type :=
| Conta (valor : float)
| Pula
| Encerra.

Definition processar_linha (ano_filtro : string) (mes_filtro : option string)
    (l : linha) : passo :=
  if negb (img_gerada l) then Pula
  else
    match td_competencia l with
    | None => Pula
    | Some competencia_texto =>
        match search_competencia competencia_texto with
        | None => Pula
        | Some (mes_nota, ano_nota) =>
            match py_int ano_nota, py_int ano_filtro with
            | Some a, Some f =>
                if (a <? f)%Z then Encerra
                else if (a >? f)%Z then Pula
                else if mes_diferente mes_filtro mes_nota then Pula
                else
                  match td_valor l with
                  | None => Pula
                  | Some valor_texto =>
                      match float_of_string (valor_limpo valor_texto) with
                      | Some valor => Conta valor
                      | None => Pula
                      end
                  end
            | _, _ => Pula
            end
        end
    end.

(** The [for] loop over the rows, from the running
    [(faturamento_pagina, notas_na_pagina)]; the third component is
    [continuar]. *)
Fixpoint percorrer (ano_filtro : string) (mes_filtro : option string)
    (linhas : list linha) (fat : float) (notas : nat) : float * nat * bool :=
  match linhas with
  | [] => (fat, notas, true)
  | l :: resto =>
      match processar_linha ano_filtro mes_filtro l with
      | Conta valor => percorrer ano_filtro mes_filtro resto (add fat valor) (S notas)
      | Pula => percorrer ano_filtro mes_filtro resto fat notas
      | Encerra => (fat, notas, false)
      end
  end.

(** A [Tag] of BeautifulSoup is true even when empty, so [not tbody]
    holds only of [None]; [not linhas] holds of the empty list. *)
Definition processar_pagina (s : soup) (ano_filtro : string)
    (mes_filtro : option string) : float * nat * bool :=
  match tbody s with
  | None => (zero, 0%nat, false)
  | Some [] => (zero, 0%nat, false)
  | Some linhas => percorrer ano_filtro mes_filtro linhas zero 0%nat
  end.

End Pagina.

(** ** Exceptions, the outside world and the effects *)

(** The classes of exception that the source tells apart. *)
Inductive classe : Type :=
| ClasseException                  (* [Exception(...)], raised by the source *)
| SSLError                         (* [requests.exceptions.SSLError] *)
| HTTPException (status_code : Z) (detail : string)
                                   (* [fastapi.HTTPException] *)
| Outra (nome : string).           (* any other subclass of [Exception] *)

(** An exception: its class and [str(e)]. *)
Record excecao : Type := Excecao { classe_de : classe; str : string }.

(** The three paths of a request: [temp_dir], [cert_path], [key_path]. *)
Inductive caminho : Type := TempDir | CertPem | KeyPem.

(** Which of them exist. *)
Record arquivos : Type := Arquivos {
  existe_dir : bool;
  existe_cert : bool;
  existe_key : bool
}.

(** The calls made to the outside, in order. *)
Inductive evento : Type :=
| EvCarrega                 (* [b64decode] and [pkcs12.load_key_and_certificates] *)
| EvMkdtemp                 (* [tempfile.mkdtemp()] *)
| EvAbre (p : caminho)      (* [open(p, 'wb')] *)
| EvEscreve (p : caminho)   (* [f.write(...)] done, the [with] block left *)
| EvGet (url : string)      (* [session.get(url, timeout=30)] *)
| EvRemove (p : caminho)    (* [os.remove(p)] *)
| EvRmdir (p : caminho).    (* [os.rmdir(p)] *)

Record estado : Type := Estado {
  fs : arquivos;
  registro : list evento
}.

Definition estado_inicial : estado := Estado (Arquivos false false false) [].

(** What [pkcs12.load_key_and_certificates] returns: either part may be
    [None]; the parts are kept as their PEM serialisation. *)
Record pkcs12 : Type := Pkcs12 {
  private_key : option string;
  certificate : option string
}.

(** The answer to the GET of the login page: [session.get] raises, or it
    returns with a status and leaves the names [cookies] in the jar of the
    session, and then reading the body ([BeautifulSoup(response.text)],
    [get_text]) raises or gives [get_text()] of the [li] of class
    [dropdown perfil], when there is one. *)
Inductive corpo_login : Type :=
| CorpoLevanta (e : excecao)
| Corpo (dropdown_perfil : option string).

Inductive resposta_login : Type :=
| LoginLevanta (e : excecao)
| LoginResposta (status_code : Z) (cookies : list string) (corpo : corpo_login).

(** The answer to the GET of a page of the listing. *)
Inductive resposta_notas : Type :=
| NotasLevanta (e : excecao)
| NotasResposta (status_code : Z) (pagina_html : soup).

(** The outside: the loader (where [None] stands for any exception of
    [b64decode] or of the loader), and the portal. *)
Record mundo : Type := Mundo {
  pkcs12_load : string -> string -> option pkcs12;
  get_certificado : resposta_login;
  get_notas : string -> resposta_notas
}.

(** A [requests.Session] as far as the source uses it: the client
    certificate, the cookie names, and the three attributes that
    [fazer_login_certificado] attaches on success. *)
Record session : Type := Session {
  cert : option (caminho * caminho);
  cookies_de : list string;
  temp_cert_path : option caminho;
  temp_key_path : option caminho;
  temp_dir : option caminho
}.

Module Efeito.

Inductive resultado (A : Type) : Type :=
| Retorna (a : A)
| Levanta (e : excecao).
Arguments Retorna {A} a.
Arguments Levanta {A} e.

(** A computation: it reads and changes the state, and returns or raises. *)
Definition M (A : Type) : Type := estado -> resultado A * estado.

Definition ret {A} (a : A) : M A := fun s => (Retorna a, s).

Definition raise {A} (e : excecao) : M A := fun s => (Levanta e, s).

Definition bind {A B} (m : M A) (k : A -> M B) : M B :=
  fun s =>
    match m s with
    | (Retorna a, s') => k a s'
    | (Levanta e, s') => (Levanta e, s')
    end.

(** [try: m except Exception as e: h e]. *)
Definition tenta {A} (m : M A) (h : excecao -> M A) : M A :=
  fun s =>
    match m s with
    | (Retorna a, s') => (Retorna a, s')
    | (Levanta e, s') => h e s'
    end.

(** [try: m except: pass]. *)
Definition ignora (m : M unit) : M unit := tenta m (fun _ => ret tt).

Definition anota (ev : evento) : M unit :=
  fun s => (Retorna tt, Estado (fs s) (registro s ++ [ev])).

Definition le_fs : M arquivos := fun s => (Retorna (fs s), s).

Definition grava_fs (a : arquivos) : M unit :=
  fun s => (Retorna tt, Estado a (registro s)).

End Efeito.

Declare Scope efeito_scope.
Delimit Scope efeito_scope with efeito.
Notation "x <- m ;; k" := (Efeito.bind m (fun x => k))
  (at level 61, m at next level, right associativity) : efeito_scope.
Notation "' p <- m ;; k" := (Efeito.bind m (fun x => let 'p := x in k))
  (at level 61, p pattern, m at next level, right associativity) : efeito_scope.
Notation "m ;; k" := (Efeito.bind m (fun _ => k))
  (at level 61, right associativity) : efeito_scope.

(** ** The file system calls *)

Module Os.
Import Efeito.
Local Open Scope efeito_scope.

Definition existe (a : arquivos) (p : caminho) : bool :=
  match p with
  | TempDir => existe_dir a
  | CertPem => existe_cert a
  | KeyPem => existe_key a
  end.

Definition com (a : arquivos) (p : caminho) (b : bool) : arquivos :=
  match p with
  | TempDir => Arquivos b (existe_cert a) (existe_key a)
  | CertPem => Arquivos (existe_dir a) b (existe_key a)
  | KeyPem => Arquivos (existe_dir a) (existe_cert a) b
  end.

Definition OSError (nome msg : string) : excecao := Excecao (Outra nome) msg.

(** [tempfile.mkdtemp()]: a new, empty directory. *)
Definition mkdtemp : M caminho :=
  anota EvMkdtemp ;;
  a <- le_fs ;;
  grava_fs (com a TempDir true) ;;
  ret TempDir.

(** [open(p, 'wb')]: the file exists from then on. *)
Definition open_wb (p : caminho) : M unit :=
  anota (EvAbre p) ;;
  a <- le_fs ;;
  grava_fs (com a p true).

(** [os.remove(p)]: deletes a file that exists; raises on a missing file
    and on a directory. *)
Definition remove (p : caminho) : M unit :=
  anota (EvRemove p) ;;
  a <- le_fs ;;
  match p with
  | TempDir => raise (OSError "IsADirectoryError" "Is a directory")
  | _ =>
      if existe a p then grava_fs (com a p false)
      else raise (OSError "FileNotFoundError" "No such file or directory")
  end.

(** [os.rmdir(p)]: deletes a directory that exists and is empty. *)
Definition rmdir (p : caminho) : M unit :=
  anota (EvRmdir p) ;;
  a <- le_fs ;;
  match p with
  | TempDir =>
      if negb (existe_dir a)
      then raise (OSError "FileNotFoundError" "No such file or directory")
      else if (existe_cert a || existe_key a)%bool
      then raise (OSError "OSError" "Directory not empty")
      else grava_fs (com a TempDir false)
  | _ => raise (OSError "NotADirectoryError" "Not a directory")
  end.

End Os.

(** ** fazer_login_certificado and limpar_arquivos_temporarios *)

Module Login.
Import Texto Regex Efeito.
Local Open Scope efeito_scope.

Definition MSG_AUTENTICACAO : string :=
  "Autenticação não realizada. Favor inserir os dados corretamente de acesso".

Definition MARCA_AUTENTICACAO : string := "Autenticação não realizada".

Definition URL_CERTIFICADO : string :=
  "https://www.nfse.gov.br/EmissorNacional/Certificado".

Definition falha_autenticacao : excecao := Excecao ClasseException MSG_AUTENTICACAO.

Definition AttributeError (atributo : string) : excecao :=
  Excecao (Outra "AttributeError")
    ("'NoneType' object has no attribute '" ++ atributo ++ "'").

(** [f"{c[:2]}.{c[2:5]}.{c[5:8]}/{c[8:12]}-{c[12:]}"]. *)
Definition formatar_cnpj (c : string) : string :=
  slice 0 2 c ++ "." ++ slice 2 5 c ++ "." ++ slice 5 8 c ++ "/"
  ++ slice 8 12 c ++ "-" ++ slice_from 12 c.

(** The lines of the source from [cnpj = None] to the last assignment of
    [cnpj], on the profile element found or not. *)
Definition extrair_cnpj (dropdown_perfil : option string) : option string :=
  match dropdown_perfil with
  | None => None
  | Some texto =>
      match search_cnpj texto with
      | None => None
      | Some cnpj_limpo =>
          if (String.length cnpj_limpo =? 14)%nat
          then Some (formatar_cnpj cnpj_limpo)
          else None
      end
  end.

(** [with open(p, 'wb') as f: f.write(parte.<metodo>(...))]: the file is
    opened before the argument is evaluated, and the method of [None]
    raises. *)
Definition salvar (p : caminho) (parte : option string) (metodo : string) : M unit :=
  Os.open_wb p ;;
  match parte with
  | Some _ => anota (EvEscreve p)
  | None => raise (AttributeError metodo)
  end.

(** The clean-up of both [except] clauses. *)
Definition limpar_no_login (cert_path key_path temp_dir : caminho) : M unit :=
  ignora (Os.remove cert_path ;; Os.remove key_path ;; Os.rmdir temp_dir).

(** The headers that the source sets on the session are not observed by
    the model. *)
Definition fazer_login_certificado (w : mundo)
    (certificado_base64 senha_certificado : string) : M (session * option string) :=
  anota EvCarrega ;;
  match pkcs12_load w certificado_base64 senha_certificado with
  | None => raise falha_autenticacao
  | Some p12 =>
      temp_dir <- Os.mkdtemp ;;
      let cert_path := CertPem in
      let key_path := KeyPem in
      salvar cert_path (certificate p12) "public_bytes" ;;
      salvar key_path (private_key p12) "private_bytes" ;;
      tenta
        (anota (EvGet URL_CERTIFICADO) ;;
         match get_certificado w with
         | LoginLevanta e => raise e
         | LoginResposta _ cookies corpo =>
             if negb (existsb (String.eqb "Emissor") cookies)
             then raise falha_autenticacao
             else
               match corpo with
               | CorpoLevanta e => raise e
               | Corpo dropdown_perfil =>
                   let cnpj := extrair_cnpj dropdown_perfil in
                   ret (Session (Some (cert_path, key_path)) cookies
                          (Some cert_path) (Some key_path) (Some temp_dir),
                        cnpj)
               end
         end)
        (fun e =>
           match classe_de e with
           | SSLError =>
               limpar_no_login cert_path key_path temp_dir ;;
               raise falha_autenticacao
           | _ =>
               limpar_no_login cert_path key_path temp_dir ;;
               if contains MARCA_AUTENTICACAO (str e) then raise e
               else raise falha_autenticacao
           end)
  end.

(** [if hasattr(session, a): f(session.a)]. *)
Definition se_tem (a : option caminho) (f : caminho -> M unit) : M unit :=
  match a with
  | Some p => f p
  | None => ret tt
  end.

Definition limpar_arquivos_temporarios (s : session) : M unit :=
  ignora
    (se_tem (temp_cert_path s) Os.remove ;;
     se_tem (temp_key_path s) Os.remove ;;
     se_tem (temp_dir s) Os.rmdir).

End Login.

(** ** buscar_notas *)

Module Busca.
Import Texto PyFloat Pagina Efeito.
Local Open Scope efeito_scope.

Definition URL_BASE : string :=
  "https://www.nfse.gov.br/EmissorNacional/Notas/Emitidas".

(** [url_base if pagina == 1 else f"{url_base}?pg={pagina}"]. *)
Definition url_pagina (pagina : nat) : string :=
  if (pagina =? 1)%nat then URL_BASE else URL_BASE ++ "?pg=" ++ str_nat pagina.

(** The variables of the loop. *)
Record laco : Type := Laco {
  faturamento_total : float;
  notas_processadas : nat;
  pagina : nat;
  continuar : bool
}.

Definition laco_inicial : laco := Laco zero 0 1 true.

(** Where the control is after an iteration: back at the [while] test, or
    out of the loop. *)
Inductive controle : Type :=
| Volta (st : laco)
| Saida (st : laco).

Definition estado_de (c : controle) : laco :=
  match c with Volta st | Saida st => st end.

(** [link_proxima.get('href', '')]. *)
Definition href_de (a : tag_a) : string :=
  match href a with Some h => h | None => "" end.

(** The body of the [while] loop once [session.get] has returned. *)
Definition iteracao (ano : string) (mes : option string)
    (status_code : Z) (s : soup) (st : laco) : controle :=
  if negb (status_code =? 200)%Z then Saida st
  else
    let '(faturamento_pagina, notas_pagina, cont) := processar_pagina s ano mes in
    let st1 := Laco (add (faturamento_total st) faturamento_pagina)
                    (notas_processadas st + notas_pagina) (pagina st) cont in
    if negb cont then Saida st1
    else
      match paginacao s with
      | None => Saida st1
      | Some div =>
          match link_proxima div with
          | None => Saida st1
          | Some a =>
              if contains "javascript:" (href_de a) then Saida st1
              else Volta (Laco (faturamento_total st1) (notas_processadas st1)
                               (pagina st1 + 1) (continuar st1))
          end
      end.

(** One turn of [while continuar:] from the test. *)
Definition volta (w : mundo) (ano : string) (mes : option string)
    (c : controle) : M controle :=
  match c with
  | Saida st => ret (Saida st)
  | Volta st =>
      if continuar st then
        anota (EvGet (url_pagina (pagina st))) ;;
        match get_notas w (url_pagina (pagina st)) with
        | NotasLevanta e => raise e
        | NotasResposta status_code s => ret (iteracao ano mes status_code s st)
        end
      else ret (Saida st)
  end.

(** The loop run for at most [n] turns. *)
Fixpoint voltas (n : nat) (w : mundo) (ano : string) (mes : option string)
    (c : controle) : M controle :=
  match n with
  | O => ret c
  | S k => c' <- volta w ano mes c ;; voltas k w ano mes c'
  end.

(** [buscar_notas] with at most [fuel] turns of its loop: [None] when the
    loop has not ended by then. *)
Definition buscar_notas (fuel : nat) (w : mundo) (s : session)
    (ano : string) (mes : option string) : M (option (float * nat)) :=
  c <- voltas fuel w ano mes (Volta laco_inicial) ;;
  match c with
  | Saida st => ret (Some (faturamento_total st, notas_processadas st))
  | Volta _ => ret None
  end.

End Busca.

(** ** The endpoint obter_faturamento_certificado *)

Record FaturamentoRequestCertificado : Type := FaturamentoRequest {
  certificado_base64 : string;
  senha_certificado : string;
  ano : string;
  mes : option string
}.

Record FaturamentoResponse : Type := FaturamentoResposta {
  CNPJ : string;
  Faturamento : PyFloat.float;
  Notas_Encontradas : nat;
  Periodo : string;
  Mes : string
}.

Module Endpoint.
Import Texto PyFloat Pagina Efeito Login Busca.
Local Open Scope efeito_scope.

(** [HTTPException(status_code=..., detail=...)]; its [str] is the one of
    Starlette, status and detail. *)
Definition http_exception (status_code : Z) (detail : string) : excecao :=
  Excecao (HTTPException status_code detail)
    (str_Z status_code ++ ": " ++ detail)%string.

(** The [ValueError] of [int(s)]; the [repr] of [s] is written without
    escapes. *)
Definition ValueError_int (s : string) : excecao :=
  Excecao (Outra "ValueError")
    ("invalid literal for int() with base 10: '" ++ s ++ "'")%string.

(** The lines that validate and format the month. *)
Definition validar_mes (mes : option string) : M (option string) :=
  match mes with
  | Some m =>
      if truthy mes then
        match py_int m with
        | None => raise (ValueError_int m)
        | Some mes_int =>
            if ((mes_int <? 1) || (mes_int >? 12))%Z
            then raise (http_exception 400 "Mês inválido")
            else ret (Some (zfill 2 (str_Z mes_int)))
        end
      else ret None
  | None => ret None
  end.

(** The [except Exception as e] clause of the endpoint, with the value that
    the variable [session] has when the exception arrives. *)
Definition tratar {A} (sess : option session) (e : excecao) : M A :=
  match sess with
  | Some s => limpar_arquivos_temporarios s
  | None => ret tt
  end ;;
  if contains MARCA_AUTENTICACAO (str e)
  then raise (http_exception 401 (str e))
  else raise (http_exception 500 ("Erro: " ++ str e)%string).

(** The [try] block up to the assignment of [session]: until then the
    variable is [None]. *)
Definition ate_login (w : mundo) (request : FaturamentoRequestCertificado)
  : M (option string * session * option string) :=
  mes_filtro <- validar_mes (mes request) ;;
  ' (sess, cnpj) <- fazer_login_certificado w (certificado_base64 request)
                      (senha_certificado request) ;;
  ret (mes_filtro, sess, cnpj).

(** The [try] block after the assignment of [session]; [periodo] and
    [mes_label], which the source computes before the login, are pure. *)
Definition apos_login (fuel : nat) (w : mundo)
    (request : FaturamentoRequestCertificado)
    (mes_filtro : option string) (sess : session) (cnpj : option string)
  : M (option FaturamentoResponse) :=
  let periodo :=
    match mes_filtro with
    | Some m =>
        if truthy mes_filtro then (m ++ "/" ++ ano request)%string
        else ano request
    | None => ano request
    end in
  let mes_label :=
    match mes_filtro with
    | Some m => if truthy mes_filtro then m else "Ano todo"
    | None => "Ano todo"
    end in
  let cnpj :=
    match cnpj with
    | Some c => if truthy cnpj then c else "Não identificado"
    | None => "Não identificado"
    end in
  r <- buscar_notas fuel w sess (ano request) mes_filtro ;;
  match r with
  | None => ret None
  | Some (faturamento, quantidade) =>
      limpar_arquivos_temporarios sess ;;
      ret (Some (FaturamentoResposta cnpj (round2 faturamento)
                   quantidade periodo mes_label))
  end.

(** The endpoint, with at most [fuel] turns of the pagination loop.  It
    returns the response model ([None] when the loop has not ended within
    [fuel] turns) or raises the [HTTPException] that FastAPI turns into the
    status and detail of the HTTP response.  The one [try] block of the
    source is split where [session] is assigned. *)
Definition obter_faturamento_certificado (fuel : nat) (w : mundo)
    (request : FaturamentoRequestCertificado) : M (option FaturamentoResponse) :=
  fun s0 =>
    match ate_login w request s0 with
    | (Levanta e, s1) => tratar None e s1
    | (Retorna (mes_filtro, sess, cnpj), s1) =>
        tenta (apos_login fuel w request mes_filtro sess cnpj)
              (tratar (Some sess)) s1
    end.

End Endpoint.

(** ** Vocabulary of the properties *)

Module Vocabulario.
Import Texto PyFloat Regex Pagina Efeito Login Busca Endpoint.

(** The competency of an eligible row: the row carries the icon of an
    issued invoice and its competency cell has a label [MM/YYYY]; the
    month as text and the year as a number. *)
Definition competencia_de (l : linha) : option (string * Z) :=
  if img_gerada l then
    match td_competencia l with
    | Some t =>
        match search_competencia t with
        | Some (mes_nota, ano_nota) =>
            match py_int ano_nota with
            | Some a => Some (mes_nota, a)
            | None => None
            end
        | None => None
        end
    | None => None
    end
  else None.

(** An eligible row of a year before [Y]. *)
Definition ano_anterior (Y : Z) (l : linha) : bool :=
  match competencia_de l with
  | Some (_, a) => (a <? Y)%Z
  | None => false
  end.

(** A month filter that is set, and differs from the month of the row. *)
Definition filtro_de_mes_exclui (mes_filtro : option string) (mes_nota : string)
  : Prop :=
  exists m, mes_filtro = Some m /\ m <> "" /\ mes_nota <> m.

(** A row passes the filters of year [Y] and of month. *)
Definition passa_filtros (Y : Z) (mes_filtro : option string) (l : linha) : Prop :=
  exists mes_nota,
    competencia_de l = Some (mes_nota, Y) /\
    (mes_filtro = None \/ mes_filtro = Some "" \/ mes_filtro = Some mes_nota).

(** The reasons for which a row is only skipped, under the year filter [Y]. *)
Inductive so_pulada (Y : Z) (mes_filtro : option string) (l : linha) : Prop :=
| sem_icone :
    img_gerada l = false -> so_pulada Y mes_filtro l
| sem_celula_competencia :
    td_competencia l = None -> so_pulada Y mes_filtro l
| sem_competencia t :
    td_competencia l = Some t -> search_competencia t = None ->
    so_pulada Y mes_filtro l
| ano_posterior mes_nota a :
    competencia_de l = Some (mes_nota, a) -> (Y < a)%Z ->
    so_pulada Y mes_filtro l
| mes_de_fora mes_nota :
    competencia_de l = Some (mes_nota, Y) ->
    filtro_de_mes_exclui mes_filtro mes_nota ->
    so_pulada Y mes_filtro l
| sem_celula_valor :
    passa_filtros Y mes_filtro l -> td_valor l = None ->
    so_pulada Y mes_filtro l
| valor_invalido t :
    passa_filtros Y mes_filtro l -> td_valor l = Some t ->
    float_of_string (valor_limpo t) = None ->
    so_pulada Y mes_filtro l.

(** What [valor_limpo] does to one character. *)
Definition troca (c : ascii) : list ascii :=
  if Ascii.eqb c "." then []
  else if Ascii.eqb c "," then ["."%char]
  else [c].

(** The four conditions under which, by the specification, the loop
    fetches no further page after the page [s] came with [status_code]. *)
Definition para_pela_spec (ano : string) (mes : option string)
    (status_code : Z) (s : soup) : Prop :=
  status_code <> 200%Z \/
  snd (processar_pagina s ano mes) = false \/
  paginacao s = None \/
  (exists d a, paginacao s = Some d /\ link_proxima d = Some a /\
               contains "javascript:" (href_de a) = true).

(** The navigation element is there, without a link to the next page. *)
Definition sem_link_proxima (s : soup) : Prop :=
  exists d, paginacao s = Some d /\ link_proxima d = None.

(** The amounts that a scan of the rows counts, in the order of the rows:
    those of the rows that reach the two [+=], up to the first row that
    ends the scan. *)
Fixpoint valores_contados (ano : string) (mes : option string)
    (linhas : list linha) : list float :=
  match linhas with
  | [] => []
  | l :: resto =>
      match processar_linha ano mes l with
      | Conta valor => valor :: valores_contados ano mes resto
      | Pula => valores_contados ano mes resto
      | Encerra => []
      end
  end.

(** The amounts that the parser counts on the page [p] of the portal when
    the run fetches it: none when the GET raises, when the status is not
    200 and when there is no table body. *)
Definition valores_da_pagina (w : mundo) (ano : string) (mes : option string)
    (p : nat) : list float :=
  match get_notas w (url_pagina p) with
  | NotasResposta status_code s =>
      if (status_code =? 200)%Z then
        match tbody s with
        | Some linhas => valores_contados ano mes linhas
        | None => []
        end
      else []
  | NotasLevanta _ => []
  end.

(** The rows of the examples: an issued invoice with a competency and an
    amount. *)
Definition nota (competencia valor : string) : linha :=
  Linha true (Some competencia) (Some valor).

(** What the page [p] of the portal adds to the aggregate: the amount and
    the count of its rows, when its GET returns with status 200. *)
Definition contribuicao (w : mundo) (ano : string) (mes : option string)
    (p : nat) : option (float * nat) :=
  match get_notas w (url_pagina p) with
  | NotasResposta status_code s =>
      if (status_code =? 200)%Z
      then let '(f, k, _) := processar_pagina s ano mes in Some (f, k)
      else None
  | NotasLevanta _ => None
  end.

(** The pages [ps] folded once each, in order, from zero. *)
Definition agregado (w : mundo) (ano : string) (mes : option string)
    (ps : list nat) : float * nat :=
  fold_left
    (fun acc p =>
       match contribuicao w ano mes p with
       | Some (f, k) => (add (fst acc) f, (snd acc + k)%nat)
       | None => acc
       end)
    ps (zero, 0%nat).

(** The loop has been left. *)
Definition saiu (c : controle) : Prop :=
  match c with Saida _ => True | Volta _ => False end.

(** One statement or another, by whether the loop has been left. *)
Definition if_saiu (c : controle) (P Q : Prop) : Prop :=
  match c with Saida _ => P | Volta _ => Q end.

(** The GETs of the pages [1] to [k], as the log has them. *)
Definition gets_das_paginas (k : nat) : list evento :=
  map (fun p => EvGet (url_pagina p)) (seq 1 k).

(** What holds of the loop of [buscar_notas] after any number of turns
    from a state [e0], when [k] pages have been fetched: only GETs of the
    pages [1] to [k] were added to the log, the totals are these pages
    folded once each, and a loop that is not left is about to fetch the
    page [k + 1]. *)
Definition invariante (w : mundo) (ano : string) (mes : option string)
    (e0 : estado) (k : nat) (c : controle) (e : estado) : Prop :=
  fs e = fs e0 /\
  registro e = registro e0 ++ gets_das_paginas k /\
  agregado w ano mes (seq 1 k)
    = (faturamento_total (estado_de c), notas_processadas (estado_de c)) /\
  match c with
  | Volta st => pagina st = S k /\ continuar st = true
  | Saida _ => True
  end.

(** What the two [except] clauses of the login raise for an exception [e]
    of the [try] block. *)
Definition excecao_do_login (e : excecao) : excecao :=
  match classe_de e with
  | SSLError => falha_autenticacao
  | _ => if contains MARCA_AUTENTICACAO (str e) then e else falha_autenticacao
  end.

(** How the [try] block of the login ends, read off the answer of the
    portal: with the session and the identifier, or with the exception
    that arrives at the [except] clauses. *)
Definition desfecho_http (r : resposta_login)
  : (session * option string) + excecao :=
  match r with
  | LoginLevanta e => inr e
  | LoginResposta _ cookies corpo =>
      if existsb (String.eqb "Emissor") cookies then
        match corpo with
        | CorpoLevanta e => inr e
        | Corpo dropdown_perfil =>
            inl (Session (Some (CertPem, KeyPem)) cookies
                   (Some CertPem) (Some KeyPem) (Some TempDir),
                 extrair_cnpj dropdown_perfil)
        end
      else inr falha_autenticacao
  end.

Definition log_escrita : list evento :=
  [EvCarrega; EvMkdtemp; EvAbre CertPem; EvEscreve CertPem;
   EvAbre KeyPem; EvEscreve KeyPem].

Definition log_limpeza : list evento :=
  [EvRemove CertPem; EvRemove KeyPem; EvRmdir TempDir].

(** The login as a function of the state: the result and the state in
    each of its ways out. *)
Definition login_em (w : mundo) (certificado_base64 senha_certificado : string)
    (e0 : estado) : Efeito.resultado (session * option string) * estado :=
  match pkcs12_load w certificado_base64 senha_certificado with
  | None =>
      (Levanta falha_autenticacao, Estado (fs e0) (registro e0 ++ [EvCarrega]))
  | Some p12 =>
      match certificate p12, private_key p12 with
      | None, _ =>
          (Levanta (AttributeError "public_bytes"),
           Estado (Arquivos true true (existe_key (fs e0)))
                  (registro e0 ++ [EvCarrega; EvMkdtemp; EvAbre CertPem]))
      | Some _, None =>
          (Levanta (AttributeError "private_bytes"),
           Estado (Arquivos true true true)
                  (registro e0 ++ [EvCarrega; EvMkdtemp; EvAbre CertPem;
                                   EvEscreve CertPem; EvAbre KeyPem]))
      | Some _, Some _ =>
          match desfecho_http (get_certificado w) with
          | inl r =>
              (Retorna r,
               Estado (Arquivos true true true)
                      (registro e0 ++ log_escrita ++ [EvGet URL_CERTIFICADO]))
          | inr e =>
              (Levanta (excecao_do_login e),
               Estado (Arquivos false false false)
                      (registro e0 ++ log_escrita ++ [EvGet URL_CERTIFICADO]
                         ++ log_limpeza))
          end
      end
  end.

(** A month that the endpoint accepts: none, or an integer from 1 to 12. *)
Definition mes_aceito (mes : option string) : Prop :=
  mes = None \/ mes = Some "" \/
  exists m z, mes = Some m /\ py_int m = Some z /\ (1 <= z)%Z /\ (z <= 12)%Z.

(** The fields of the response that do not come from the listing. *)
Definition cnpj_da_resposta (cnpj : option string) : string :=
  match cnpj with
  | Some c => if truthy cnpj then c else "Não identificado"
  | None => "Não identificado"
  end.

Definition periodo_de (request : FaturamentoRequestCertificado)
    (mes_filtro : option string) : string :=
  match mes_filtro with
  | Some m =>
      if truthy mes_filtro then (m ++ "/" ++ ano request)%string
      else ano request
  | None => ano request
  end.

Definition mes_label_de (mes_filtro : option string) : string :=
  match mes_filtro with
  | Some m => if truthy mes_filtro then m else "Ano todo"
  | None => "Ano todo"
  end.

End Vocabulario.

(** ** Worlds of the examples *)

Module Exemplos.
Import Texto PyFloat Pagina Busca Vocabulario.

(** A loader that accepts every bundle. *)
Definition carrega_sempre (_ _ : string) : option pkcs12 :=
  Some (Pkcs12 (Some "KEY") (Some "CERT")).

(** A portal that has the pages [paginas], the first at page 1, and
    answers 404 beyond them. *)
Fixpoint servir (paginas : list resposta_notas) (p : nat) (url : string)
  : resposta_notas :=
  match paginas with
  | [] => NotasResposta 404 (Soup None None)
  | r :: resto =>
      if String.eqb url (url_pagina p) then r else servir resto (S p) url
  end.

Definition com_proxima (linhas : list linha) : soup :=
  Soup (Some linhas) (Some (DivPaginacao (Some (TagA (Some "/EmissorNacional/Notas/Emitidas?pg=2"))))).

Definition ultima (linhas : list linha) : soup :=
  Soup (Some linhas) (Some (DivPaginacao (Some (TagA (Some "javascript:void(0)"))))).

(** A login that succeeds, with a profile that shows a tax identifier. *)
Definition login_ok : resposta_login :=
  LoginResposta 200 ["Emissor"] (Corpo (Some "Empresa CNPJ: 12345678901234")).

(** Two pages: three rows in scope, then one row in scope and a row of an
    earlier year. *)
Definition mundo_duas_paginas : mundo :=
  Mundo carrega_sempre login_ok
    (servir [NotasResposta 200
               (com_proxima [nota "05/2025" "100,00"; nota "04/2025" "150,00";
                             nota "03/2025" "50,00"]);
             NotasResposta 200
               (ultima [nota "01/2025" "50,00"; nota "12/2024" "9,00"])] 1).

(** Two pages, the second with a negative amount. *)
Definition mundo_estorno : mundo :=
  Mundo carrega_sempre login_ok
    (servir [NotasResposta 200 (com_proxima [nota "05/2025" "10,00"]);
             NotasResposta 200 (ultima [nota "04/2025" "-5,00"])] 1).

(** A page in scope whose navigation element has no link to a next page. *)
Definition pagina_sem_link : soup :=
  Soup (Some [nota "05/2025" "10,00"]) (Some (DivPaginacao None)).

(** A login page that comes with status 200 and sets no cookie. *)
Definition mundo_sem_cookie : mundo :=
  Mundo carrega_sempre (LoginResposta 200 [] (Corpo None)) (servir [] 1).

(** A login whose GET times out. *)
Definition mundo_timeout : mundo :=
  Mundo carrega_sempre
    (LoginLevanta (Excecao (Outra "ReadTimeout") "Read timed out."))
    (servir [] 1).

(** A login whose GET raises an error that carries the marker in its own
    text. *)
Definition erro_com_marca : excecao :=
  Excecao (Outra "ConnectionError") "Autenticação não realizada pelo proxy".

Definition mundo_erro_com_marca : mundo :=
  Mundo carrega_sempre (LoginLevanta erro_com_marca) (servir [] 1).

(** A login that succeeds with a profile whose identifier has 11 digits,
    and a listing of one page. *)
Definition mundo_cpf : mundo :=
  Mundo carrega_sempre
    (LoginResposta 200 ["Emissor"] (Corpo (Some "Pessoa CNPJ: 12345678901")))
    (servir [NotasResposta 200 (ultima [nota "05/2025" "10,00"])] 1).

(** A login that succeeds, and a listing whose first page times out. *)
Definition mundo_listagem_cai : mundo :=
  Mundo carrega_sempre login_ok
    (fun _ => NotasLevanta (Excecao (Outra "ReadTimeout") "Read timed out.")).

Definition pedido (mes : option string) : FaturamentoRequestCertificado :=
  FaturamentoRequest "MIIKPAIBAzCC" "senha" "2025" mes.

End Exemplos.

(** ** Further vocabulary: the request schema, the clean-up, more worlds *)

Module Extensao.
Import Texto PyFloat Regex Pagina Efeito Login Busca Endpoint Vocabulario Exemplos.

(** The pattern [^\d{4}$] that the request model puts on [ano]: four
    digits and nothing else. *)
Definition ano_no_padrao (s : string) : bool :=
  (String.length s =? 4)%nat && forallb is_digit (chars s).

(** A text whose characters are all in the ASCII range, where [\d] of
    [re] is the ten digits and a character is a byte. *)
Definition so_ascii (s : string) : bool :=
  forallb (fun c => (codigo c <? 128)%nat) (chars s).

(** A character of an amount that is a digit or a thousands separator. *)
Definition digito_ou_ponto (c : ascii) : bool := is_digit c || Ascii.eqb c ".".

(** The session that a login that succeeds returns. *)
Definition sessao_de (cookies : list string) : session :=
  Session (Some (CertPem, KeyPem)) cookies
    (Some CertPem) (Some KeyPem) (Some TempDir).

(** The paths that are left when [limpar_arquivos_temporarios] has run on
    the session of a login: the three calls are in one [try], so the first
    that raises ends the clean-up. *)
Definition fs_apos_limpeza (a : arquivos) : arquivos :=
  if existe_cert a then
    if existe_key a then Arquivos false false false
    else Arquivos (existe_dir a) false false
  else a.

(** The state right after a login that succeeded, from the initial state. *)
Definition estado_logado : estado :=
  Estado (Arquivos true true true) (log_escrita ++ [EvGet URL_CERTIFICADO]).

(** The same request with another month. *)
Definition com_mes (request : FaturamentoRequestCertificado)
    (mes : option string) : FaturamentoRequestCertificado :=
  FaturamentoRequest (certificado_base64 request) (senha_certificado request)
    (ano request) mes.

(** What leaves the endpoint as an error: status 401 with a text that
    carries the marker, or status 500 with ["Erro: "] before a text that
    does not. *)
Definition erro_http (x : excecao) : Prop :=
  exists d,
    (x = http_exception 401 d /\ contains MARCA_AUTENTICACAO d = true) \/
    (x = http_exception 500 ("Erro: " ++ d)%string /\
     contains MARCA_AUTENTICACAO d = false).

(** A loader that rejects every bundle. *)
Definition mundo_carga_falha : mundo :=
  Mundo (fun _ _ => None) login_ok (servir [] 1).

(** A loader that finds a key and no certificate that matches it. *)
Definition mundo_sem_certificado : mundo :=
  Mundo (fun _ _ => Some (Pkcs12 (Some "KEY") None)) login_ok (servir [] 1).

(** A login that succeeds, and a listing that answers 403 at once. *)
Definition mundo_403 : mundo :=
  Mundo carrega_sempre login_ok
    (servir [NotasResposta 403 (com_proxima [nota "05/2025" "10,00"])] 1).

(** The listing of [mundo_duas_paginas], followed by pages that the run
    never asks for. *)
Definition mundo_com_mais_paginas : mundo :=
  Mundo carrega_sempre login_ok
    (servir [NotasResposta 200
               (com_proxima [nota "05/2025" "100,00"; nota "04/2025" "150,00";
                             nota "03/2025" "50,00"]);
             NotasResposta 200
               (ultima [nota "01/2025" "50,00"; nota "12/2024" "9,00"]);
             NotasResposta 200 (ultima [nota "02/2025" "999,00"])] 1).

End Extensao.

(** ** Properties of the page parser *)

Section PaginaFatos.
Import Texto PyFloat Regex Pagina Vocabulario.

Variable ano_filtro : string.
Variable Y : Z.
Variable mes_filtro : option string.
Hypothesis ano_valido : py_int ano_filtro = Some Y.

(** The body of the loop, read through the competency of the row. *)
Lemma processar_linha_competencia (l : linha) :
  processar_linha ano_filtro mes_filtro l =
  match competencia_de l with
  | None => Pula
  | Some (mes_nota, a) =>
      if (a <? Y)%Z then Encerra
      else if (a >? Y)%Z then Pula
      else if mes_diferente mes_filtro mes_nota then Pula
      else
        match td_valor l with
        | None => Pula
        | Some t =>
            match float_of_string (valor_limpo t) with
            | Some v => Conta v
            | None => Pula
            end
        end
  end.
Proof.
  unfold processar_linha, competencia_de.
  destruct (img_gerada l); simpl; [|reflexivity].
  destruct (td_competencia l) as [t|]; [|reflexivity].
  destruct (search_competencia t) as [[m a]|]; [|reflexivity].
  destruct (py_int a) as [z|]; [|reflexivity].
  rewrite ano_valido. reflexivity.
Qed.

Lemma encerra_sse_ano_anterior (l : linha) :
  processar_linha ano_filtro mes_filtro l = Encerra <-> ano_anterior Y l = true.
Proof.
  rewrite processar_linha_competencia. unfold ano_anterior.
  destruct (competencia_de l) as [[m a]|]; [|split; discriminate].
  destruct (a <? Y)%Z; [tauto|].
  split; [|discriminate].
  destruct (a >? Y)%Z; [discriminate|].
  destruct (mes_diferente mes_filtro m); [discriminate|].
  destruct (td_valor l) as [t|]; [|discriminate].
  destruct (float_of_string (valor_limpo t)); discriminate.
Qed.

Lemma filtro_exclui_mes_diferente (mes_nota : string) :
  filtro_de_mes_exclui mes_filtro mes_nota ->
  mes_diferente mes_filtro mes_nota = true.
Proof.
  intros (m & -> & Hm & Hdif). simpl.
  apply String.eqb_neq in Hm. apply String.eqb_neq in Hdif.
  rewrite Hm, Hdif. reflexivity.
Qed.

Lemma passa_filtros_linha (l : linha) :
  passa_filtros Y mes_filtro l ->
  processar_linha ano_filtro mes_filtro l =
  match td_valor l with
  | None => Pula
  | Some t =>
      match float_of_string (valor_limpo t) with
      | Some v => Conta v
      | None => Pula
      end
  end.
Proof.
  intros (m & Hc & Hm). rewrite processar_linha_competencia, Hc.
  rewrite Z.gtb_ltb, Z.ltb_irrefl.
  assert (mes_diferente mes_filtro m = false) as ->; [|reflexivity].
  destruct Hm as [-> | [-> | ->]]; simpl; try reflexivity.
  rewrite String.eqb_refl. apply andb_false_r.
Qed.

Lemma so_pulada_pula (l : linha) :
  so_pulada Y mes_filtro l -> processar_linha ano_filtro mes_filtro l = Pula.
Proof.
  intros [Hi | Hc | t Hc Hs | m a Hc Ha | m Hc Hm | Hp Hv | t Hp Hv Hf].
  - unfold processar_linha. rewrite Hi. reflexivity.
  - unfold processar_linha. rewrite Hc. destruct (img_gerada l); reflexivity.
  - unfold processar_linha. rewrite Hc, Hs. destruct (img_gerada l); reflexivity.
  - rewrite processar_linha_competencia, Hc.
    rewrite Z.gtb_ltb.
    replace (a <? Y)%Z with false by (symmetry; apply Z.ltb_ge; lia).
    replace (Y <? a)%Z with true by (symmetry; apply Z.ltb_lt; lia).
    reflexivity.
  - rewrite processar_linha_competencia, Hc.
    rewrite Z.gtb_ltb, Z.ltb_irrefl.
    rewrite (filtro_exclui_mes_diferente _ Hm). reflexivity.
  - rewrite (passa_filtros_linha _ Hp), Hv. reflexivity.
  - rewrite (passa_filtros_linha _ Hp), Hv, Hf. reflexivity.
Qed.

(** The loop over a concatenation: the second part is scanned only when
    the first left [continuar] true. *)
Lemma percorrer_app (pre post : list linha) (fat : float) (n : nat) :
  percorrer ano_filtro mes_filtro (pre ++ post) fat n =
  match percorrer ano_filtro mes_filtro pre fat n with
  | (f, k, true) => percorrer ano_filtro mes_filtro post f k
  | (f, k, false) => (f, k, false)
  end.
Proof.
  revert fat n. induction pre as [|x pre IH]; intros fat n; simpl.
  - reflexivity.
  - destruct (processar_linha ano_filtro mes_filtro x); auto.
Qed.

Lemma percorrer_sem_encerra (linhas : list linha) (fat : float) (n : nat) :
  (forall x, In x linhas -> ano_anterior Y x = false) ->
  exists f k, percorrer ano_filtro mes_filtro linhas fat n = (f, k, true).
Proof.
  revert fat n. induction linhas as [|x linhas IH]; intros fat n H; simpl.
  - eauto.
  - destruct (processar_linha ano_filtro mes_filtro x) eqn:E.
    + apply IH. intros; apply H; now right.
    + apply IH. intros; apply H; now right.
    + apply encerra_sse_ano_anterior in E.
      rewrite (H x (or_introl eq_refl)) in E. discriminate.
Qed.

Lemma percorrer_continuar_falso (linhas : list linha) (fat : float) (n : nat) :
  snd (percorrer ano_filtro mes_filtro linhas fat n) = false <->
  exists l, In l linhas /\ ano_anterior Y l = true.
Proof.
  revert fat n. induction linhas as [|x linhas IH]; intros fat n; simpl.
  - split; [discriminate | intros (l & [] & _)].
  - destruct (processar_linha ano_filtro mes_filtro x) eqn:E.
    + rewrite IH. split; intros (l & Hl & Ha); [eauto|].
      destruct Hl as [<-|Hl]; [|eauto].
      apply encerra_sse_ano_anterior in Ha. congruence.
    + rewrite IH. split; intros (l & Hl & Ha); [eauto|].
      destruct Hl as [<-|Hl]; [|eauto].
      apply encerra_sse_ano_anterior in Ha. congruence.
    + simpl. split; [intros _|reflexivity].
      exists x. split; [now left|]. now apply encerra_sse_ano_anterior.
Qed.

Lemma percorrer_pula (pre post : list linha) (r : linha) (fat : float) (n : nat) :
  processar_linha ano_filtro mes_filtro r = Pula ->
  percorrer ano_filtro mes_filtro (pre ++ r :: post) fat n =
  percorrer ano_filtro mes_filtro (pre ++ post) fat n.
Proof.
  intros H. rewrite !percorrer_app. simpl. rewrite H. reflexivity.
Qed.

Lemma processar_pagina_linhas (linhas : list linha) (pag : option div_paginacao) :
  linhas <> [] ->
  processar_pagina (Soup (Some linhas) pag) ano_filtro mes_filtro =
  percorrer ano_filtro mes_filtro linhas zero 0.
Proof.
  destruct linhas; [congruence | reflexivity].
Qed.

(** The scan as a fold: the total is the amounts counted, added from the
    left to the running total, and the count grows by their number. *)
Lemma percorrer_valores (linhas : list linha) (fat : float) (n : nat) :
  fst (percorrer ano_filtro mes_filtro linhas fat n) =
  (fold_left add (valores_contados ano_filtro mes_filtro linhas) fat,
   (n + List.length (valores_contados ano_filtro mes_filtro linhas))%nat).
Proof.
  revert fat n. induction linhas as [|x linhas IH]; intros fat n;
    cbn [percorrer valores_contados].
  - cbn. f_equal. lia.
  - destruct (processar_linha ano_filtro mes_filtro x).
    + rewrite IH. cbn [fold_left List.length]. f_equal. lia.
    + apply IH.
    + cbn. f_equal. lia.
Qed.

Lemma percorrer_continuar (linhas : list linha) (fat : float) (n : nat) :
  snd (percorrer ano_filtro mes_filtro linhas fat n) =
  forallb (fun x => negb (ano_anterior Y x)) linhas.
Proof.
  revert fat n. induction linhas as [|x linhas IH]; intros fat n;
    cbn [percorrer forallb]; [reflexivity|].
  destruct (ano_anterior Y x) eqn:Ea.
  - apply encerra_sse_ano_anterior in Ea. rewrite Ea. reflexivity.
  - destruct (processar_linha ano_filtro mes_filtro x) eqn:E; cbn [negb andb].
    + apply IH.
    + apply IH.
    + apply encerra_sse_ano_anterior in E. congruence.
Qed.

(** Rows that do not end the scan let the rows after them be scanned. *)
Lemma valores_contados_app (pre post : list linha) :
  (forall x, In x pre -> ano_anterior Y x = false) ->
  valores_contados ano_filtro mes_filtro (pre ++ post) =
  valores_contados ano_filtro mes_filtro pre
    ++ valores_contados ano_filtro mes_filtro post.
Proof.
  induction pre as [|x pre IH]; intros H; [reflexivity|].
  cbn [app valores_contados].
  destruct (processar_linha ano_filtro mes_filtro x) eqn:E.
  - cbn [app]. f_equal. apply IH. intros y Hy. apply H. now right.
  - apply IH. intros y Hy. apply H. now right.
  - apply encerra_sse_ano_anterior in E.
    rewrite (H x (or_introl eq_refl)) in E. discriminate.
Qed.

(** A row that passes the filters does not end the scan. *)
Lemma passa_filtros_nao_encerra (l : linha) :
  passa_filtros Y mes_filtro l -> ano_anterior Y l = false.
Proof.
  intros Hp. destruct (ano_anterior Y l) eqn:Ea; [|reflexivity].
  apply encerra_sse_ano_anterior in Ea.
  rewrite (passa_filtros_linha l Hp) in Ea.
  destruct (td_valor l) as [t|]; [|discriminate].
  destruct (float_of_string (valor_limpo t)); discriminate.
Qed.

(** The amounts counted around a row that the scan reaches and that passes
    the filters. *)
Lemma valores_contados_linha (pre post : list linha) (l : linha) (t : string) :
  (forall x, In x pre -> ano_anterior Y x = false) ->
  passa_filtros Y mes_filtro l ->
  td_valor l = Some t ->
  valores_contados ano_filtro mes_filtro (pre ++ l :: post) =
  match float_of_string (valor_limpo t) with
  | Some valor =>
      valores_contados ano_filtro mes_filtro pre
        ++ valor :: valores_contados ano_filtro mes_filtro post
  | None =>
      valores_contados ano_filtro mes_filtro pre
        ++ valores_contados ano_filtro mes_filtro post
  end.
Proof.
  intros Hpre Hp Hv.
  rewrite (valores_contados_app pre (l :: post) Hpre).
  cbn [valores_contados]. rewrite (passa_filtros_linha l Hp), Hv.
  destruct (float_of_string (valor_limpo t)); reflexivity.
Qed.

(** What a page with rows returns. *)
Lemma processar_pagina_valores (linhas : list linha) (pag : option div_paginacao) :
  linhas <> [] ->
  processar_pagina (Soup (Some linhas) pag) ano_filtro mes_filtro =
  (fold_left add (valores_contados ano_filtro mes_filtro linhas) zero,
   List.length (valores_contados ano_filtro mes_filtro linhas),
   forallb (fun x => negb (ano_anterior Y x)) linhas).
Proof.
  intros Hne. rewrite processar_pagina_linhas by exact Hne.
  pose proof (percorrer_valores linhas zero 0) as Hv.
  pose proof (percorrer_continuar linhas zero 0) as Hc.
  destruct (percorrer ano_filtro mes_filtro linhas zero 0) as [fn c].
  cbn [fst snd] in Hv, Hc. now rewrite Hv, Hc.
Qed.

End PaginaFatos.

Section PaginaTeoremas.
Import Texto PyFloat Regex Pagina Vocabulario.

(** C2.  Under the filter year [Y]: the first eligible row of an earlier
    year ends the scan of the page with [continuar] false, the page
    keeping what the rows before it gave and nothing of the rows after
    it; an eligible row of a later year, and an eligible row of the year
    [Y] whose month differs from a month filter that is set, are skipped
    and the scan goes on with the rows that follow. *)
Theorem C2_filtro_de_ano_e_mes :
  forall (ano_filtro : string) (Y : Z) (mes_filtro : option string),
    py_int ano_filtro = Some Y ->
    (forall pre r post pag,
        (forall x, In x pre -> ano_anterior Y x = false) ->
        ano_anterior Y r = true ->
        exists fat n,
          percorrer ano_filtro mes_filtro pre zero 0 = (fat, n, true) /\
          processar_pagina (Soup (Some (pre ++ r :: post)) pag)
            ano_filtro mes_filtro = (fat, n, false)) /\
    (forall pre r post pag mes_nota a,
        competencia_de r = Some (mes_nota, a) -> (Y < a)%Z ->
        processar_linha ano_filtro mes_filtro r = Pula /\
        processar_pagina (Soup (Some (pre ++ r :: post)) pag)
          ano_filtro mes_filtro =
        percorrer ano_filtro mes_filtro (pre ++ post) zero 0) /\
    (forall pre r post pag mes_nota,
        competencia_de r = Some (mes_nota, Y) ->
        filtro_de_mes_exclui mes_filtro mes_nota ->
        processar_linha ano_filtro mes_filtro r = Pula /\
        processar_pagina (Soup (Some (pre ++ r :: post)) pag)
          ano_filtro mes_filtro =
        percorrer ano_filtro mes_filtro (pre ++ post) zero 0).
Proof.
  intros ano_filtro Y mes_filtro Hano. split; [|split].
  - intros pre r post pag Hpre Hr.
    destruct (percorrer_sem_encerra ano_filtro Y mes_filtro Hano pre zero 0 Hpre)
      as (fat & n & Hper).
    exists fat, n. split; [exact Hper|].
    rewrite (processar_pagina_linhas ano_filtro mes_filtro)
      by (destruct pre; discriminate).
    rewrite percorrer_app, Hper. simpl.
    apply (encerra_sse_ano_anterior ano_filtro Y mes_filtro Hano) in Hr.
    rewrite Hr. reflexivity.
  - intros pre r post pag m a Hc Ha.
    assert (Hp : processar_linha ano_filtro mes_filtro r = Pula).
    { apply (so_pulada_pula ano_filtro Y mes_filtro Hano).
      now apply ano_posterior with m a. }
    split; [exact Hp|].
    rewrite (processar_pagina_linhas ano_filtro mes_filtro)
      by (destruct pre; discriminate).
    now apply percorrer_pula.
  - intros pre r post pag m Hc Hm.
    assert (Hp : processar_linha ano_filtro mes_filtro r = Pula).
    { apply (so_pulada_pula ano_filtro Y mes_filtro Hano).
      now apply mes_de_fora with m. }
    split; [exact Hp|].
    rewrite (processar_pagina_linhas ano_filtro mes_filtro)
      by (destruct pre; discriminate).
    now apply percorrer_pula.
Qed.


Lemma C2_filtro_de_ano_e_mes_witness :
  processar_pagina
    (Soup (Some ([nota "06/2025" "10,00"] ++ nota "12/2024" "1,00"
                   :: [nota "05/2025" "7,00"])) None)
    "2025" None = (Finito 10, 1%nat, false) /\
  processar_pagina
    (Soup (Some ([] ++ nota "01/2026" "1,00" :: [nota "05/2025" "7,00"])) None)
    "2025" None = (Finito 7, 1%nat, true) /\
  processar_pagina
    (Soup (Some ([] ++ nota "03/2025" "1,00" :: [nota "05/2025" "7,00"])) None)
    "2025" (Some "05") = (Finito 7, 1%nat, true).
Proof.
  destruct (C2_filtro_de_ano_e_mes "2025" 2025 None eq_refl) as (Ha & Hb & _).
  destruct (C2_filtro_de_ano_e_mes "2025" 2025 (Some "05") eq_refl) as (_ & _ & Hc).
  split; [|split].
  - destruct (Ha [nota "06/2025" "10,00"] (nota "12/2024" "1,00")
                [nota "05/2025" "7,00"] None) as (fat & n & Hpre & Hpag).
    + intros x [<-|[]]. reflexivity.
    + reflexivity.
    + rewrite Hpag. vm_compute in Hpre. congruence.
  - destruct (Hb [] (nota "01/2026" "1,00") [nota "05/2025" "7,00"] None
                "01" 2026%Z eq_refl) as (_ & Hpag); [lia|].
    rewrite Hpag. reflexivity.
  - destruct (Hc [] (nota "03/2025" "1,00") [nota "05/2025" "7,00"] None
                "03" eq_refl) as (_ & Hpag).
    + exists "05". repeat split; discriminate.
    + rewrite Hpag. reflexivity.
Defined.

Lemma valor_limpo_chars (t : string) :
  chars (valor_limpo t) = flat_map troca (chars t).
Proof.
  unfold valor_limpo, chars.
  induction t as [|c t IH]; [reflexivity|].
  cbn [replace list_ascii_of_string flat_map]. unfold troca at 1.
  destruct (Ascii.eqb c ".") eqn:Ep.
  - simpl. exact IH.
  - cbn [replace]. destruct (Ascii.eqb c ",") eqn:Ev.
    + simpl. f_equal. exact IH.
    + simpl. f_equal. exact IH.
Qed.

(** C3.  The monetary text loses every [.] and has every [,] turned into
    [.]; so ["1.234,56"] becomes ["1234.56"] and is 1234.56, ["0,00"] is
    0.0 and ["12,5"] is 12.5.  What a page with rows returns is the
    amounts counted, added one after the other to the total from zero,
    their number as the count, and [continuar] true unless a row of an
    earlier year is there.  For a row [l] that the scan reaches, that
    passes the filters and has an amount cell: when [float()] reads the
    text, the total that the page returns is the total of the rows before
    [l], plus the amount of [l], plus the amounts of the rows after it, and
    the count is one more than the counts of the rows before and after;
    when [float()] rejects the text, the row alone adds nothing, and the
    rows after it are scanned and counted all the same. *)
Theorem C3_valor_monetario :
  (forall t, chars (valor_limpo t) = flat_map troca (chars t)) /\
  (valor_limpo "1.234,56" = "1234.56" /\
   exists q, float_of_string (valor_limpo "1.234,56") = Some (Finito q)
             /\ q == 1234.56) /\
  (valor_limpo "0,00" = "0.00" /\
   exists q, float_of_string (valor_limpo "0,00") = Some (Finito q)
             /\ q == 0) /\
  (valor_limpo "12,5" = "12.5" /\
   exists q, float_of_string (valor_limpo "12,5") = Some (Finito q)
             /\ q == 12.5) /\
  (forall ano_filtro Y mes_filtro linhas pag,
      py_int ano_filtro = Some Y ->
      linhas <> [] ->
      processar_pagina (Soup (Some linhas) pag) ano_filtro mes_filtro =
      (fold_left add (valores_contados ano_filtro mes_filtro linhas) zero,
       List.length (valores_contados ano_filtro mes_filtro linhas),
       forallb (fun x => negb (ano_anterior Y x)) linhas)) /\
  (forall ano_filtro Y mes_filtro pre l post t pag,
      py_int ano_filtro = Some Y ->
      (forall x, In x pre -> ano_anterior Y x = false) ->
      passa_filtros Y mes_filtro l ->
      td_valor l = Some t ->
      let antes := valores_contados ano_filtro mes_filtro pre in
      let depois := valores_contados ano_filtro mes_filtro post in
      processar_pagina (Soup (Some (pre ++ l :: post)) pag) ano_filtro mes_filtro =
      match float_of_string (valor_limpo t) with
      | Some valor =>
          (fold_left add depois (add (fold_left add antes zero) valor),
           S (List.length antes + List.length depois),
           forallb (fun x => negb (ano_anterior Y x)) post)
      | None =>
          (fold_left add depois (fold_left add antes zero),
           (List.length antes + List.length depois)%nat,
           forallb (fun x => negb (ano_anterior Y x)) post)
      end).
Proof.
  split; [exact valor_limpo_chars|].
  split; [split; [reflexivity | eexists; split; [vm_compute; reflexivity | reflexivity]]|].
  split; [split; [reflexivity | eexists; split; [vm_compute; reflexivity | reflexivity]]|].
  split; [split; [reflexivity | eexists; split; [vm_compute; reflexivity | reflexivity]]|].
  split.
  - intros ano_filtro Y mes_filtro linhas pag Hano Hne.
    exact (processar_pagina_valores ano_filtro Y mes_filtro Hano linhas pag Hne).
  - intros ano_filtro Y mes_filtro pre l post t pag Hano Hpre Hp Hv antes depois.
    rewrite (processar_pagina_valores ano_filtro Y mes_filtro Hano)
      by (destruct pre; discriminate).
    rewrite (valores_contados_linha ano_filtro Y mes_filtro Hano pre post l t
               Hpre Hp Hv).
    fold antes depois.
    assert (Hc : forallb (fun x => negb (ano_anterior Y x)) (pre ++ l :: post)
                 = forallb (fun x => negb (ano_anterior Y x)) post).
    { rewrite forallb_app. cbn [forallb].
      rewrite (passa_filtros_nao_encerra ano_filtro Y mes_filtro Hano l Hp).
      cbn [negb andb].
      assert (forallb (fun x => negb (ano_anterior Y x)) pre = true) as ->;
        [|reflexivity].
      apply forallb_forall. intros x Hx. now rewrite (Hpre x Hx). }
    rewrite Hc.
    destruct (float_of_string (valor_limpo t)) as [valor|].
    + rewrite fold_left_app, length_app. cbn [fold_left List.length].
      f_equal. f_equal. lia.
    + rewrite fold_left_app, length_app. reflexivity.
Qed.

Lemma C3_valor_monetario_witness :
  processar_pagina
    (Soup (Some ([nota "06/2025" "10,00"] ++ nota "05/2025" "1.234,56"
                   :: [nota "05/2025" "12,5"])) None) "2025" None
  = (Finito (62853 # 50), 3%nat, true) /\
  processar_pagina
    (Soup (Some ([nota "06/2025" "10,00"] ++ nota "05/2025" "1,234,56"
                   :: [nota "05/2025" "12,5"])) None) "2025" None
  = (Finito (45 # 2), 2%nat, true).
Proof.
  destruct C3_valor_monetario as (_ & _ & _ & _ & _ & Hlinha).
  assert (Hpre : forall x, In x [nota "06/2025" "10,00"] ->
                           ano_anterior 2025 x = false).
  { intros x [<-|[]]. reflexivity. }
  assert (Hp : forall v, passa_filtros 2025 None (nota "05/2025" v)).
  { intros v. exists "05". split; [reflexivity | left; reflexivity]. }
  split.
  - rewrite (Hlinha "2025" 2025%Z None [nota "06/2025" "10,00"]
               (nota "05/2025" "1.234,56") [nota "05/2025" "12,5"] "1.234,56"
               None eq_refl Hpre (Hp _) eq_refl).
    vm_compute. reflexivity.
  - rewrite (Hlinha "2025" 2025%Z None [nota "06/2025" "10,00"]
               (nota "05/2025" "1,234,56") [nota "05/2025" "12,5"] "1,234,56"
               None eq_refl Hpre (Hp _) eq_refl).
    vm_compute. reflexivity.
Defined.

(** C9.  Under the filter year [Y], a table body with at least one row
    whose rows are all only skipped (no icon, a cell missing, no [MM/YYYY]
    label, a later year, another month, an amount that is not a number)
    gives zero amount, zero count and [continuar] true; and [continuar] is
    false exactly when the table body is absent, or has no row, or has an
    eligible row of an earlier year. *)
Theorem C9_pagina_so_de_puladas :
  forall (ano_filtro : string) (Y : Z) (mes_filtro : option string),
    py_int ano_filtro = Some Y ->
    (forall linhas pag,
        linhas <> [] ->
        (forall l, In l linhas -> so_pulada Y mes_filtro l) ->
        processar_pagina (Soup (Some linhas) pag) ano_filtro mes_filtro
        = (zero, 0%nat, true)) /\
    (forall s,
        snd (processar_pagina s ano_filtro mes_filtro) = false <->
        (tbody s = None \/ tbody s = Some [] \/
         exists linhas l, tbody s = Some linhas /\ In l linhas /\
                          ano_anterior Y l = true)).
Proof.
  intros ano_filtro Y mes_filtro Hano. split.
  - intros linhas pag Hne Hall.
    rewrite (processar_pagina_linhas ano_filtro mes_filtro) by exact Hne.
    clear Hne. generalize zero, 0%nat.
    induction linhas as [|x linhas IH]; intros f k; [reflexivity|].
    cbn [percorrer].
    rewrite (so_pulada_pula ano_filtro Y mes_filtro Hano x)
      by (apply Hall; now left).
    apply IH. intros l Hl. apply Hall. now right.
  - intros [[linhas|] pag]; cbn [tbody].
    + destruct linhas as [|x linhas].
      * simpl. split; [auto | reflexivity].
      * rewrite (processar_pagina_linhas ano_filtro mes_filtro) by discriminate.
        rewrite (percorrer_continuar_falso ano_filtro Y mes_filtro Hano).
        split.
        -- intros (l & Hl & Ha). right; right. exists (x :: linhas), l. auto.
        -- intros [H | [H | (ls & l & Hls & Hl & Ha)]]; try discriminate.
           injection Hls as <-. eauto.
    + simpl. split; [auto | reflexivity].
Qed.

Lemma C9_pagina_so_de_puladas_witness :
  processar_pagina
    (Soup (Some [Linha false (Some "05/2025") (Some "1,00");
                 Linha true None (Some "1,00");
                 nota "maio" "1,00";
                 nota "05/2026" "1,00";
                 nota "04/2025" "1,00";
                 Linha true (Some "05/2025") None;
                 nota "05/2025" "R$ 1,00"]) None)
    "2025" (Some "05") = (zero, 0%nat, true).
Proof.
  destruct (C9_pagina_so_de_puladas "2025" 2025 (Some "05") eq_refl) as (H & _).
  apply H; [discriminate|].
  assert (Hp : forall v, passa_filtros 2025 (Some "05") (Linha true (Some "05/2025") v)).
  { intros v. exists "05". split; [reflexivity | right; right; reflexivity]. }
  intros l [<-|[<-|[<-|[<-|[<-|[<-|[<-|[]]]]]]]].
  - now apply sem_icone.
  - now apply sem_celula_competencia.
  - now apply sem_competencia with "maio".
  - apply ano_posterior with "05" 2026%Z; [reflexivity | lia].
  - apply mes_de_fora with "04"; [reflexivity|].
    exists "05". repeat split; discriminate.
  - apply sem_celula_valor; [apply Hp | reflexivity].
  - apply valor_invalido with "R$ 1,00"; [apply Hp | reflexivity | reflexivity].
Defined.

End PaginaTeoremas.

(** ** Properties of floats *)

Section FloatFatos.
Import PyFloat.

Lemma le_zero_refl (x : float) : le zero x -> le x x.
Proof.
  destruct x as [q|[]|]; cbn [le zero]; auto. intros _. apply Qle_refl.
Qed.

Lemma le_trans (x y z : float) : le x y -> le y z -> le x z.
Proof.
  destruct x as [p|[]|], y as [q|[]|], z as [r|[]|]; cbn [le]; try tauto.
  apply Qle_trans.
Qed.

Lemma le_add_nonneg (x y : float) :
  le zero x -> le zero y -> le x (add x y) /\ le zero (add x y).
Proof.
  destruct x as [p|[]|], y as [q|[]|]; cbn [le add zero Bool.eqb]; try tauto.
  intros Hp Hq. rewrite !Qred_correct. split.
  - rewrite <- (Qplus_0_r p) at 1. apply Qplus_le_compat; [apply Qle_refl | exact Hq].
  - rewrite <- (Qplus_0_r 0). apply Qplus_le_compat; assumption.
Qed.

End FloatFatos.

(** ** Properties of the pagination loop *)

Section BuscaFatos.
Import Texto PyFloat Pagina Efeito Busca Vocabulario.

Variable w : mundo.
Variable ano : string.
Variable mes : option string.

Lemma iteracao_saida (status_code : Z) (s : soup) (st : laco) :
  saiu (iteracao ano mes status_code s st) <->
  para_pela_spec ano mes status_code s \/ sem_link_proxima s.
Proof.
  unfold iteracao, para_pela_spec, sem_link_proxima.
  destruct (status_code =? 200)%Z eqn:Est; simpl.
  2:{ apply Z.eqb_neq in Est. tauto. }
  apply Z.eqb_eq in Est.
  destruct (processar_pagina s ano mes) as [[fp np] cont]. simpl.
  destruct cont; simpl; [|tauto].
  destruct (paginacao s) as [d|]; simpl; [|tauto].
  destruct (link_proxima d) as [a|] eqn:El; simpl.
  2:{ split; [intros _|tauto]. right. eauto. }
  destruct (contains "javascript:" (href_de a)) eqn:Ej; simpl.
  - split; [intros _|tauto]. left. right. right. right. eauto.
  - split; [tauto|].
    intros [[H | [H | [H | (d' & a' & Hd & Ha & Hj)]]] | (d' & Hd & Hl)];
      try congruence; try discriminate.
Qed.

Lemma iteracao_volta (status_code : Z) (s : soup) (st st' : laco) :
  iteracao ano mes status_code s st = Volta st' ->
  pagina st' = (pagina st + 1)%nat /\ continuar st' = true /\
  status_code = 200%Z /\
  faturamento_total st' =
    add (faturamento_total st) (fst (fst (processar_pagina s ano mes))) /\
  notas_processadas st' =
    (notas_processadas st + snd (fst (processar_pagina s ano mes)))%nat.
Proof.
  unfold iteracao.
  destruct (status_code =? 200)%Z eqn:Est; simpl; [|discriminate].
  apply Z.eqb_eq in Est.
  destruct (processar_pagina s ano mes) as [[fp np] cont]. simpl.
  destruct cont; simpl; [|discriminate].
  destruct (paginacao s) as [d|]; [|discriminate].
  destruct (link_proxima d) as [a|]; [|discriminate].
  destruct (contains "javascript:" (href_de a)); [discriminate|].
  intros [= <-]. simpl. auto.
Qed.

(** What an iteration does to the totals, whichever way it ends. *)
Lemma iteracao_totais (status_code : Z) (s : soup) (st : laco) :
  let st' := estado_de (iteracao ano mes status_code s st) in
  if (status_code =? 200)%Z then
    faturamento_total st' =
      add (faturamento_total st) (fst (fst (processar_pagina s ano mes))) /\
    notas_processadas st' =
      (notas_processadas st + snd (fst (processar_pagina s ano mes)))%nat /\
    continuar st' = snd (processar_pagina s ano mes)
  else st' = st.
Proof.
  unfold iteracao.
  destruct (status_code =? 200)%Z; simpl; [|reflexivity].
  destruct (processar_pagina s ano mes) as [[fp np] cont]. simpl.
  destruct cont; simpl; [|auto].
  destruct (paginacao s) as [d|]; [|simpl; auto].
  destruct (link_proxima d) as [a|]; [|simpl; auto].
  destruct (contains "javascript:" (href_de a)); simpl; auto.
Qed.

(** One turn, spelled out on the state. *)
Lemma volta_eq (c : controle) (e : estado) :
  volta w ano mes c e =
  match c with
  | Saida st => (Retorna (Saida st), e)
  | Volta st =>
      if continuar st then
        let e1 := Estado (fs e) (registro e ++ [EvGet (url_pagina (pagina st))]) in
        match get_notas w (url_pagina (pagina st)) with
        | NotasLevanta x => (Levanta x, e1)
        | NotasResposta status_code s =>
            (Retorna (iteracao ano mes status_code s st), e1)
        end
      else (Retorna (Saida st), e)
  end.
Proof.
  destruct c as [st|st]; [|reflexivity].
  unfold volta. destruct (continuar st); [|reflexivity].
  unfold bind, anota. simpl.
  destruct (get_notas w (url_pagina (pagina st))); reflexivity.
Qed.

Lemma voltas_saida (n : nat) (st : laco) (e : estado) :
  voltas n w ano mes (Saida st) e = (Retorna (Saida st), e).
Proof.
  induction n as [|n IH]; [reflexivity|].
  cbn [voltas]. unfold bind. rewrite volta_eq. exact IH.
Qed.

(** [n + 1] turns are [n] turns and one more. *)
Lemma voltas_mais_uma (n : nat) (c : controle) (e : estado) :
  voltas (S n) w ano mes c e =
  match voltas n w ano mes c e with
  | (Retorna c', e') => volta w ano mes c' e'
  | (Levanta x, e') => (Levanta x, e')
  end.
Proof.
  revert c e. induction n as [|n IH]; intros c e.
  - cbn [voltas]. unfold bind, ret.
    destruct (volta w ano mes c e) as [[c'|x] e']; reflexivity.
  - change (voltas (S (S n)) w ano mes c e)
      with (bind (volta w ano mes c) (fun c' => voltas (S n) w ano mes c') e).
    change (voltas (S n) w ano mes c e)
      with (bind (volta w ano mes c) (fun c' => voltas n w ano mes c') e).
    unfold bind.
    destruct (volta w ano mes c e) as [[c'|x] e']; [apply IH | reflexivity].
Qed.

Lemma voltas_fs (n : nat) (c : controle) (e e' : estado) r :
  voltas n w ano mes c e = (r, e') -> fs e' = fs e.
Proof.
  revert c e. induction n as [|n IH]; intros c e.
  - cbn. intros [= _ <-]. reflexivity.
  - cbn [voltas]. unfold bind. rewrite volta_eq.
    destruct c as [st|st].
    + destruct (continuar st).
      * destruct (get_notas w (url_pagina (pagina st))).
        -- intros [= _ <-]. reflexivity.
        -- intros H. apply IH in H. exact H.
      * intros H. apply IH in H. exact H.
    + intros H. apply IH in H. exact H.
Qed.

End BuscaFatos.

Section UrlFatos.
Import Texto Busca.

Lemma str_nat_inj (m n : nat) : str_nat m = str_nat n -> m = n.
Proof.
  unfold str_nat. intros H.
  assert (Hu : Some (Nat.to_uint m) = Some (Nat.to_uint n)).
  { rewrite <- !NilEmpty.usu. now rewrite H. }
  injection Hu as Hu.
  rewrite <- (DecimalNat.Unsigned.of_to m), <- (DecimalNat.Unsigned.of_to n).
  now rewrite Hu.
Qed.

Lemma append_inj_l (p a b : string) : (p ++ a = p ++ b)%string -> a = b.
Proof.
  induction p as [|c p IH]; simpl; [auto|]. intros [= H]. auto.
Qed.

Lemma append_nao_vazio (p a : string) : a <> ""%string -> (p ++ a)%string <> p.
Proof.
  intros Ha H. apply Ha.
  apply (append_inj_l p). rewrite H. clear.
  induction p as [|c p IH]; simpl; [reflexivity|]. now rewrite <- IH.
Qed.

Lemma url_pagina_inj (m n : nat) : url_pagina m = url_pagina n -> m = n.
Proof.
  unfold url_pagina.
  destruct (m =? 1)%nat eqn:Em, (n =? 1)%nat eqn:En.
  - apply Nat.eqb_eq in Em, En. congruence.
  - intros H. symmetry in H. apply append_nao_vazio in H; [tauto | discriminate].
  - intros H. apply append_nao_vazio in H; [tauto | discriminate].
  - intros H. apply append_inj_l in H. apply (append_inj_l "?pg=") in H.
    now apply str_nat_inj.
Qed.

Lemma url_paginas_NoDup (k : nat) : NoDup (map url_pagina (seq 1 k)).
Proof.
  apply Injective_map_NoDup; [|apply seq_NoDup].
  intros m n. apply url_pagina_inj.
Qed.

End UrlFatos.

Section InvarianteFatos.
Import Texto PyFloat Pagina Efeito Busca Vocabulario.

Variable w : mundo.
Variable ano : string.
Variable mes : option string.

Lemma agregado_mais_uma (k : nat) :
  agregado w ano mes (seq 1 (S k)) =
  match contribuicao w ano mes (S k) with
  | Some (f, j) =>
      (add (fst (agregado w ano mes (seq 1 k))) f,
       (snd (agregado w ano mes (seq 1 k)) + j)%nat)
  | None => agregado w ano mes (seq 1 k)
  end.
Proof.
  unfold agregado. rewrite seq_S, fold_left_app. reflexivity.
Qed.

Lemma gets_das_paginas_mais_uma (k : nat) :
  gets_das_paginas (S k) = gets_das_paginas k ++ [EvGet (url_pagina (S k))].
Proof.
  unfold gets_das_paginas. rewrite seq_S, map_app. reflexivity.
Qed.

(** A turn keeps the invariant, with one more page when it fetches. *)
Lemma volta_invariante (e0 : estado) (k : nat) (c c' : controle) (e e' : estado) :
  invariante w ano mes e0 k c e ->
  volta w ano mes c e = (Retorna c', e') ->
  (saiu c /\ c' = c /\ e' = e) \/
  (~ saiu c /\ invariante w ano mes e0 (S k) c' e' /\
   registro e' = registro e ++ [EvGet (url_pagina (S k))]).
Proof.
  intros (Hfs & Hreg & Hag & Hc). rewrite volta_eq.
  destruct c as [st|st].
  2:{ intros [= <- <-]. left. simpl. auto. }
  destruct Hc as (Hpag & Hcont). rewrite Hcont, Hpag.
  destruct (get_notas w (url_pagina (S k))) as [x|status_code s] eqn:Eget;
    [discriminate|].
  intros [= <- <-]. right. split; [simpl; tauto|]. split; [|reflexivity].
  unfold invariante. cbn [fs registro].
  split; [exact Hfs|]. split.
  { rewrite Hreg, gets_das_paginas_mais_uma. now rewrite app_assoc. }
  split.
  - rewrite agregado_mais_uma. unfold contribuicao. rewrite Eget, Hag.
    pose proof (iteracao_totais ano mes status_code s st) as Ht.
    cbv zeta in Ht. cbn [estado_de fst snd].
    destruct (status_code =? 200)%Z.
    + destruct Ht as (Hf & Hn & _). rewrite Hf, Hn.
      destruct (processar_pagina s ano mes) as [[fp np] cont]. reflexivity.
    + rewrite Ht. reflexivity.
  - destruct (iteracao ano mes status_code s st) as [st'|st'] eqn:Eit; [|exact I].
    apply iteracao_volta in Eit. destruct Eit as (Hp & Hct & _).
    split; [rewrite Hp, Hpag; lia | exact Hct].
Qed.

Lemma voltas_invariante (n : nat) (e0 : estado) (c : controle) (e : estado) :
  voltas n w ano mes (Volta laco_inicial) e0 = (Retorna c, e) ->
  exists k, (k <= n)%nat /\ invariante w ano mes e0 k c e.
Proof.
  revert c e. induction n as [|n IH]; intros c e.
  - cbn. intros [= <- <-]. exists 0%nat. split; [lia|].
    unfold invariante, gets_das_paginas. simpl. rewrite app_nil_r. auto.
  - rewrite voltas_mais_uma.
    destruct (voltas n w ano mes (Volta laco_inicial) e0) as [[c1|x] e1];
      [|discriminate].
    destruct (IH c1 e1 eq_refl) as (k & Hk & Hinv).
    intros Hv.
    destruct (volta_invariante e0 k c1 c e1 e Hinv Hv)
      as [(_ & -> & ->) | (_ & Hinv' & _)].
    + exists k. split; [lia | exact Hinv].
    + exists (S k). split; [lia | exact Hinv'].
Qed.

Lemma zero_le_zero : le zero zero.
Proof. cbn. apply Qle_refl. Qed.

(** Amounts that are not negative give totals that are not negative. *)
Lemma fold_add_nao_negativo (vs : list float) (a : float) :
  (forall v, In v vs -> le zero v) -> le zero a ->
  le zero (fold_left add vs a).
Proof.
  revert a. induction vs as [|v vs IH]; intros a Hvs Ha; [exact Ha|].
  cbn [fold_left]. apply IH; [intros x Hx; apply Hvs; now right|].
  apply le_add_nonneg; [exact Ha | apply Hvs; now left].
Qed.

(** What a page adds is the amounts that the parser counts on it. *)
Lemma contribuicao_valores (p : nat) (f : float) (j : nat) :
  contribuicao w ano mes p = Some (f, j) ->
  f = fold_left add (valores_da_pagina w ano mes p) zero.
Proof.
  unfold contribuicao, valores_da_pagina.
  destruct (get_notas w (url_pagina p)) as [x|status_code s]; [discriminate|].
  destruct (status_code =? 200)%Z; [|discriminate].
  unfold processar_pagina.
  destruct (tbody s) as [[|x linhas]|].
  - intros [= <- _]. reflexivity.
  - pose proof (percorrer_valores ano mes (x :: linhas) zero 0) as Hv.
    destruct (percorrer ano mes (x :: linhas) zero 0) as [[fp np] cont].
    cbn [fst] in Hv. injection Hv as -> _. intros [= <- _]. reflexivity.
  - intros [= <- _]. reflexivity.
Qed.

Lemma agregado_nao_negativo (ps : list nat) :
  (forall p v, In p ps -> In v (valores_da_pagina w ano mes p) -> le zero v) ->
  le zero (fst (agregado w ano mes ps)).
Proof.
  intros Hv. unfold agregado.
  assert (H : forall acc : float * nat, le zero (fst acc) ->
    le zero (fst (fold_left
      (fun acc p =>
         match contribuicao w ano mes p with
         | Some (f, k) => (add (fst acc) f, (snd acc + k)%nat)
         | None => acc
         end) ps acc))).
  { induction ps as [|p ps IH]; intros acc Hacc; [exact Hacc|].
    cbn [fold_left]. apply IH; [intros q v Hq; apply Hv; now right|].
    destruct (contribuicao w ano mes p) as [[f j]|] eqn:Ec; [|exact Hacc].
    cbn [fst]. apply le_add_nonneg; [exact Hacc|].
    rewrite (contribuicao_valores p f j Ec).
    apply fold_add_nao_negativo; [|apply zero_le_zero].
    intros v Hin. apply (Hv p v); [now left | exact Hin]. }
  apply H. apply zero_le_zero.
Qed.

End InvarianteFatos.

Section BuscaTeoremas.
Import Texto PyFloat Pagina Efeito Busca Vocabulario Exemplos.

(** C4, as the specification states it, fails: a page that came with
    status 200, has a row in scope, and has the navigation element without
    a link to a next page ends the loop, and none of the four conditions
    holds of it. *)
Lemma C4_counterexample :
  saiu (iteracao "2025" None 200 pagina_sem_link laco_inicial) /\
  ~ para_pela_spec "2025" None 200 pagina_sem_link.
Proof.
  split; [exact I|].
  intros [H | [H | [H | (d & a & Hd & Ha & _)]]].
  - now apply H.
  - discriminate H.
  - discriminate H.
  - injection Hd as <-. discriminate Ha.
Qed.

(** C4, amended.  After a page has been fetched, the loop is left exactly
    when the status is not 200, or the parser returns [continuar] false,
    or the page has no navigation element, or the navigation element has
    no link to a next page, or that link has a [javascript:] href.  A page
    whose table body is absent or has no row gives zero amount, zero count
    and [continuar] false, and the loop is left.  Once the loop is left no
    further page is fetched, however many turns are allowed; when it is
    not left, the next turn fetches the next page. *)
Theorem C4_parada_da_paginacao :
  forall (w : mundo) (ano : string) (mes : option string)
         (status_code : Z) (s : soup) (st : laco),
    (saiu (iteracao ano mes status_code s st) <->
     para_pela_spec ano mes status_code s \/ sem_link_proxima s) /\
    (tbody s = None \/ tbody s = Some [] ->
     processar_pagina s ano mes = (zero, 0%nat, false) /\
     saiu (iteracao ano mes status_code s st)) /\
    (forall e,
        continuar st = true ->
        get_notas w (url_pagina (pagina st)) = NotasResposta status_code s ->
        let e1 := Estado (fs e) (registro e ++ [EvGet (url_pagina (pagina st))]) in
        if_saiu (iteracao ano mes status_code s st)
          (forall n, voltas (S n) w ano mes (Volta st) e
                     = (Retorna (iteracao ano mes status_code s st), e1))
          (exists r e2,
              voltas 2 w ano mes (Volta st) e = (r, e2) /\
              registro e2 = registro e1 ++ [EvGet (url_pagina (pagina st + 1))])).
Proof.
  intros w ano mes status_code s st. split; [apply iteracao_saida|]. split.
  - intros Hvazio.
    assert (Hp : processar_pagina s ano mes = (zero, 0%nat, false)).
    { unfold processar_pagina. destruct Hvazio as [-> | ->]; reflexivity. }
    split; [exact Hp|].
    apply iteracao_saida. left. right. left. now rewrite Hp.
  - intros e Hcont Hget e1.
    destruct (iteracao ano mes status_code s st) as [st'|st'] eqn:Eit;
      cbn [if_saiu].
    + apply iteracao_volta in Eit as Hv. destruct Hv as (Hp & Hc & _).
      destruct (voltas 2 w ano mes (Volta st) e) as [r e2] eqn:Ev.
      exists r, e2. split; [reflexivity|].
      rewrite !voltas_mais_uma in Ev. cbn [voltas] in Ev. unfold ret in Ev.
      cbv iota beta in Ev.
      rewrite volta_eq, Hcont, Hget, Eit in Ev.
      cbv iota beta zeta in Ev.
      rewrite volta_eq, Hc, Hp in Ev. subst e1.
      destruct (get_notas w (url_pagina (pagina st + 1)));
        injection Ev as <- <-; reflexivity.
    + intros n. cbn [voltas]. unfold bind. rewrite volta_eq, Hcont, Hget, Eit.
      apply voltas_saida.
Qed.

Lemma C4_parada_da_paginacao_witness :
  saiu (iteracao "2025" None 200 (Soup (Some []) None) laco_inicial) /\
  (forall n, exists e,
      voltas (S n) mundo_duas_paginas "2025" None (Volta (Laco (Finito 300) 3 2 true))
        estado_inicial
      = (Retorna (Saida (Laco (Finito 350) 4 2 false)), e) /\
      registro e = [EvGet (url_pagina 2)]).
Proof.
  split.
  - apply (C4_parada_da_paginacao mundo_duas_paginas "2025" None 200
             (Soup (Some []) None) laco_inicial).
    right. reflexivity.
  - intros n.
    destruct (C4_parada_da_paginacao mundo_duas_paginas "2025" None 200
                (ultima [nota "01/2025" "50,00"; nota "12/2024" "9,00"])
                (Laco (Finito 300) 3 2 true)) as (_ & _ & H).
    specialize (H estado_inicial eq_refl eq_refl). cbv zeta in H.
    exists (Estado (Arquivos false false false) [EvGet (url_pagina 2)]).
    split; [|reflexivity].
    cbn [if_saiu] in H. rewrite (H n). vm_compute. reflexivity.
Defined.

(** C6, as the specification states it, fails for the amount: a page whose
    row has a negative amount makes the accumulated total decrease from
    one turn of the loop to the next. *)
Lemma C6_counterexample :
  exists c e c' e',
    voltas 1 mundo_estorno "2025" None (Volta laco_inicial) estado_inicial
      = (Retorna c, e) /\
    voltas 2 mundo_estorno "2025" None (Volta laco_inicial) estado_inicial
      = (Retorna c', e') /\
    faturamento_total (estado_de c) = Finito 10 /\
    faturamento_total (estado_de c') = Finito 5 /\
    ~ le (faturamento_total (estado_de c)) (faturamento_total (estado_de c')).
Proof.
  do 4 eexists.
  split; [vm_compute; reflexivity|].
  split; [vm_compute; reflexivity|].
  split; [reflexivity|]. split; [reflexivity|].
  cbn. unfold Qle. simpl. lia.
Qed.

(** C6, amended.  From one turn of the loop of [buscar_notas] to the next:
    the matched count does not decrease; [continuar] never goes from false
    to true, and once it is false, or the loop is left, nothing changes
    any more and no page is fetched; the pages fetched are the pages 1 to
    [k] in order, each once, and the totals are these pages folded once
    each; and the accumulated amount does not decrease when every amount
    that the parser counts on these pages is a number that is not
    negative. *)
Theorem C6_invariantes_da_paginacao :
  forall (w : mundo) (ano : string) (mes : option string) (n : nat)
         (e0 : estado) (c c' : controle) (e e' : estado),
    voltas n w ano mes (Volta laco_inicial) e0 = (Retorna c, e) ->
    voltas (S n) w ano mes (Volta laco_inicial) e0 = (Retorna c', e') ->
    (notas_processadas (estado_de c) <= notas_processadas (estado_de c'))%nat /\
    (continuar (estado_de c') = true -> continuar (estado_de c) = true) /\
    (continuar (estado_de c) = false \/ saiu c -> c' = c /\ e' = e) /\
    (exists k,
        (k <= S n)%nat /\
        registro e' = registro e0 ++ gets_das_paginas k /\
        NoDup (map url_pagina (seq 1 k)) /\
        agregado w ano mes (seq 1 k)
        = (faturamento_total (estado_de c'), notas_processadas (estado_de c')) /\
        ((forall p v, (1 <= p <= k)%nat ->
                      In v (valores_da_pagina w ano mes p) -> le zero v) ->
         le (faturamento_total (estado_de c)) (faturamento_total (estado_de c')))).
Proof.
  intros w ano mes n e0 c c' e e' Hn HSn.
  destruct (voltas_invariante w ano mes n e0 c e Hn) as (k & Hk & Hinv).
  rewrite voltas_mais_uma, Hn in HSn.
  assert (Hsaida : saiu c -> c' = c /\ e' = e).
  { destruct c as [st|st]; [intros []|]. rewrite volta_eq in HSn.
    injection HSn as <- <-. auto. }
  assert (Hvolta : forall st, c = Volta st -> continuar st = true).
  { intros st ->. apply Hinv. }
  assert (Hseq : forall j (P : nat -> Prop),
             (forall p, (1 <= p <= j)%nat -> P p) ->
             forall p, In p (seq 1 j) -> P p).
  { intros j P HP p Hp. apply HP. apply in_seq in Hp. lia. }
  destruct (volta_invariante w ano mes e0 k c c' e e' Hinv HSn)
    as [(Hs & -> & ->) | (Hns & Hinv' & Hreg)].
  - (* the loop was left already *)
    destruct Hinv as (_ & Hr & Hag & _).
    split; [lia|]. split; [auto|]. split; [auto|].
    exists k. split; [lia|]. split; [exact Hr|].
    split; [apply url_paginas_NoDup|]. split; [exact Hag|].
    intros Hv. apply le_zero_refl.
    assert (H0 : le zero (fst (agregado w ano mes (seq 1 k)))).
    { apply agregado_nao_negativo. intros p v Hp. revert v.
      apply (Hseq k (fun p => forall v, In v (valores_da_pagina w ano mes p) ->
                                        le zero v)); [|exact Hp].
      intros q Hq v. now apply Hv. }
    now rewrite Hag in H0.
  - (* one more page was fetched *)
    destruct c as [st|st]; [|now destruct Hns].
    pose proof (Hvolta st eq_refl) as Hcont.
    destruct Hinv as (_ & _ & Hag & Hpag & _).
    destruct Hinv' as (_ & Hr' & Hag' & _).
    rewrite agregado_mais_uma, Hag in Hag'. cbn [fst snd estado_de] in Hag'.
    cbn [estado_de].
    split.
    { destruct (contribuicao w ano mes (S k)) as [[f j]|];
        injection Hag' as _ Hn'; rewrite <- Hn'; lia. }
    split; [intros _; exact Hcont|].
    split.
    { intros [H | []]. congruence. }
    exists (S k). split; [lia|]. split; [exact Hr'|].
    split; [apply url_paginas_NoDup|].
    split; [rewrite agregado_mais_uma, Hag; exact Hag'|].
    intros Hv.
    assert (H0 : le zero (fst (agregado w ano mes (seq 1 k)))).
    { apply agregado_nao_negativo. intros p v Hp. revert v.
      apply (Hseq k (fun p => forall v, In v (valores_da_pagina w ano mes p) ->
                                        le zero v)); [|exact Hp].
      intros q Hq v. apply Hv. lia. }
    rewrite Hag in H0. cbn [fst] in H0.
    destruct (contribuicao w ano mes (S k)) as [[f j]|] eqn:Ec;
      injection Hag' as Hf' _; rewrite <- Hf'.
    + apply le_add_nonneg; [exact H0|].
      rewrite (contribuicao_valores w ano mes (S k) f j Ec).
      apply fold_add_nao_negativo; [|apply zero_le_zero].
      intros v Hin. apply (Hv (S k) v); [lia | exact Hin].
    + now apply le_zero_refl.
Qed.

Lemma mundo_duas_paginas_valores (p : nat) (v : float) :
  (1 <= p <= 2)%nat ->
  In v (valores_da_pagina mundo_duas_paginas "2025" None p) -> le zero v.
Proof.
  intros Hp. assert (Hc : p = 1%nat \/ p = 2%nat) by lia.
  destruct Hc as [-> | ->]; vm_compute; intuition (subst; discriminate).
Qed.

Lemma C6_invariantes_da_paginacao_witness :
  (3 <= 4)%nat /\
  le (Finito 300) (Finito 350) /\
  exists k,
    (k <= 2)%nat /\
    [EvGet (url_pagina 1); EvGet (url_pagina 2)] = [] ++ gets_das_paginas k /\
    NoDup (map url_pagina (seq 1 k)) /\
    agregado mundo_duas_paginas "2025" None (seq 1 k) = (Finito 350, 4%nat).
Proof.
  destruct (C6_invariantes_da_paginacao mundo_duas_paginas "2025" None 1
              estado_inicial
              (Volta (Laco (Finito 300) 3 2 true))
              (Saida (Laco (Finito 350) 4 2 false))
              (Estado (Arquivos false false false) [EvGet (url_pagina 1)])
              (Estado (Arquivos false false false)
                 [EvGet (url_pagina 1); EvGet (url_pagina 2)])
              eq_refl eq_refl)
    as (Hn & _ & _ & k & Hk & Hlog & Hnd & Hag & Hf).
  split; [exact Hn|]. split.
  - apply Hf. intros p v Hp. apply mundo_duas_paginas_valores. lia.
  - exists k. auto.
Defined.

End BuscaTeoremas.

(** ** Properties of the login and of the endpoint *)

Section LoginFatos.
Import Texto Regex Efeito Login Busca Endpoint Vocabulario.

Lemma sem_emissor (cookies : list string) :
  ~ In "Emissor" cookies -> existsb (String.eqb "Emissor") cookies = false.
Proof.
  intros H. destruct (existsb (String.eqb "Emissor") cookies) eqn:E; [|reflexivity].
  apply existsb_exists in E. destruct E as (x & Hx & Heq).
  apply String.eqb_eq in Heq. subst x. contradiction.
Qed.

Lemma com_emissor (cookies : list string) :
  In "Emissor" cookies -> existsb (String.eqb "Emissor") cookies = true.
Proof.
  intros H. apply existsb_exists. exists "Emissor". split; [exact H|].
  apply String.eqb_refl.
Qed.

Ltac reduz_estado :=
  cbv beta;
  cbn [fs registro Os.com Os.existe existe_dir existe_cert existe_key
       negb orb andb classe_de str certificate private_key falha_autenticacao].

Variable w : mundo.
Variables certificado_base64 senha_certificado : string.

(** The login, spelled out on the state. *)
Lemma fazer_login_certificado_eq (e0 : estado) :
  fazer_login_certificado w certificado_base64 senha_certificado e0 =
  login_em w certificado_base64 senha_certificado e0.
Proof.
  unfold fazer_login_certificado, login_em, desfecho_http, excecao_do_login.
  unfold limpar_no_login, Os.mkdtemp, salvar, Os.open_wb, Os.remove, Os.rmdir.
  unfold ignora, tenta, bind, anota, le_fs, grava_fs, ret, raise.
  destruct (pkcs12_load w certificado_base64 senha_certificado) as [[k c]|];
    [|reflexivity].
  destruct c as [c|], k as [k|]; reduz_estado;
    try (rewrite <- ?app_assoc; reflexivity).
  destruct (get_certificado w) as [x|status_code cookies corpo].
  - destruct (classe_de x); try destruct (contains MARCA_AUTENTICACAO (str x));
      reduz_estado; rewrite <- ?app_assoc; reflexivity.
  - destruct (existsb (String.eqb "Emissor") cookies); reduz_estado.
    + destruct corpo as [x|dp]; [|rewrite <- ?app_assoc; reflexivity].
      destruct (classe_de x); try destruct (contains MARCA_AUTENTICACAO (str x));
        reduz_estado; rewrite <- ?app_assoc; reflexivity.
    + change (contains MARCA_AUTENTICACAO MSG_AUTENTICACAO) with true.
      reduz_estado. rewrite <- ?app_assoc; reflexivity.
Qed.

End LoginFatos.

Section EndpointFatos.
Import Texto PyFloat Regex Pagina Efeito Login Busca Endpoint Vocabulario.

(** The validation of the month does not touch the state. *)
Lemma validar_mes_estado (m : option string) (e : estado) :
  validar_mes m e = (fst (validar_mes m estado_inicial), e).
Proof.
  unfold validar_mes. destruct m as [m|]; [|reflexivity].
  destruct (truthy (Some m)); [|reflexivity].
  destruct (py_int m) as [z|]; [|reflexivity].
  destruct ((z <? 1)%Z || (z >? 12)%Z)%bool; reflexivity.
Qed.

Lemma py_int_nao_vazio (m : string) (z : Z) : py_int m = Some z -> m <> "".
Proof. intros H ->. discriminate H. Qed.

Lemma validar_mes_fora (m : string) (z : Z) (e : estado) :
  py_int m = Some z -> (z < 1 \/ 12 < z)%Z ->
  validar_mes (Some m) e = (Levanta (http_exception 400 "Mês inválido"), e).
Proof.
  intros Hz Hfora. unfold validar_mes, truthy.
  apply py_int_nao_vazio in Hz as Hm. apply String.eqb_neq in Hm.
  rewrite Hm, Hz. cbn [negb].
  replace ((z <? 1)%Z || (z >? 12)%Z)%bool with true; [reflexivity|].
  symmetry. apply orb_true_iff. rewrite Z.gtb_ltb, !Z.ltb_lt. exact Hfora.
Qed.

Lemma validar_mes_aceito (m : option string) (e : estado) :
  mes_aceito m -> exists mf, validar_mes m e = (Retorna mf, e).
Proof.
  intros [-> | [-> | (s & z & -> & Hz & Hlo & Hhi)]].
  - eexists; reflexivity.
  - eexists; reflexivity.
  - unfold validar_mes, truthy.
    apply py_int_nao_vazio in Hz as Hm. apply String.eqb_neq in Hm.
    rewrite Hm, Hz. cbn [negb].
    replace ((z <? 1)%Z || (z >? 12)%Z)%bool with false; [eexists; reflexivity|].
    symmetry. apply orb_false_iff. rewrite Z.gtb_ltb, !Z.ltb_ge. lia.
Qed.

(** The clean-up of the endpoint never raises; after a login that
    succeeded it deletes the three paths. *)
Lemma limpar_arquivos_temporarios_eq (cert : option (caminho * caminho))
    (cookies : list string) (e : estado) :
  fs e = Arquivos true true true ->
  limpar_arquivos_temporarios
    (Session cert cookies (Some CertPem) (Some KeyPem) (Some TempDir)) e
  = (Retorna tt, Estado (Arquivos false false false) (registro e ++ log_limpeza)).
Proof.
  intros Hfs.
  unfold limpar_arquivos_temporarios, se_tem, Os.remove, Os.rmdir.
  unfold ignora, tenta, bind, anota, le_fs, grava_fs, ret, raise.
  cbn [temp_cert_path temp_key_path temp_dir fs registro]. rewrite Hfs.
  cbn [fs registro Os.com Os.existe existe_dir existe_cert existe_key negb orb].
  rewrite <- !app_assoc. reflexivity.
Qed.

(** The [except] clause of the endpoint raises, with 401 or with 500. *)
Lemma tratar_None (A : Type) (x : excecao) (e : estado) :
  @tratar A None x e =
  (Levanta (if contains MARCA_AUTENTICACAO (str x)
            then http_exception 401 (str x)
            else http_exception 500 ("Erro: " ++ str x)%string), e).
Proof.
  unfold tratar, bind, ret, raise.
  destruct (contains MARCA_AUTENTICACAO (str x)); reflexivity.
Qed.

Lemma tratar_Some (A : Type) (cert : option (caminho * caminho))
    (cookies : list string) (x : excecao) (e : estado) :
  fs e = Arquivos true true true ->
  @tratar A (Some (Session cert cookies (Some CertPem) (Some KeyPem) (Some TempDir)))
    x e =
  (Levanta (if contains MARCA_AUTENTICACAO (str x)
            then http_exception 401 (str x)
            else http_exception 500 ("Erro: " ++ str x)%string),
   Estado (Arquivos false false false) (registro e ++ log_limpeza)).
Proof.
  intros Hfs. unfold tratar, bind.
  rewrite (limpar_arquivos_temporarios_eq cert cookies e Hfs).
  unfold ret, raise.
  destruct (contains MARCA_AUTENTICACAO (str x)); reflexivity.
Qed.

(** The marker is in what the login raises from its [try] block. *)
Lemma excecao_do_login_marca (x : excecao) :
  contains MARCA_AUTENTICACAO (str (excecao_do_login x)) = true.
Proof.
  unfold excecao_do_login.
  destruct (classe_de x); try reflexivity;
    destruct (contains MARCA_AUTENTICACAO (str x)) eqn:E;
    try exact E; reflexivity.
Qed.

(** The endpoint, spelled out on the state. *)
Lemma obter_faturamento_certificado_eq (fuel : nat) (w : mundo)
    (request : FaturamentoRequestCertificado) (e0 : estado) :
  obter_faturamento_certificado fuel w request e0 =
  match fst (validar_mes (mes request) estado_inicial) with
  | Levanta x => tratar None x e0
  | Retorna mes_filtro =>
      match login_em w (certificado_base64 request) (senha_certificado request) e0 with
      | (Levanta x, e1) => tratar None x e1
      | (Retorna (sess, cnpj), e1) =>
          tenta (apos_login fuel w request mes_filtro sess cnpj)
                (tratar (Some sess)) e1
      end
  end.
Proof.
  unfold obter_faturamento_certificado, ate_login, bind.
  rewrite validar_mes_estado.
  destruct (fst (validar_mes (mes request) estado_inicial)) as [mf|x];
    [|reflexivity].
  rewrite fazer_login_certificado_eq.
  destruct (login_em w (certificado_base64 request) (senha_certificado request) e0)
    as [[[sess cnpj]|x] e1]; reflexivity.
Qed.

(** After a login that succeeded: the loop, then the clean-up on each way
    out. *)
Lemma apos_login_eq (fuel : nat) (w : mundo)
    (request : FaturamentoRequestCertificado) (mes_filtro : option string)
    (cert : option (caminho * caminho)) (cookies : list string)
    (cnpj : option string) (e1 : estado) :
  fs e1 = Arquivos true true true ->
  let sess := Session cert cookies (Some CertPem) (Some KeyPem) (Some TempDir) in
  tenta (apos_login fuel w request mes_filtro sess cnpj) (tratar (Some sess)) e1 =
  match voltas fuel w (ano request) mes_filtro (Volta laco_inicial) e1 with
  | (Levanta x, e2) =>
      (Levanta (if contains MARCA_AUTENTICACAO (str x)
                then http_exception 401 (str x)
                else http_exception 500 ("Erro: " ++ str x)%string),
       Estado (Arquivos false false false) (registro e2 ++ log_limpeza))
  | (Retorna (Volta _), e2) => (Retorna None, e2)
  | (Retorna (Saida st), e2) =>
      (Retorna (Some (FaturamentoResposta
                        (cnpj_da_resposta cnpj)
                        (round2 (faturamento_total st))
                        (notas_processadas st)
                        (periodo_de request mes_filtro)
                        (mes_label_de mes_filtro))),
       Estado (Arquivos false false false) (registro e2 ++ log_limpeza))
  end.
Proof.
  intros Hfs sess. unfold tenta, apos_login, buscar_notas, bind.
  destruct (voltas fuel w (ano request) mes_filtro (Volta laco_inicial) e1)
    as [[c|x] e2] eqn:Ev.
  - apply voltas_fs in Ev as Hfs2. rewrite Hfs in Hfs2.
    destruct c as [st|st]; unfold ret; [reflexivity|].
    unfold sess. rewrite (limpar_arquivos_temporarios_eq cert cookies e2 Hfs2).
    reflexivity.
  - apply voltas_fs in Ev as Hfs2. rewrite Hfs in Hfs2.
    unfold sess. apply (tratar_Some _ cert cookies x e2 Hfs2).
Qed.

End EndpointFatos.

Section EndpointTeoremas.
Import Texto PyFloat Regex Pagina Efeito Login Busca Endpoint Vocabulario Exemplos.

(** C1.  When the GET of the login page returns, whatever its status, and
    the cookie [Emissor] is not in the jar of the session, the login raises
    the authentication failure with the uniform message; it returns no
    session and raises no other error. *)
Theorem C1_sem_cookie_falha_autenticacao :
  forall (w : mundo) (certificado_base64 senha_certificado chave certificado : string)
         (status_code : Z) (cookies : list string) (corpo : corpo_login)
         (e0 : estado),
    pkcs12_load w certificado_base64 senha_certificado
      = Some (Pkcs12 (Some chave) (Some certificado)) ->
    get_certificado w = LoginResposta status_code cookies corpo ->
    ~ In "Emissor" cookies ->
    exists e1,
      fazer_login_certificado w certificado_base64 senha_certificado e0
        = (Levanta falha_autenticacao, e1) /\
      str falha_autenticacao = MSG_AUTENTICACAO /\
      In (EvGet URL_CERTIFICADO) (registro e1).
Proof.
  intros w cb senha chave certificado status_code cookies corpo e0 Hp Hget Hc.
  rewrite fazer_login_certificado_eq. unfold login_em, desfecho_http.
  rewrite Hp, Hget, (sem_emissor cookies Hc). cbn [certificate private_key].
  eexists. split; [reflexivity|]. split; [reflexivity|].
  cbn [registro]. rewrite !in_app_iff. right. right. left. now left.
Qed.

Lemma C1_sem_cookie_falha_autenticacao_witness :
  exists e1,
    fazer_login_certificado mundo_sem_cookie "MIIKPAIBAzCC" "senha" estado_inicial
      = (Levanta falha_autenticacao, e1) /\
    str falha_autenticacao = MSG_AUTENTICACAO /\
    In (EvGet URL_CERTIFICADO) (registro e1).
Proof.
  apply (C1_sem_cookie_falha_autenticacao mundo_sem_cookie "MIIKPAIBAzCC" "senha"
           "KEY" "CERT" 200 [] (Corpo None) estado_inicial eq_refl eq_refl).
  simpl. tauto.
Defined.

(** C5.  A request that returns to its caller, with a response or with an
    error, after both temporary files were written leaves none of the
    three temporary paths behind. *)
Theorem C5_arquivos_temporarios_removidos :
  forall (fuel : nat) (w : mundo) (request : FaturamentoRequestCertificado)
         (r : resultado (option FaturamentoResponse)) (e : estado),
    obter_faturamento_certificado fuel w request estado_inicial = (r, e) ->
    r <> Retorna None ->
    In (EvEscreve CertPem) (registro e) ->
    In (EvEscreve KeyPem) (registro e) ->
    fs e = Arquivos false false false.
Proof.
  intros fuel w request r e Hrun Hret Hcert Hkey.
  rewrite obter_faturamento_certificado_eq in Hrun.
  destruct (fst (validar_mes (mes request) estado_inicial)) as [mf|x].
  2:{ rewrite tratar_None in Hrun. injection Hrun as _ <-. reflexivity. }
  unfold login_em in Hrun.
  destruct (pkcs12_load w (certificado_base64 request) (senha_certificado request))
    as [[k c]|].
  2:{ rewrite tratar_None in Hrun. injection Hrun as _ <-. reflexivity. }
  cbn [certificate private_key] in Hrun.
  destruct c as [c|].
  2:{ rewrite tratar_None in Hrun. injection Hrun as _ <-.
      cbn in Hkey. repeat destruct Hkey as [Hkey|Hkey]; discriminate || contradiction. }
  destruct k as [k|].
  2:{ rewrite tratar_None in Hrun. injection Hrun as _ <-.
      cbn in Hkey. repeat destruct Hkey as [Hkey|Hkey]; discriminate || contradiction. }
  destruct (desfecho_http (get_certificado w)) as [[sess cnpj]|x] eqn:Ed.
  2:{ rewrite tratar_None in Hrun. injection Hrun as _ <-. reflexivity. }
  assert (Hs : exists cert cookies,
             sess = Session cert cookies (Some CertPem) (Some KeyPem) (Some TempDir)).
  { unfold desfecho_http in Ed.
    destruct (get_certificado w) as [x|st cookies corpo]; [discriminate|].
    destruct (existsb (String.eqb "Emissor") cookies); [|discriminate].
    destruct corpo; [discriminate|]. injection Ed as <- _. eauto. }
  destruct Hs as (cert & cookies & ->).
  rewrite apos_login_eq in Hrun by reflexivity.
  destruct (voltas fuel w (ano request) mf (Volta laco_inicial) _) as [[[st|st]|x] e2].
  - injection Hrun as <- _. congruence.
  - injection Hrun as _ <-. reflexivity.
  - injection Hrun as _ <-. reflexivity.
Qed.

Lemma C5_arquivos_temporarios_removidos_witness :
  (exists r e,
      obter_faturamento_certificado 3 mundo_duas_paginas (pedido None) estado_inicial
        = (Retorna (Some r), e) /\
      fs e = Arquivos false false false) /\
  (exists x e,
      obter_faturamento_certificado 3 mundo_timeout (pedido None) estado_inicial
        = (Levanta x, e) /\
      fs e = Arquivos false false false) /\
  (exists x e,
      obter_faturamento_certificado 3 mundo_listagem_cai (pedido None) estado_inicial
        = (Levanta x, e) /\
      fs e = Arquivos false false false).
Proof.
  split; [|split].
  - destruct (obter_faturamento_certificado 3 mundo_duas_paginas (pedido None)
                estado_inicial) as [r e] eqn:E.
    vm_compute in E. injection E as <- <-.
    do 2 eexists. split; [reflexivity|].
    eapply (C5_arquivos_temporarios_removidos 3 mundo_duas_paginas (pedido None)).
    + vm_compute. reflexivity.
    + discriminate.
    + cbn. tauto.
    + cbn. tauto.
  - destruct (obter_faturamento_certificado 3 mundo_timeout (pedido None)
                estado_inicial) as [r e] eqn:E.
    vm_compute in E. injection E as <- <-.
    do 2 eexists. split; [reflexivity|].
    eapply (C5_arquivos_temporarios_removidos 3 mundo_timeout (pedido None)).
    + vm_compute. reflexivity.
    + discriminate.
    + cbn. tauto.
    + cbn. tauto.
  - destruct (obter_faturamento_certificado 3 mundo_listagem_cai (pedido None)
                estado_inicial) as [r e] eqn:E.
    vm_compute in E. injection E as <- <-.
    do 2 eexists. split; [reflexivity|].
    eapply (C5_arquivos_temporarios_removidos 3 mundo_listagem_cai (pedido None)).
    + vm_compute. reflexivity.
    + discriminate.
    + cbn. tauto.
    + cbn. tauto.
Defined.

End EndpointTeoremas.

Section IdentificadorFatos.
Import Texto Regex Login Vocabulario.

Lemma take_while_forallb (p : ascii -> bool) (l : list ascii) :
  forallb p (take_while p l) = true.
Proof.
  induction l as [|c l IH]; [reflexivity|]. simpl.
  destruct (p c) eqn:E; [|reflexivity]. simpl. now rewrite E.
Qed.

Lemma chars_texto (l : list ascii) : chars (texto l) = l.
Proof. apply list_ascii_of_string_of_list_ascii. Qed.

(** The group that the expression captures is a run of digits. *)
Lemma search_cnpj_digitos (s d : string) :
  search_cnpj s = Some d -> forallb is_digit (chars d) = true.
Proof.
  unfold search_cnpj. generalize (chars s). intros l.
  induction l as [|c l IH]; cbn [search_cnpj_chars].
  - unfold cnpj_at. cbn. discriminate.
  - destruct (cnpj_at (c :: l)) as [g|] eqn:E; [|exact IH].
    intros [= <-]. unfold cnpj_at in E.
    destruct (strip_prefix (chars "CNPJ:") (c :: l)) as [r|]; [|discriminate].
    pose proof (take_while_forallb is_digit (drop_while is_re_space r)) as Hd.
    destruct (take_while is_digit (drop_while is_re_space r)) as [|x xs];
      [discriminate|].
    injection E as <-.
    change (String x (texto xs)) with (texto (x :: xs)).
    now rewrite chars_texto.
Qed.

Lemma quatorze (d : string) :
  String.length d = 14%nat ->
  exists c1 c2 c3 c4 c5 c6 c7 c8 c9 c10 c11 c12 c13 c14,
    d = texto [c1; c2; c3; c4; c5; c6; c7; c8; c9; c10; c11; c12; c13; c14].
Proof.
  intros H.
  do 14 (destruct d as [|? d]; [discriminate H|]).
  destruct d; [|discriminate H].
  do 14 eexists. reflexivity.
Qed.

Lemma formatar_cnpj_nao_vazio (d : string) : formatar_cnpj d <> "".
Proof.
  unfold formatar_cnpj. generalize (slice 0 2 d). intros p.
  induction p; discriminate.
Qed.

End IdentificadorFatos.

Section EndpointTeoremas2.
Import Texto PyFloat Regex Pagina Efeito Login Busca Endpoint Vocabulario Exemplos.

(** C7.  Let the profile element of the login page carry the labelled
    digit string [d].  The identifier is [d] regrouped as
    [NN.NNN.NNN/NNNN-NN] exactly when [d] has 14 digits, so that
    [12345678901234] becomes [12.345.678/9012-34]; for any other length
    the identifier is left unset and the login returns without raising;
    and the response of the endpoint carries the regrouped identifier, or
    ["Não identificado"] when it is unset. *)
Theorem C7_identificador_fiscal :
  forall (perfil d : string),
    search_cnpj perfil = Some d ->
    forallb is_digit (chars d) = true /\
    (String.length d = 14%nat <->
     extrair_cnpj (Some perfil) = Some (formatar_cnpj d)) /\
    (String.length d = 14%nat ->
     exists c1 c2 c3 c4 c5 c6 c7 c8 c9 c10 c11 c12 c13 c14,
       d = texto [c1; c2; c3; c4; c5; c6; c7; c8; c9; c10; c11; c12; c13; c14] /\
       formatar_cnpj d =
       texto [c1; c2; "."; c3; c4; c5; "."; c6; c7; c8; "/";
              c9; c10; c11; c12; "-"; c13; c14]%char) /\
    (String.length d <> 14%nat -> extrair_cnpj (Some perfil) = None) /\
    formatar_cnpj "12345678901234" = "12.345.678/9012-34" /\
    (forall (w : mundo) (certificado_base64 senha_certificado chave certificado : string)
            (status_code : Z) (cookies : list string) (e0 : estado),
        pkcs12_load w certificado_base64 senha_certificado
          = Some (Pkcs12 (Some chave) (Some certificado)) ->
        get_certificado w = LoginResposta status_code cookies (Corpo (Some perfil)) ->
        In "Emissor" cookies ->
        exists sess e1,
          fazer_login_certificado w certificado_base64 senha_certificado e0
          = (Retorna (sess, extrair_cnpj (Some perfil)), e1)) /\
    (forall (fuel : nat) (w : mundo) (request : FaturamentoRequestCertificado)
            (status_code : Z) (cookies : list string)
            (r : FaturamentoResponse) (e : estado),
        get_certificado w = LoginResposta status_code cookies (Corpo (Some perfil)) ->
        obter_faturamento_certificado fuel w request estado_inicial
          = (Retorna (Some r), e) ->
        CNPJ r = if (String.length d =? 14)%nat then formatar_cnpj d
                 else "Não identificado").
Proof.
  intros perfil d Hd.
  assert (Hex : extrair_cnpj (Some perfil) =
                if (String.length d =? 14)%nat then Some (formatar_cnpj d) else None).
  { unfold extrair_cnpj. now rewrite Hd. }
  split; [now apply search_cnpj_digitos with perfil|].
  split.
  { rewrite Hex. destruct (String.length d =? 14)%nat eqn:E.
    - apply Nat.eqb_eq in E. tauto.
    - apply Nat.eqb_neq in E. split; [tauto | discriminate]. }
  split.
  { intros H14. destruct (quatorze d H14)
      as (c1 & c2 & c3 & c4 & c5 & c6 & c7 & c8 & c9 & c10 & c11 & c12 & c13 & c14 & ->).
    exists c1, c2, c3, c4, c5, c6, c7, c8, c9, c10, c11, c12, c13, c14.
    split; reflexivity. }
  split.
  { intros Hn. rewrite Hex. apply Nat.eqb_neq in Hn. now rewrite Hn. }
  split; [reflexivity|].
  split.
  { intros w cb senha chave certificado status_code cookies e0 Hp Hget Hc.
    rewrite fazer_login_certificado_eq. unfold login_em, desfecho_http.
    rewrite Hp, Hget, (com_emissor cookies Hc). cbn [certificate private_key].
    eauto. }
  intros fuel w request status_code cookies r e Hget Hrun.
  rewrite obter_faturamento_certificado_eq in Hrun.
  destruct (fst (validar_mes (mes request) estado_inicial)) as [mf|x];
    [|rewrite tratar_None in Hrun; discriminate].
  unfold login_em, desfecho_http in Hrun. rewrite Hget in Hrun.
  destruct (pkcs12_load w (certificado_base64 request) (senha_certificado request))
    as [[k c]|]; [|rewrite tratar_None in Hrun; discriminate].
  cbn [certificate private_key] in Hrun.
  destruct c as [c|]; [|rewrite tratar_None in Hrun; discriminate].
  destruct k as [k|]; [|rewrite tratar_None in Hrun; discriminate].
  destruct (existsb (String.eqb "Emissor") cookies);
    [|rewrite tratar_None in Hrun; discriminate].
  rewrite apos_login_eq in Hrun by reflexivity.
  destruct (voltas fuel w (ano request) mf (Volta laco_inicial) _)
    as [[[st|st]|x] e2]; try discriminate.
  injection Hrun as <- _. cbn [CNPJ].
  change (cnpj_da_resposta (extrair_cnpj (Some perfil)) =
          if (String.length d =? 14)%nat then formatar_cnpj d
          else "Não identificado").
  rewrite Hex.
  destruct (String.length d =? 14)%nat; [|reflexivity].
  unfold cnpj_da_resposta, truthy.
  pose proof (formatar_cnpj_nao_vazio d) as Hne. apply String.eqb_neq in Hne.
  now rewrite Hne.
Qed.

Lemma C7_identificador_fiscal_witness :
  extrair_cnpj (Some "Empresa CNPJ: 12345678901234") = Some "12.345.678/9012-34" /\
  extrair_cnpj (Some "Pessoa CNPJ: 12345678901") = None /\
  (exists r e,
      obter_faturamento_certificado 3 mundo_cpf (pedido None) estado_inicial
        = (Retorna (Some r), e) /\
      CNPJ r = "Não identificado").
Proof.
  destruct (C7_identificador_fiscal "Empresa CNPJ: 12345678901234" "12345678901234"
              eq_refl) as (_ & H14 & _).
  destruct (C7_identificador_fiscal "Pessoa CNPJ: 12345678901" "12345678901"
              eq_refl) as (_ & _ & _ & H11 & _ & _ & Hend).
  split; [apply H14; reflexivity|].
  split; [apply H11; discriminate|].
  destruct (obter_faturamento_certificado 3 mundo_cpf (pedido None) estado_inicial)
    as [r e] eqn:E.
  vm_compute in E. injection E as <- <-.
  do 2 eexists. split; [reflexivity|].
  apply (Hend 3%nat mundo_cpf (pedido None) 200%Z ["Emissor"] _
              (Estado (Arquivos false false false)
                 (log_escrita ++ [EvGet URL_CERTIFICADO; EvGet (url_pagina 1)]
                    ++ log_limpeza)) eq_refl).
  vm_compute. reflexivity.
Defined.

(** C8, as stated, fails: an exception of the request block whose own text
    carries the marker is raised again as it is, and the caller receives
    its text, not the uniform message. *)
Lemma C8_counterexample :
  exists e,
    obter_faturamento_certificado 3 mundo_erro_com_marca (pedido None) estado_inicial
      = (Levanta (http_exception 401 "Autenticação não realizada pelo proxy"), e) /\
    "Autenticação não realizada pelo proxy" <> MSG_AUTENTICACAO.
Proof.
  eexists. split; [vm_compute; reflexivity | discriminate].
Qed.

(** C8, amended.  Every exception [x] raised in the request block of the
    login, once the certificate files are written, reaches the caller of
    the endpoint as status 401 and never as 500, after the temporary files
    are removed.  The detail is the uniform message when [x] is a TLS
    error or its text does not carry the marker; otherwise [x] is raised
    again as it is and the detail is its own text. *)
Theorem C8_excecoes_do_login_viram_401 :
  forall (fuel : nat) (w : mundo) (request : FaturamentoRequestCertificado)
         (chave certificado : string) (x : excecao),
    mes_aceito (mes request) ->
    pkcs12_load w (certificado_base64 request) (senha_certificado request)
      = Some (Pkcs12 (Some chave) (Some certificado)) ->
    (get_certificado w = LoginLevanta x \/
     exists status_code cookies,
       get_certificado w = LoginResposta status_code cookies (CorpoLevanta x) /\
       In "Emissor" cookies) ->
    exists detail e,
      obter_faturamento_certificado fuel w request estado_inicial
        = (Levanta (http_exception 401 detail), e) /\
      fs e = Arquivos false false false /\
      (classe_de x = SSLError \/ contains MARCA_AUTENTICACAO (str x) = false ->
       detail = MSG_AUTENTICACAO) /\
      (classe_de x <> SSLError -> contains MARCA_AUTENTICACAO (str x) = true ->
       detail = str x).
Proof.
  intros fuel w request chave certificado x Hmes Hp Hx.
  rewrite obter_faturamento_certificado_eq.
  destruct (validar_mes_aceito (mes request) estado_inicial Hmes) as (mf & Hmf).
  rewrite Hmf. cbn [fst].
  assert (Hd : desfecho_http (get_certificado w) = inr x).
  { unfold desfecho_http.
    destruct Hx as [-> | (status_code & cookies & -> & Hc)]; [reflexivity|].
    now rewrite (com_emissor cookies Hc). }
  unfold login_em. rewrite Hp. cbn [certificate private_key]. rewrite Hd.
  rewrite tratar_None, excecao_do_login_marca.
  exists (str (excecao_do_login x)). eexists. split; [reflexivity|].
  split; [reflexivity|].
  unfold excecao_do_login. split.
  - intros [Hc | Hc]; [now rewrite Hc|].
    rewrite Hc. destruct (classe_de x); reflexivity.
  - intros Hc Hm. rewrite Hm. destruct (classe_de x); try reflexivity.
    now contradiction Hc.
Qed.

Lemma C8_excecoes_do_login_viram_401_witness :
  exists e,
    obter_faturamento_certificado 3 mundo_timeout (pedido (Some "5")) estado_inicial
      = (Levanta (http_exception 401 MSG_AUTENTICACAO), e) /\
    fs e = Arquivos false false false.
Proof.
  destruct (C8_excecoes_do_login_viram_401 3 mundo_timeout (pedido (Some "5"))
              "KEY" "CERT" (Excecao (Outra "ReadTimeout") "Read timed out."))
    as (detail & e & Hrun & Hfs & Hmsg & _).
  - right. right. exists "5", 5%Z.
    split; [reflexivity | split; [reflexivity | lia]].
  - reflexivity.
  - left. reflexivity.
  - exists e. rewrite Hrun, (Hmsg (or_intror eq_refl)). split; [reflexivity | exact Hfs].
Defined.

(** C10.  A month that reads as an integer outside 1 to 12 is rejected
    with the 400 exception before anything else is done: the state is
    left as it was, so the loader is not called and no request is sent;
    and the endpoint turns that exception into status 500. *)
Theorem C10_mes_invalido_vira_500 :
  forall (fuel : nat) (w : mundo) (request : FaturamentoRequestCertificado)
         (m : string) (z : Z) (e0 : estado),
    mes request = Some m ->
    py_int m = Some z ->
    (z < 1 \/ 12 < z)%Z ->
    validar_mes (mes request) e0
      = (Levanta (http_exception 400 "Mês inválido"), e0) /\
    exists detail,
      obter_faturamento_certificado fuel w request e0
        = (Levanta (http_exception 500 detail), e0).
Proof.
  intros fuel w request m z e0 Hm Hz Hfora.
  rewrite Hm. split; [now apply validar_mes_fora with z|].
  rewrite obter_faturamento_certificado_eq, Hm.
  rewrite (validar_mes_fora m z estado_inicial Hz Hfora). cbn [fst].
  rewrite tratar_None.
  change (contains MARCA_AUTENTICACAO (str (http_exception 400 "Mês inválido")))
    with false.
  eexists. reflexivity.
Qed.

Lemma C10_mes_invalido_vira_500_witness :
  exists detail,
    obter_faturamento_certificado 3 mundo_duas_paginas (pedido (Some "13"))
      estado_inicial
      = (Levanta (http_exception 500 detail), estado_inicial).
Proof.
  apply (C10_mes_invalido_vira_500 3 mundo_duas_paginas (pedido (Some "13"))
           "13" 13%Z estado_inicial eq_refl eq_refl).
  right. lia.
Defined.

End EndpointTeoremas2.

(** ** Further properties: digits, [int()] and the expressions *)

Section DigitosFatos.
Import Texto PyFloat Regex Pagina Vocabulario Extensao.

Lemma is_digit_codigo (c : ascii) :
  is_digit c = true -> (48 <= codigo c <= 57)%nat.
Proof.
  unfold is_digit. intros H. apply andb_prop in H. destruct H as [H1 H2].
  apply Nat.leb_le in H1, H2. lia.
Qed.

Lemma is_digit_valor (c : ascii) :
  is_digit c = true -> (0 <= digit_val c <= 9)%Z.
Proof. intros H. apply is_digit_codigo in H. unfold digit_val. lia. Qed.

Lemma is_digit_nao_e (c x : ascii) :
  is_digit c = true -> is_digit x = false -> Ascii.eqb c x = false.
Proof.
  intros Hc Hx. destruct (Ascii.eqb_spec c x) as [->|]; [congruence | reflexivity].
Qed.

Lemma is_digit_nao_espaco (c : ascii) : is_digit c = true -> is_space c = false.
Proof.
  intros H. apply is_digit_codigo in H. unfold is_space.
  apply orb_false_iff. split.
  - apply andb_false_iff. right. apply Nat.leb_gt. lia.
  - apply Nat.eqb_neq. lia.
Qed.

Lemma is_digit_lower (c : ascii) : is_digit c = true -> lower c = c.
Proof.
  intros H. apply is_digit_codigo in H. unfold lower.
  replace (65 <=? codigo c)%nat with false; [reflexivity|].
  symmetry. apply Nat.leb_gt. lia.
Qed.

Lemma digit_val_inj (c d : ascii) :
  is_digit c = true -> is_digit d = true -> digit_val c = digit_val d -> c = d.
Proof.
  intros _ _ H. unfold digit_val, codigo in H.
  rewrite <- (ascii_nat_embedding c), <- (ascii_nat_embedding d).
  f_equal. lia.
Qed.

Lemma drop_while_nada (p : ascii -> bool) (l : list ascii) :
  forallb (fun c => negb (p c)) l = true -> drop_while p l = l.
Proof.
  destruct l as [|c l]; [reflexivity|]. cbn. intros H.
  apply andb_prop in H. destruct H as [H _].
  apply negb_true_iff in H. now rewrite H.
Qed.

Lemma take_while_tudo (p : ascii -> bool) (l r : list ascii) :
  forallb p l = true ->
  match r with [] => True | c :: _ => p c = false end ->
  take_while p (l ++ r) = l /\ drop_while p (l ++ r) = r.
Proof.
  intros Hl Hr. induction l as [|c l IH]; cbn.
  - destruct r as [|c r]; [auto|]. cbn. now rewrite Hr.
  - cbn in Hl. apply andb_prop in Hl. destruct Hl as [Hc Hl].
    rewrite Hc. destruct (IH Hl) as [-> ->]. auto.
Qed.

Lemma forallb_rev_ascii (p : ascii -> bool) (l : list ascii) :
  forallb p (rev l) = forallb p l.
Proof.
  induction l as [|c l IH]; [reflexivity|].
  cbn. rewrite forallb_app, IH. cbn. rewrite andb_true_r. apply andb_comm.
Qed.

(** Nothing is stripped from a text without blanks. *)
Lemma strip_space_nada (l : list ascii) :
  forallb (fun c => negb (is_space c)) l = true -> strip_space l = l.
Proof.
  intros H. unfold strip_space.
  rewrite (drop_while_nada is_space l H).
  rewrite drop_while_nada by now rewrite forallb_rev_ascii.
  apply rev_involutive.
Qed.

(** A text without underscores passes the underscore rule unchanged. *)
Lemma drop_underscores_nada (prev : option ascii) (l : list ascii) :
  forallb (fun c => negb (Ascii.eqb c "_")) l = true ->
  drop_underscores prev l = Some l.
Proof.
  revert prev. induction l as [|c l IH]; intros prev H; [reflexivity|].
  cbn in H. apply andb_prop in H. destruct H as [Hc Hl].
  apply negb_true_iff in Hc. cbn. rewrite Hc, (IH _ Hl). reflexivity.
Qed.

Lemma forallb_implica (p q : ascii -> bool) (l : list ascii) :
  (forall c, p c = true -> q c = true) ->
  forallb p l = true -> forallb q l = true.
Proof.
  intros Hpq H. apply forallb_forall. intros c Hc.
  apply Hpq. revert c Hc. now apply forallb_forall.
Qed.

(** [int()] of a run of digits is its value. *)
Lemma py_int_digitos (ds : list ascii) :
  ds <> [] -> forallb is_digit ds = true ->
  py_int (texto ds) = Some (digits_val ds).
Proof.
  intros Hne Hd. unfold py_int, chars, texto.
  rewrite list_ascii_of_string_of_list_ascii.
  rewrite drop_underscores_nada.
  2:{ apply (forallb_implica is_digit); [|exact Hd].
      intros c Hc. now rewrite (is_digit_nao_e c "_" Hc). }
  rewrite strip_space_nada.
  2:{ apply (forallb_implica is_digit); [|exact Hd].
      intros c Hc. now rewrite (is_digit_nao_espaco c Hc). }
  destruct ds as [|c ds]; [congruence|].
  assert (Hc : is_digit c = true) by (cbn in Hd; now apply andb_prop in Hd).
  unfold split_sign.
  rewrite (is_digit_nao_e c "-" Hc eq_refl), (is_digit_nao_e c "+" Hc eq_refl).
  now rewrite Hd.
Qed.

(** The shape of a match of [(\d{2})/(\d{4})] at the head. *)
Lemma competencia_at_forma (l : list ascii) (m a : string) :
  competencia_at l = Some (m, a) ->
  exists m1 m2 a1 a2 a3 a4 post,
    l = m1 :: m2 :: "/"%char :: a1 :: a2 :: a3 :: a4 :: post /\
    m = texto [m1; m2] /\ a = texto [a1; a2; a3; a4] /\
    forallb is_digit [m1; m2] = true /\
    forallb is_digit [a1; a2; a3; a4] = true.
Proof.
  unfold competencia_at.
  destruct l as [|m1 [|m2 [|b [|a1 [|a2 [|a3 [|a4 post]]]]]]]; try discriminate.
  destruct (forallb is_digit [m1; m2]) eqn:Hm; [|discriminate].
  destruct (Ascii.eqb_spec b "/") as [->|]; [|discriminate].
  destruct (forallb is_digit [a1; a2; a3; a4]) eqn:Ha; [|discriminate].
  cbn [andb]. intros [= <- <-].
  exists m1, m2, a1, a2, a3, a4, post. auto.
Qed.

Lemma search_competencia_chars_forma (l : list ascii) (m a : string) :
  search_competencia_chars l = Some (m, a) ->
  exists pre resto,
    l = pre ++ resto /\
    competencia_at resto = Some (m, a) /\
    (forall i, (i < List.length pre)%nat -> competencia_at (skipn i l) = None).
Proof.
  induction l as [|c l IH]; cbn [search_competencia_chars].
  - cbn. discriminate.
  - destruct (competencia_at (c :: l)) as [g|] eqn:E.
    + intros [= ->]. exists [], (c :: l). split; [reflexivity|].
      split; [exact E|]. cbn. intros i Hi. lia.
    + intros H. destruct (IH H) as (pre & resto & -> & Hat & Hleft).
      exists (c :: pre), resto. split; [reflexivity|]. split; [exact Hat|].
      intros [|i] Hi; [exact E|]. cbn [skipn]. apply Hleft. cbn in Hi. lia.
Qed.

End DigitosFatos.

Section CompetenciaTeoremas.
Import Texto PyFloat Regex Pagina Vocabulario Extensao.



End CompetenciaTeoremas.

Section MesFatos.
Import Texto PyFloat Regex Pagina Efeito Login Busca Endpoint Vocabulario Extensao.

Lemma mes_de_dois_digitos (z : Z) :
  (1 <= z <= 12)%Z ->
  exists d1 d2,
    zfill 2 (str_Z z) = texto [d1; d2] /\
    is_digit d1 = true /\ is_digit d2 = true /\
    digits_val [d1; d2] = z.
Proof.
  intros H.
  assert (Hz : (z = 1 \/ z = 2 \/ z = 3 \/ z = 4 \/ z = 5 \/ z = 6 \/ z = 7 \/
                z = 8 \/ z = 9 \/ z = 10 \/ z = 11 \/ z = 12)%Z) by lia.
  repeat destruct Hz as [-> | Hz]; try subst z;
    do 2 eexists; (split; [vm_compute; reflexivity|]); auto.
Qed.

Lemma dois_digitos_iguais (a b c d : ascii) :
  is_digit a = true -> is_digit b = true ->
  is_digit c = true -> is_digit d = true ->
  (texto [a; b] = texto [c; d] <-> digits_val [a; b] = digits_val [c; d]).
Proof.
  intros Ha Hb Hc Hd. split.
  - intros [= -> ->]. reflexivity.
  - unfold digits_val. cbn [fold_left]. intros H.
    pose proof (is_digit_valor a Ha). pose proof (is_digit_valor b Hb).
    pose proof (is_digit_valor c Hc). pose proof (is_digit_valor d Hd).
    assert (digit_val a = digit_val c) by lia.
    assert (digit_val b = digit_val d) by lia.
    rewrite (digit_val_inj a c), (digit_val_inj b d); auto.
Qed.

Lemma validar_mes_inteiro (m : string) (z : Z) (e : estado) :
  py_int m = Some z ->
  validar_mes (Some m) e =
  if ((z <? 1) || (z >? 12))%Z%bool
  then (Levanta (http_exception 400 "Mês inválido"), e)
  else (Retorna (Some (zfill 2 (str_Z z))), e).
Proof.
  intros Hz. unfold validar_mes, truthy.
  apply py_int_nao_vazio in Hz as Hm. apply String.eqb_neq in Hm.
  rewrite Hm, Hz. cbn [negb].
  destruct ((z <? 1)%Z || (z >? 12)%Z)%bool; reflexivity.
Qed.

End MesFatos.

Section MesTeoremas.
Import Texto PyFloat Regex Pagina Efeito Login Busca Endpoint Vocabulario Exemplos Extensao.

(** X2.  A month of at most 4300 characters that reads as an integer from
    1 to 12 becomes the filter of two digits that reads as the same
    integer; and under that filter a row whose competency label is found
    in a cell of ASCII characters passes the month test exactly when its
    month reads as that integer. *)
Theorem X2_filtro_de_mes_normalizado :
  forall (m : string) (z : Z) (e : estado),
    (String.length m <= 4300)%nat ->
    py_int m = Some z -> (1 <= z <= 12)%Z ->
    let mes_filtro := zfill 2 (str_Z z) in
    validar_mes (Some m) e = (Retorna (Some mes_filtro), e) /\
    String.length mes_filtro = 2%nat /\
    py_int mes_filtro = Some z /\
    (forall (competencia_texto mes_nota ano_nota : string),
        so_ascii competencia_texto = true ->
        search_competencia competencia_texto = Some (mes_nota, ano_nota) ->
        (mes_diferente (Some mes_filtro) mes_nota = false <->
         py_int mes_nota = Some z)).
Proof.
  intros m z e _ Hz Hr mes_filtro.
  destruct (mes_de_dois_digitos z Hr) as (d1 & d2 & Hf & Hd1 & Hd2 & Hv).
  assert (Hd : forallb is_digit [d1; d2] = true) by (cbn; now rewrite Hd1, Hd2).
  split.
  { rewrite (validar_mes_inteiro m z e Hz).
    replace ((z <? 1)%Z || (z >? 12)%Z)%bool with false; [reflexivity|].
    symmetry. apply orb_false_iff. rewrite Z.gtb_ltb, !Z.ltb_ge. lia. }
  subst mes_filtro. rewrite Hf.
  split; [reflexivity|].
  split; [rewrite py_int_digitos by (discriminate || exact Hd); now rewrite Hv|].
  intros t mes_nota ano_nota _ Hs. unfold search_competencia in Hs.
  destruct (search_competencia_chars_forma _ _ _ Hs) as (pre & resto & _ & Hat & _).
  destruct (competencia_at_forma _ _ _ Hat)
    as (m1 & m2 & a1 & a2 & a3 & a4 & post & _ & -> & _ & Hm & _).
  rewrite py_int_digitos by (discriminate || exact Hm).
  cbn in Hm. apply andb_prop in Hm. destruct Hm as [Hm1 Hm2].
  rewrite andb_true_r in Hm2.
  unfold mes_diferente.
  change (truthy (Some (texto [d1; d2]))) with true. cbn [andb].
  rewrite negb_false_iff, String.eqb_eq.
  rewrite (dois_digitos_iguais m1 m2 d1 d2 Hm1 Hm2 Hd1 Hd2), Hv.
  split; [intros ->; reflexivity | intros [= H]; exact H].
Qed.

Lemma X2_filtro_de_mes_normalizado_witness :
  validar_mes (Some " +5 ") estado_inicial = (Retorna (Some "05"), estado_inicial) /\
  mes_diferente (Some "05") "05" = false.
Proof.
  assert (Hlen : (String.length " +5 " <= 4300)%nat) by (cbn; lia).
  destruct (X2_filtro_de_mes_normalizado " +5 " 5 estado_inicial Hlen eq_refl)
    as (Hv & _ & _ & Hrow); [lia|].
  split; [exact Hv|].
  apply (Hrow "Competencia: 05/2025" "05" "2025" eq_refl eq_refl). reflexivity.
Defined.

(** X3.  The endpoint sees the month only through its integer value: two
    requests that differ in the text of the month, both reading as the
    same integer, have the same outcome and leave the same state; and an
    empty month is the same as no month. *)
Theorem X3_mes_so_pelo_valor :
  forall (fuel : nat) (w : mundo) (request : FaturamentoRequestCertificado)
         (e0 : estado),
    (forall (m m' : string) (z : Z),
        py_int m = Some z -> py_int m' = Some z ->
        obter_faturamento_certificado fuel w (com_mes request (Some m)) e0 =
        obter_faturamento_certificado fuel w (com_mes request (Some m')) e0) /\
    obter_faturamento_certificado fuel w (com_mes request (Some "")) e0 =
    obter_faturamento_certificado fuel w (com_mes request None) e0.
Proof.
  intros fuel w request e0. split.
  - intros m m' z Hm Hm'.
    rewrite !obter_faturamento_certificado_eq. cbn [mes com_mes].
    rewrite (validar_mes_inteiro m z estado_inicial Hm).
    rewrite (validar_mes_inteiro m' z estado_inicial Hm').
    reflexivity.
  - rewrite !obter_faturamento_certificado_eq. reflexivity.
Qed.

Lemma X3_mes_so_pelo_valor_witness :
  obter_faturamento_certificado 3 mundo_duas_paginas (com_mes (pedido None) (Some "5"))
    estado_inicial =
  obter_faturamento_certificado 3 mundo_duas_paginas (com_mes (pedido None) (Some "0_5"))
    estado_inicial.
Proof.
  destruct (X3_mes_so_pelo_valor 3 mundo_duas_paginas (pedido None) estado_inicial)
    as (H & _).
  apply (H "5" "0_5" 5%Z); reflexivity.
Defined.

End MesTeoremas.

Section LinhaFatos.
Import Texto PyFloat Regex Pagina Vocabulario Extensao.

Lemma processar_linha_sem_icone (ano : string) (mes : option string) (l : linha) :
  img_gerada l = false -> processar_linha ano mes l = Pula.
Proof. intros H. unfold processar_linha. now rewrite H. Qed.

Lemma processar_linha_ano_ilegivel (ano : string) (mes : option string) (l : linha) :
  py_int ano = None -> processar_linha ano mes l = Pula.
Proof.
  intros H. unfold processar_linha. rewrite H.
  destruct (img_gerada l); [|reflexivity]. cbn [negb].
  destruct (td_competencia l) as [t|]; [|reflexivity].
  destruct (search_competencia t) as [[m a]|]; [|reflexivity].
  destruct (py_int a); reflexivity.
Qed.

Lemma pow10_inverso (n : nat) :
  pow10 (0 - Z.of_nat n) * inject_Z (10 ^ Z.of_nat n) == 1.
Proof.
  unfold pow10. destruct (0 - Z.of_nat n <? 0)%Z eqn:E.
  - assert (Hpos : (0 < 10 ^ Z.of_nat n)%Z) by (apply Z.pow_pos_nonneg; lia).
    replace (- (0 - Z.of_nat n))%Z with (Z.of_nat n) by lia.
    unfold Qeq, Qmult, inject_Z. cbn [Qnum Qden].
    rewrite Pos.mul_1_r, Z2Pos.id by exact Hpos. lia.
  - apply Z.ltb_ge in E. assert (n = 0%nat) by lia. subst n. reflexivity.
Qed.

Lemma is_digit_ponto_lower (c : ascii) : digito_ou_ponto c = true -> lower c = c.
Proof.
  unfold digito_ou_ponto. intros H. apply orb_prop in H. destruct H as [H|H].
  - now apply is_digit_lower.
  - apply Ascii.eqb_eq in H. now subst c.
Qed.

Lemma digito_ou_ponto_nao_e (c x : ascii) :
  digito_ou_ponto c = true -> digito_ou_ponto x = false -> Ascii.eqb c x = false.
Proof.
  intros Hc Hx. destruct (Ascii.eqb_spec c x) as [->|]; [congruence | reflexivity].
Qed.

(** [float()] of a text of digits and points is the decimal numeral, when
    it is one. *)
Lemma float_of_string_numeral (l : list ascii) :
  l <> [] -> forallb digito_ou_ponto l = true ->
  float_of_string (texto l) = option_map Finito (parse_decimal l).
Proof.
  intros Hne Hl. unfold float_of_string, chars, texto.
  rewrite list_ascii_of_string_of_list_ascii.
  rewrite drop_underscores_nada.
  2:{ apply (forallb_implica digito_ou_ponto); [|exact Hl].
      intros c Hc. now rewrite (digito_ou_ponto_nao_e c "_" Hc). }
  rewrite strip_space_nada.
  2:{ apply (forallb_implica digito_ou_ponto); [|exact Hl].
      intros c Hc. apply negb_true_iff.
      unfold digito_ou_ponto in Hc. apply orb_prop in Hc. destruct Hc as [Hc|Hc].
      - now apply is_digit_nao_espaco.
      - apply Ascii.eqb_eq in Hc. now subst c. }
  destruct l as [|c l]; [congruence|].
  assert (Hc : digito_ou_ponto c = true) by (cbn in Hl; now apply andb_prop in Hl).
  unfold split_sign.
  rewrite (digito_ou_ponto_nao_e c "-" Hc eq_refl),
          (digito_ou_ponto_nao_e c "+" Hc eq_refl).
  cbn [map string_of_list_ascii]. rewrite (is_digit_ponto_lower c Hc).
  cbn [String.eqb].
  rewrite (digito_ou_ponto_nao_e c "i" Hc eq_refl),
          (digito_ou_ponto_nao_e c "n" Hc eq_refl).
  cbn [orb]. destruct (parse_decimal (c :: l)); reflexivity.
Qed.

Lemma parse_decimal_inteiro (D : list ascii) :
  D <> [] -> forallb is_digit D = true ->
  parse_decimal D = Some (Qred (inject_Z (digits_val D) * pow10 (0 - 0))).
Proof.
  intros Hne Hd. unfold parse_decimal.
  destruct (take_while_tudo is_digit D [] Hd I) as [Ht Hdr].
  rewrite app_nil_r in Ht, Hdr. rewrite Ht, Hdr. rewrite app_nil_r.
  destruct D; [congruence | reflexivity].
Qed.

Lemma parse_decimal_fracao (D F : list ascii) :
  D ++ F <> [] -> forallb is_digit D = true -> forallb is_digit F = true ->
  parse_decimal (D ++ "."%char :: F) =
  Some (Qred (inject_Z (digits_val (D ++ F))
              * pow10 (0 - Z.of_nat (List.length F)))).
Proof.
  intros Hne Hd Hf. unfold parse_decimal.
  destruct (take_while_tudo is_digit D ("."%char :: F) Hd eq_refl) as [Ht Hdr].
  rewrite Ht, Hdr. cbn [Ascii.eqb Bool.eqb].
  change (Ascii.eqb "." ".") with true. cbv iota.
  destruct (take_while_tudo is_digit F [] Hf I) as [Ht2 Hdr2].
  rewrite app_nil_r in Ht2, Hdr2. rewrite Ht2, Hdr2.
  destruct (D ++ F); [congruence | reflexivity].
Qed.

Lemma flat_map_troca_digitos (t : list ascii) :
  forallb digito_ou_ponto t = true -> flat_map troca t = filter is_digit t.
Proof.
  induction t as [|c t IH]; [reflexivity|]. cbn. intros H.
  apply andb_prop in H. destruct H as [Hc Ht]. rewrite (IH Ht).
  unfold troca, digito_ou_ponto in *.
  destruct (Ascii.eqb_spec c ".") as [->|Hp]; [reflexivity|].
  rewrite orb_false_r in Hc. rewrite Hc.
  now rewrite (is_digit_nao_e c "," Hc eq_refl).
Qed.

Lemma filter_digitos (F : list ascii) :
  forallb is_digit F = true -> flat_map troca F = F.
Proof.
  induction F as [|c F IH]; [reflexivity|]. cbn. intros H.
  apply andb_prop in H. destruct H as [Hc Hf]. rewrite (IH Hf).
  unfold troca.
  now rewrite (is_digit_nao_e c "." Hc eq_refl), (is_digit_nao_e c "," Hc eq_refl).
Qed.

Lemma valor_limpo_texto (l : list ascii) :
  valor_limpo (texto l) = texto (flat_map troca l).
Proof.
  rewrite <- (string_of_list_ascii_of_string (valor_limpo (texto l))).
  unfold texto. f_equal.
  pose proof (valor_limpo_chars (string_of_list_ascii l)) as H.
  unfold chars in H. rewrite H. now rewrite list_ascii_of_string_of_list_ascii.
Qed.

Lemma forallb_filter_digitos (t : list ascii) :
  forallb is_digit (filter is_digit t) = true.
Proof.
  apply forallb_forall. intros c Hc. apply filter_In in Hc. tauto.
Qed.

End LinhaFatos.

Section LinhaTeoremas.
Import Texto PyFloat Regex Pagina Vocabulario Exemplos Extensao.

(** X4.  Rows without the icon of an issued invoice are invisible: the
    scan gives what the scan of the rows with the icon gives, so such a
    row is never counted and never ends the page, and the count of a page
    is at most the number of rows with the icon. *)
Theorem X4_so_notas_geradas :
  forall (ano : string) (mes : option string) (linhas : list linha)
         (fat : float) (n : nat),
    percorrer ano mes linhas fat n =
      percorrer ano mes (filter img_gerada linhas) fat n /\
    (snd (fst (percorrer ano mes linhas fat n))
       <= n + List.length (filter img_gerada linhas))%nat /\
    (forall pag, linhas <> [] ->
       processar_pagina (Soup (Some linhas) pag) ano mes =
         percorrer ano mes (filter img_gerada linhas) zero 0).
Proof.
  intros ano mes linhas fat n.
  assert (H1 : forall fat n, percorrer ano mes linhas fat n =
                 percorrer ano mes (filter img_gerada linhas) fat n).
  { induction linhas as [|l linhas IH]; intros f k; [reflexivity|].
    cbn [filter]. destruct (img_gerada l) eqn:E.
    - cbn [percorrer]. destruct (processar_linha ano mes l); auto.
    - cbn [percorrer]. rewrite (processar_linha_sem_icone ano mes l E). apply IH. }
  split; [apply H1|]. split.
  - rewrite H1. generalize (filter img_gerada linhas). clear. intros ls.
    revert fat n. induction ls as [|l ls IH]; intros fat n; cbn; [lia|].
    destruct (processar_linha ano mes l).
    + specialize (IH (add fat valor) (S n)). lia.
    + specialize (IH fat n). lia.
    + cbn. lia.
  - intros pag Hne. rewrite <- H1.
    destruct linhas; [congruence | reflexivity].
Qed.

Lemma X4_so_notas_geradas_witness :
  processar_pagina
    (Soup (Some [Linha false (Some "12/2024") (Some "1,00");
                 nota "05/2025" "10,00"]) None) "2025" None =
  percorrer "2025" None [nota "05/2025" "10,00"] zero 0.
Proof.
  destruct (X4_so_notas_geradas "2025" None
              [Linha false (Some "12/2024") (Some "1,00"); nota "05/2025" "10,00"]
              zero 0) as (_ & _ & H).
  apply H. discriminate.
Defined.

(** X5.  A filter year of four digits, as the request model demands, is
    always read by [int()], as a number from 0 to 9999.  With a filter
    year that [int()] rejects, every row that reaches the comparison
    raises and is skipped: nothing is counted and no row ends the scan. *)
Theorem X5_ano_do_filtro :
  (forall ano, ano_no_padrao ano = true ->
               exists Y, py_int ano = Some Y /\ (0 <= Y <= 9999)%Z) /\
  (forall ano mes linhas fat n,
      py_int ano = None ->
      percorrer ano mes linhas fat n = (fat, n, true)).
Proof.
  split.
  - intros ano H. unfold ano_no_padrao in H.
    apply andb_prop in H. destruct H as [Hlen Hd]. apply Nat.eqb_eq in Hlen.
    destruct ano as [|c1 ano]; [discriminate Hlen|].
    destruct ano as [|c2 ano]; [discriminate Hlen|].
    destruct ano as [|c3 ano]; [discriminate Hlen|].
    destruct ano as [|c4 ano]; [discriminate Hlen|].
    destruct ano; [|discriminate Hlen].
    exists (digits_val [c1; c2; c3; c4]). split.
    + apply (py_int_digitos [c1; c2; c3; c4]); [discriminate | exact Hd].
    + cbn in Hd.
      repeat match goal with
             | H : (_ && _)%bool = true |- _ => apply andb_prop in H; destruct H
             end.
      repeat match goal with
             | H : is_digit _ = true |- _ => apply is_digit_valor in H
             end.
      unfold digits_val. cbn [fold_left]. lia.
  - intros ano mes linhas fat n H.
    induction linhas as [|l linhas IH]; [reflexivity|].
    cbn [percorrer]. now rewrite (processar_linha_ano_ilegivel ano mes l H).
Qed.

Lemma X5_ano_do_filtro_witness :
  (exists Y, py_int "2025" = Some Y /\ (0 <= Y <= 9999)%Z) /\
  percorrer "MMXXV" None [nota "05/2025" "10,00"; nota "12/2024" "1,00"] zero 0
    = (zero, 0%nat, true).
Proof.
  destruct X5_ano_do_filtro as (H1 & H2).
  split; [apply H1; reflexivity | apply H2; reflexivity].
Defined.

(** X6.  An amount text made of digits and points, a comma and digits is
    handed to [float()] as the digits before the comma, the points dropped
    wherever they stand, a point, and the digits after the comma; a text
    of digits and points without a comma is handed over as its digits
    alone: a point is never a decimal point.  [float()] reads the first
    form when there is a digit on either side, and the second when there
    is a digit, and otherwise rejects them; a text without a comma and
    with at most 15 digits is read as the integer of its digits. *)
Theorem X6_valor_no_formato_brasileiro :
  forall (t F : list ascii),
    forallb digito_ou_ponto t = true ->
    forallb is_digit F = true ->
    valor_limpo (texto (t ++ ","%char :: F))
      = texto (filter is_digit t ++ "."%char :: F) /\
    valor_limpo (texto t) = texto (filter is_digit t) /\
    (filter is_digit t ++ F <> [] ->
     exists v, float_of_string (valor_limpo (texto (t ++ ","%char :: F)))
               = Some v) /\
    (filter is_digit t ++ F = [] ->
     float_of_string (valor_limpo (texto (t ++ ","%char :: F))) = None) /\
    (filter is_digit t <> [] ->
     exists v, float_of_string (valor_limpo (texto t)) = Some v) /\
    (filter is_digit t = [] ->
     float_of_string (valor_limpo (texto t)) = None) /\
    (filter is_digit t <> [] ->
     (List.length (filter is_digit t) <= 15)%nat ->
     exists q,
       float_of_string (valor_limpo (texto t)) = Some (Finito q) /\
       q == inject_Z (digits_val (filter is_digit t))).
Proof.
  intros t F Ht Hf.
  assert (Hcom : valor_limpo (texto (t ++ ","%char :: F))
                 = texto (filter is_digit t ++ "."%char :: F)).
  { rewrite valor_limpo_texto, flat_map_app. cbn [flat_map].
    change (troca ",") with ["."%char]. cbn [app].
    now rewrite (flat_map_troca_digitos t Ht), (filter_digitos F Hf). }
  assert (Hsem : valor_limpo (texto t) = texto (filter is_digit t)).
  { now rewrite valor_limpo_texto, (flat_map_troca_digitos t Ht). }
  assert (Hdp : forallb digito_ou_ponto (filter is_digit t) = true).
  { apply (forallb_implica is_digit digito_ou_ponto);
      [|apply forallb_filter_digitos].
    intros c Hc; unfold digito_ou_ponto; now rewrite Hc. }
  assert (Hint : filter is_digit t <> [] ->
            float_of_string (texto (filter is_digit t))
            = Some (Finito (Qred (inject_Z (digits_val (filter is_digit t))
                                  * pow10 (0 - 0))))).
  { intros Hne. rewrite float_of_string_numeral by assumption.
    now rewrite (parse_decimal_inteiro _ Hne (forallb_filter_digitos t)). }
  split; [exact Hcom|]. split; [exact Hsem|].
  rewrite Hcom, Hsem.
  split.
  { intros Hne. rewrite float_of_string_numeral.
    - rewrite (parse_decimal_fracao _ F Hne (forallb_filter_digitos t) Hf).
      eexists. reflexivity.
    - destruct (filter is_digit t); discriminate.
    - rewrite forallb_app. cbn [forallb]. rewrite Hdp.
      rewrite (forallb_implica is_digit digito_ou_ponto F); auto.
      intros c Hc; unfold digito_ou_ponto; now rewrite Hc. }
  split.
  { intros Hnil. apply app_eq_nil in Hnil. destruct Hnil as [-> ->].
    reflexivity. }
  split.
  { intros Hne. rewrite (Hint Hne). eexists. reflexivity. }
  split.
  { intros ->. reflexivity. }
  intros Hne _. rewrite (Hint Hne). eexists. split; [reflexivity|].
  rewrite Qred_correct. change (pow10 (0 - 0)) with 1. apply Qmult_1_r.
Qed.

Lemma X6_valor_no_formato_brasileiro_witness :
  valor_limpo "1.234.567,89" = "1234567.89" /\
  (exists v, float_of_string (valor_limpo "1.234.567,89") = Some v) /\
  valor_limpo "1234.56" = "123456" /\
  (exists q, float_of_string (valor_limpo "1234.56") = Some (Finito q) /\
             q == inject_Z 123456) /\
  float_of_string (valor_limpo ".,") = None.
Proof.
  destruct (X6_valor_no_formato_brasileiro (chars "1.234.567") (chars "89")
              eq_refl eq_refl) as (H1 & _ & H2 & _).
  destruct (X6_valor_no_formato_brasileiro (chars "1234.56") []
              eq_refl eq_refl) as (_ & H3 & _ & _ & _ & _ & H4).
  destruct (X6_valor_no_formato_brasileiro (chars ".") []
              eq_refl eq_refl) as (_ & _ & _ & H5 & _).
  split; [exact H1|].
  split; [apply H2; discriminate|].
  split; [exact H3|].
  split; [apply H4; [discriminate | vm_compute; lia]|].
  apply H5. reflexivity.
Defined.

End LinhaTeoremas.

Section LimpezaFatos.
Import Texto PyFloat Regex Pagina Efeito Login Busca Endpoint Vocabulario Extensao.

(** The clean-up of the endpoint, on the session of a login, spelled out
    on any state. *)
Lemma limpar_sessao_eq (cookies : list string) (e : estado) :
  exists r,
    limpar_arquivos_temporarios (sessao_de cookies) e
    = (Retorna tt, Estado (fs_apos_limpeza (fs e)) r).
Proof.
  unfold limpar_arquivos_temporarios, sessao_de, se_tem, Os.remove, Os.rmdir.
  unfold ignora, tenta, bind, anota, le_fs, grava_fs, ret, raise.
  cbn [temp_cert_path temp_key_path temp_dir fs registro].
  destruct e as [[d c k] r]. unfold fs_apos_limpeza.
  cbn [fs registro Os.com Os.existe existe_dir existe_cert existe_key].
  destruct c; [|eexists; reflexivity].
  cbn [fs registro Os.com Os.existe existe_dir existe_cert existe_key].
  destruct k; [|eexists; reflexivity].
  cbn [fs registro Os.com Os.existe existe_dir existe_cert existe_key negb orb].
  destruct d; eexists; reflexivity.
Qed.

(** On any session and any state the clean-up returns, and creates
    nothing. *)
Lemma limpar_retorna (s : session) (e : estado) :
  exists e',
    limpar_arquivos_temporarios s e = (Retorna tt, e') /\
    forall p, Os.existe (fs e') p = true -> Os.existe (fs e) p = true.
Proof.
  unfold limpar_arquivos_temporarios, se_tem, Os.remove, Os.rmdir.
  unfold ignora, tenta, bind, anota, le_fs, grava_fs, ret, raise.
  destruct s as [ce ck [p1|] [p2|] [p3|]];
    cbn [temp_cert_path temp_key_path temp_dir];
    try destruct p1; try destruct p2; try destruct p3;
    destruct e as [[d c k] r];
    cbn [fs registro Os.com Os.existe existe_dir existe_cert existe_key];
    destruct d, c, k;
    cbn [fs registro Os.com Os.existe existe_dir existe_cert existe_key negb orb];
    (eexists; split; [reflexivity|]);
    intros []; cbn; auto.
Qed.

(** A login that returns gives the session of [sessao_de] and leaves the
    three paths in place. *)
Lemma login_retorna_sessao (w : mundo) (cb senha : string) (e0 e1 : estado)
    (sess : session) (cnpj : option string) :
  login_em w cb senha e0 = (Retorna (sess, cnpj), e1) ->
  exists cookies, sess = sessao_de cookies /\ fs e1 = Arquivos true true true.
Proof.
  unfold login_em, desfecho_http.
  destruct (pkcs12_load w cb senha) as [[k c]|]; [|discriminate].
  cbn [certificate private_key].
  destruct c as [c|]; [|discriminate]. destruct k as [k|]; [|discriminate].
  destruct (get_certificado w) as [x|status_code cookies corpo]; [discriminate|].
  destruct (existsb (String.eqb "Emissor") cookies); [|discriminate].
  destruct corpo as [x|dp]; [discriminate|].
  intros [= <- _ <-]. exists cookies. split; reflexivity.
Qed.

End LimpezaFatos.

Section LimpezaTeoremas.
Import Texto PyFloat Regex Pagina Efeito Login Busca Endpoint Vocabulario Exemplos Extensao.

(** X7.  [limpar_arquivos_temporarios] never raises and never creates a
    path, whatever the session and the state.  On the session of a login
    the three removals are in one [try], so the first that raises ends
    the clean-up: with [cert.pem] missing nothing is removed, with only
    [key.pem] missing the directory stays, with both files there all
    three paths go; and running it again changes nothing. *)
Theorem X7_limpeza_melhor_esforco :
  (forall (s : session) (e : estado),
      exists e',
        limpar_arquivos_temporarios s e = (Retorna tt, e') /\
        forall p, Os.existe (fs e') p = true -> Os.existe (fs e) p = true) /\
  (forall (cookies : list string) (e : estado),
      exists e',
        limpar_arquivos_temporarios (sessao_de cookies) e = (Retorna tt, e') /\
        (existe_cert (fs e) = false -> fs e' = fs e) /\
        (existe_cert (fs e) = true -> existe_key (fs e) = false ->
         fs e' = Arquivos (existe_dir (fs e)) false false) /\
        (existe_cert (fs e) = true -> existe_key (fs e) = true ->
         fs e' = Arquivos false false false) /\
        exists e'',
          limpar_arquivos_temporarios (sessao_de cookies) e' = (Retorna tt, e'') /\
          fs e'' = fs e').
Proof.
  split; [apply limpar_retorna|].
  intros cookies e.
  destruct (limpar_sessao_eq cookies e) as (r & H).
  eexists. split; [exact H|]. cbn [fs]. unfold fs_apos_limpeza.
  split; [intros ->; reflexivity|].
  split; [intros -> ->; reflexivity|].
  split; [intros -> ->; reflexivity|].
  destruct (limpar_sessao_eq cookies (Estado (fs_apos_limpeza (fs e)) r)) as (r' & H').
  eexists. split; [exact H'|]. cbn [fs]. unfold fs_apos_limpeza.
  destruct (fs e) as [d c k]. cbn. destruct c, k; reflexivity.
Qed.

Lemma X7_limpeza_melhor_esforco_witness :
  exists e',
    limpar_arquivos_temporarios (sessao_de ["Emissor"])
      (Estado (Arquivos true false true) []) = (Retorna tt, e') /\
    fs e' = Arquivos true false true.
Proof.
  destruct X7_limpeza_melhor_esforco as (_ & H).
  destruct (H ["Emissor"] (Estado (Arquivos true false true) []))
    as (e' & Hrun & Hsem & _).
  exists e'. split; [exact Hrun | apply Hsem; reflexivity].
Defined.

(** X8.  [fazer_login_certificado] returns exactly when the loader gave a
    key and a certificate, the GET returned with the cookie [Emissor] in
    the jar and the body was read, whatever the status of the response;
    then the three temporary paths exist, the session carries them, one
    request was sent, and the identifier is the one read off the profile. *)
Theorem X8_login_retorna :
  forall (w : mundo) (certificado_base64 senha_certificado : string)
         (e0 e1 : estado) (sess : session) (cnpj : option string),
    fazer_login_certificado w certificado_base64 senha_certificado e0
      = (Retorna (sess, cnpj), e1) <->
    exists chave certificado status_code cookies dropdown_perfil,
      pkcs12_load w certificado_base64 senha_certificado
        = Some (Pkcs12 (Some chave) (Some certificado)) /\
      get_certificado w = LoginResposta status_code cookies (Corpo dropdown_perfil) /\
      In "Emissor" cookies /\
      sess = sessao_de cookies /\
      cnpj = extrair_cnpj dropdown_perfil /\
      e1 = Estado (Arquivos true true true)
                  (registro e0 ++ log_escrita ++ [EvGet URL_CERTIFICADO]).
Proof.
  intros w cb senha e0 e1 sess cnpj.
  rewrite fazer_login_certificado_eq. unfold login_em, desfecho_http. split.
  - destruct (pkcs12_load w cb senha) as [[k c]|]; [|discriminate].
    cbn [certificate private_key].
    destruct c as [c|]; [|discriminate]. destruct k as [k|]; [|discriminate].
    destruct (get_certificado w) as [x|status_code cookies corpo]; [discriminate|].
    destruct (existsb (String.eqb "Emissor") cookies) eqn:Ec; [|discriminate].
    destruct corpo as [x|dp]; [discriminate|].
    intros [= <- <- <-].
    exists k, c, status_code, cookies, dp.
    repeat split.
    apply existsb_exists in Ec. destruct Ec as (n & Hn & Heq).
    apply String.eqb_eq in Heq. now subst n.
  - intros (k & c & status_code & cookies & dp & -> & -> & Hc & -> & -> & ->).
    cbn [certificate private_key]. rewrite (com_emissor cookies Hc). reflexivity.
Qed.

Lemma X8_login_retorna_witness :
  fazer_login_certificado
    (Mundo carrega_sempre (LoginResposta 500 ["Emissor"] (Corpo None)) (servir [] 1))
    "MIIKPAIBAzCC" "senha" estado_inicial
  = (Retorna (sessao_de ["Emissor"], None), estado_logado).
Proof.
  apply (X8_login_retorna
           (Mundo carrega_sempre (LoginResposta 500 ["Emissor"] (Corpo None))
              (servir [] 1))).
  exists "KEY", "CERT", 500%Z, ["Emissor"], None.
  repeat split. now left.
Defined.

(** X9.  A bundle that the loader rejects is answered with status 401 and
    the uniform message after the loader alone was called: no directory
    is made, no file is written, no request is sent. *)
Theorem X9_bundle_rejeitado :
  forall (fuel : nat) (w : mundo) (request : FaturamentoRequestCertificado)
         (e0 : estado),
    mes_aceito (mes request) ->
    pkcs12_load w (certificado_base64 request) (senha_certificado request) = None ->
    obter_faturamento_certificado fuel w request e0 =
    (Levanta (http_exception 401 MSG_AUTENTICACAO),
     Estado (fs e0) (registro e0 ++ [EvCarrega])).
Proof.
  intros fuel w request e0 Hmes Hload.
  rewrite obter_faturamento_certificado_eq.
  destruct (validar_mes_aceito (mes request) estado_inicial Hmes) as (mf & ->).
  cbn [fst]. unfold login_em. rewrite Hload. rewrite tratar_None.
  reflexivity.
Qed.

Lemma X9_bundle_rejeitado_witness :
  obter_faturamento_certificado 3 mundo_carga_falha (pedido None) estado_inicial =
  (Levanta (http_exception 401 MSG_AUTENTICACAO),
   Estado (Arquivos false false false) [EvCarrega]).
Proof.
  apply (X9_bundle_rejeitado 3 mundo_carga_falha (pedido None) estado_inicial).
  - left. reflexivity.
  - reflexivity.
Defined.

(** X10.  When the loader returns a bundle without a certificate, or
    without a key, the file is opened before the missing part is used:
    the exception leaves the login outside its [try], the endpoint
    answers with status 500, no request is sent, nothing is removed, and
    the directory and the file [cert.pem] stay behind. *)
Theorem X10_bundle_incompleto :
  forall (fuel : nat) (w : mundo) (request : FaturamentoRequestCertificado)
         (p12 : pkcs12),
    mes_aceito (mes request) ->
    pkcs12_load w (certificado_base64 request) (senha_certificado request)
      = Some p12 ->
    certificate p12 = None \/ private_key p12 = None ->
    exists detail e,
      obter_faturamento_certificado fuel w request estado_inicial
        = (Levanta (http_exception 500 detail), e) /\
      existe_dir (fs e) = true /\ existe_cert (fs e) = true /\
      (forall ev, In ev (registro e) ->
                  In ev [EvCarrega; EvMkdtemp; EvAbre CertPem;
                         EvEscreve CertPem; EvAbre KeyPem]).
Proof.
  intros fuel w request [k c] Hmes Hload Hfalta.
  rewrite obter_faturamento_certificado_eq.
  destruct (validar_mes_aceito (mes request) estado_inicial Hmes) as (mf & ->).
  cbn [fst]. unfold login_em. rewrite Hload. cbn [certificate private_key] in *.
  destruct c as [c|].
  - destruct Hfalta as [Hc | ->]; [discriminate|].
    rewrite tratar_None.
    change (contains MARCA_AUTENTICACAO (str (AttributeError "private_bytes")))
      with false.
    do 2 eexists. split; [reflexivity|]. split; [reflexivity|].
    split; [reflexivity|]. cbn. tauto.
  - rewrite tratar_None.
    change (contains MARCA_AUTENTICACAO (str (AttributeError "public_bytes")))
      with false.
    do 2 eexists. split; [reflexivity|]. split; [reflexivity|].
    split; [reflexivity|]. cbn. tauto.
Qed.

Lemma X10_bundle_incompleto_witness :
  exists detail e,
    obter_faturamento_certificado 3 mundo_sem_certificado (pedido None) estado_inicial
      = (Levanta (http_exception 500 detail), e) /\
    existe_dir (fs e) = true /\ existe_cert (fs e) = true.
Proof.
  destruct (X10_bundle_incompleto 3 mundo_sem_certificado (pedido None)
              (Pkcs12 (Some "KEY") None)) as (detail & e & H & Hd & Hc & _).
  - left. reflexivity.
  - reflexivity.
  - left. reflexivity.
  - exists detail, e. auto.
Defined.

(** X11.  Every error that leaves the endpoint is an [HTTPException] with
    status 401 or 500, never another status and never another class of
    exception: 401 with the text of the exception caught when that text
    carries the marker, and otherwise 500 with ["Erro: "] before the
    text. *)
Theorem X11_so_401_ou_500 :
  forall (fuel : nat) (w : mundo) (request : FaturamentoRequestCertificado)
         (e0 e : estado) (x : excecao),
    obter_faturamento_certificado fuel w request e0 = (Levanta x, e) ->
    erro_http x.
Proof.
  intros fuel w request e0 e x.
  assert (Hcaso : forall y : excecao,
             erro_http (if contains MARCA_AUTENTICACAO (str y)
                        then http_exception 401 (str y)
                        else http_exception 500 ("Erro: " ++ str y)%string)).
  { intros y. exists (str y).
    destruct (contains MARCA_AUTENTICACAO (str y)); [left | right]; auto. }
  rewrite obter_faturamento_certificado_eq.
  destruct (fst (validar_mes (mes request) estado_inicial)) as [mf|y].
  2:{ rewrite tratar_None. intros [= <- _]. apply Hcaso. }
  destruct (login_em w (certificado_base64 request) (senha_certificado request) e0)
    as [[[sess cnpj]|y] e1] eqn:El.
  2:{ rewrite tratar_None. intros [= <- _]. apply Hcaso. }
  apply login_retorna_sessao in El.
  destruct El as (cookies & -> & Hfs).
  unfold sessao_de. rewrite apos_login_eq by exact Hfs.
  destruct (voltas fuel w (ano request) mf (Volta laco_inicial) e1)
    as [[[st|st]|y] e2]; try discriminate.
  intros [= <- _]. apply Hcaso.
Qed.

Lemma X11_so_401_ou_500_witness :
  erro_http (http_exception 401 MSG_AUTENTICACAO).
Proof.
  apply (X11_so_401_ou_500 3 mundo_timeout (pedido None) estado_inicial
           (Estado (Arquivos false false false)
              (log_escrita ++ [EvGet URL_CERTIFICADO] ++ log_limpeza))).
  vm_compute. reflexivity.
Defined.

End LimpezaTeoremas.

Section ListagemFatos.
Import Texto PyFloat Regex Pagina Efeito Login Busca Endpoint Vocabulario Extensao.

Variable w : mundo.
Variable ano : string.
Variable mes : option string.

(** [a + b] turns are [a] turns and then [b] turns. *)
Lemma voltas_soma (a b : nat) (c : controle) (e : estado) :
  voltas (a + b) w ano mes c e =
  match voltas a w ano mes c e with
  | (Retorna c', e') => voltas b w ano mes c' e'
  | (Levanta x, e') => (Levanta x, e')
  end.
Proof.
  revert c e. induction a as [|a IH]; intros c e; [reflexivity|].
  cbn [Nat.add voltas]. unfold bind.
  destruct (volta w ano mes c e) as [[c'|x] e']; [apply IH | reflexivity].
Qed.

(** A loop that has been left fetched at least one page. *)
Lemma voltas_saida_paginas (n : nat) (e0 : estado) (c : controle) (e : estado) :
  voltas n w ano mes (Volta laco_inicial) e0 = (Retorna c, e) ->
  exists k, (k <= n)%nat /\ invariante w ano mes e0 k c e /\
            (saiu c -> (1 <= k)%nat).
Proof.
  revert c e. induction n as [|n IH]; intros c e.
  - cbn. intros [= <- <-]. exists 0%nat. split; [lia|]. split; [|intros []].
    unfold invariante, gets_das_paginas. simpl. rewrite app_nil_r. auto.
  - rewrite voltas_mais_uma.
    destruct (voltas n w ano mes (Volta laco_inicial) e0) as [[c1|x] e1];
      [|discriminate].
    destruct (IH c1 e1 eq_refl) as (k & Hk & Hinv & Hum).
    intros Hv.
    destruct (volta_invariante w ano mes e0 k c1 c e1 e Hinv Hv)
      as [(Hs & -> & ->) | (_ & Hinv' & _)].
    + exists k. split; [lia|]. split; [exact Hinv | exact Hum].
    + exists (S k). split; [lia|]. split; [exact Hinv' | lia].
Qed.

End ListagemFatos.

Section PortaisFatos.
Import Texto PyFloat Regex Pagina Efeito Login Busca Endpoint Vocabulario Extensao.

Variables w1 w2 : mundo.
Variable ano : string.
Variable mes : option string.

(** A run of the loop on one portal is the run on any portal that gives
    the same answers to the requests that the run sends. *)
Lemma voltas_mesmas_respostas (n : nat) (c : controle) (e e' : estado)
    (r : resultado controle) :
  voltas n w1 ano mes c e = (r, e') ->
  exists evs,
    registro e' = registro e ++ evs /\
    ((forall u, In (EvGet u) evs -> get_notas w2 u = get_notas w1 u) ->
     voltas n w2 ano mes c e = (r, e')).
Proof.
  revert c e. induction n as [|n IH]; intros c e.
  - cbn. intros [= <- <-]. exists []. rewrite app_nil_r. auto.
  - cbn [voltas]. unfold bind. rewrite !volta_eq.
    destruct c as [st|st].
    + destruct (continuar st).
      * destruct (get_notas w1 (url_pagina (pagina st))) as [x|status_code s] eqn:Eg.
        -- intros [= <- <-]. exists [EvGet (url_pagina (pagina st))].
           split; [reflexivity|]. intros H.
           rewrite (H (url_pagina (pagina st))) by now left.
           rewrite Eg. reflexivity.
        -- intros Hv. destruct (IH _ _ Hv) as (evs & Hr & Hsame).
           exists (EvGet (url_pagina (pagina st)) :: evs). split.
           { rewrite Hr. cbn [registro]. now rewrite <- app_assoc. }
           intros H. rewrite (H (url_pagina (pagina st))) by now left.
           rewrite Eg. apply Hsame. intros u Hu. apply H. now right.
      * intros Hv. destruct (IH _ _ Hv) as (evs & Hr & Hsame).
        exists evs. auto.
    + intros Hv. destruct (IH _ _ Hv) as (evs & Hr & Hsame).
      exists evs. auto.
Qed.

End PortaisFatos.

Section UrlFatos2.
Import Texto Login Busca.

Lemma url_pagina_nao_e_login (p : nat) : url_pagina p <> URL_CERTIFICADO.
Proof.
  unfold url_pagina. destruct (p =? 1)%nat; [discriminate|].
  unfold URL_BASE, URL_CERTIFICADO. cbn [String.append]. discriminate.
Qed.

End UrlFatos2.

Section ListagemTeoremas.
Import Texto PyFloat Regex Pagina Efeito Login Busca Endpoint Vocabulario Exemplos Extensao.

(** X12.  When the first page of the listing comes with a status other
    than 200, after a login that succeeded, the request is answered as a
    success with zero revenue and zero invoices: one page was requested,
    the temporary files are removed, and no error is reported. *)
Theorem X12_primeira_pagina_nao_200 :
  forall (n : nat) (w : mundo) (request : FaturamentoRequestCertificado)
         (chave certificado : string) (status_login : Z) (cookies : list string)
         (dropdown_perfil : option string) (status_code : Z) (s : soup),
    mes_aceito (mes request) ->
    pkcs12_load w (certificado_base64 request) (senha_certificado request)
      = Some (Pkcs12 (Some chave) (Some certificado)) ->
    get_certificado w = LoginResposta status_login cookies (Corpo dropdown_perfil) ->
    In "Emissor" cookies ->
    get_notas w (url_pagina 1) = NotasResposta status_code s ->
    status_code <> 200%Z ->
    exists r e,
      obter_faturamento_certificado (S n) w request estado_inicial
        = (Retorna (Some r), e) /\
      Faturamento r = Finito 0 /\ Notas_Encontradas r = 0%nat /\
      registro e = log_escrita ++ [EvGet URL_CERTIFICADO]
                     ++ [EvGet (url_pagina 1)] ++ log_limpeza /\
      fs e = Arquivos false false false.
Proof.
  intros n w request chave certificado status_login cookies dp status_code s
         Hmes Hload Hget Hc Hnotas Hst.
  rewrite obter_faturamento_certificado_eq.
  destruct (validar_mes_aceito (mes request) estado_inicial Hmes) as (mf & ->).
  cbn [fst]. unfold login_em, desfecho_http.
  rewrite Hload, Hget, (com_emissor cookies Hc). cbn [certificate private_key].
  rewrite apos_login_eq by reflexivity.
  cbn [voltas]. unfold bind. rewrite volta_eq.
  cbn [continuar pagina laco_inicial]. rewrite Hnotas.
  unfold iteracao. apply Z.eqb_neq in Hst. rewrite Hst. cbn [negb].
  rewrite voltas_saida.
  do 2 eexists. split; [reflexivity|]. cbn [Faturamento Notas_Encontradas].
  split; [reflexivity|]. split; [reflexivity|]. split; [|reflexivity].
  cbn [registro estado_inicial]. rewrite <- !app_assoc. reflexivity.
Qed.

Lemma X12_primeira_pagina_nao_200_witness :
  exists r e,
    obter_faturamento_certificado 3 mundo_403 (pedido None) estado_inicial
      = (Retorna (Some r), e) /\
    Faturamento r = Finito 0 /\ Notas_Encontradas r = 0%nat.
Proof.
  destruct (X12_primeira_pagina_nao_200 2 mundo_403 (pedido None) "KEY" "CERT"
              200 ["Emissor"] (Some "Empresa CNPJ: 12345678901234") 403
              (com_proxima [nota "05/2025" "10,00"]))
    as (r & e & H & Hf & Hn & _).
  - left. reflexivity.
  - reflexivity.
  - reflexivity.
  - now left.
  - reflexivity.
  - discriminate.
  - exists r, e. auto.
Defined.

(** How a response of the endpoint comes about. *)
Lemma resposta_decomposta :
  forall (fuel : nat) (w : mundo) (request : FaturamentoRequestCertificado)
         (r : FaturamentoResponse) (e : estado),
    obter_faturamento_certificado fuel w request estado_inicial
      = (Retorna (Some r), e) ->
    exists (mes_filtro : option string) (k : nat) (fat : float),
      validar_mes (mes request) estado_inicial
        = (Retorna mes_filtro, estado_inicial) /\
      (1 <= k <= fuel)%nat /\
      agregado w (ano request) mes_filtro (seq 1 k) = (fat, Notas_Encontradas r) /\
      Faturamento r = round2 fat /\
      (mes_filtro = None -> Periodo r = ano request /\ Mes r = "Ano todo") /\
      (forall m, mes_filtro = Some m -> m <> "" ->
                 Periodo r = (m ++ "/" ++ ano request)%string /\ Mes r = m) /\
      registro e = log_escrita ++ [EvGet URL_CERTIFICADO]
                     ++ gets_das_paginas k ++ log_limpeza /\
      fs e = Arquivos false false false.
Proof.
  intros fuel w request r e Hrun.
  rewrite obter_faturamento_certificado_eq in Hrun.
  rewrite (validar_mes_estado (mes request) estado_inicial).
  destruct (fst (validar_mes (mes request) estado_inicial)) as [mf|x];
    [|rewrite tratar_None in Hrun; discriminate].
  destruct (login_em w (certificado_base64 request) (senha_certificado request)
              estado_inicial) as [[[sess cnpj]|x] e1] eqn:El;
    [|rewrite tratar_None in Hrun; discriminate].
  apply login_retorna_sessao in El as Hs. destruct Hs as (cookies & -> & Hfs).
  assert (Hr1 : registro e1 = log_escrita ++ [EvGet URL_CERTIFICADO]).
  { unfold login_em in El.
    destruct (pkcs12_load w _ _) as [[k c]|]; [|discriminate].
    cbn [certificate private_key] in El.
    destruct c; [|discriminate]. destruct k; [|discriminate].
    destruct (desfecho_http (get_certificado w)); [|discriminate].
    injection El as _ <-. reflexivity. }
  unfold sessao_de in Hrun. rewrite apos_login_eq in Hrun by exact Hfs.
  destruct (voltas fuel w (ano request) mf (Volta laco_inicial) e1)
    as [[[st|st]|x] e2] eqn:Ev; try discriminate.
  destruct (voltas_saida_paginas w (ano request) mf fuel e1 _ _ Ev)
    as (k & Hk & (_ & Hreg & Hag & _) & Hum).
  injection Hrun as <- <-.
  exists mf, k, (faturamento_total st).
  split; [reflexivity|]. split; [split; [apply Hum; exact I | exact Hk]|].
  split; [exact Hag|]. split; [reflexivity|].
  cbn [Periodo Mes]. split; [intros ->; split; reflexivity|].
  split.
  { intros m -> Hm. unfold periodo_de, mes_label_de, truthy.
    apply String.eqb_neq in Hm. rewrite Hm. split; reflexivity. }
  split; [|reflexivity].
  cbn [registro]. rewrite Hreg, Hr1, <- !app_assoc. reflexivity.
Qed.




(** X14.  When the pages 1 to [k] were folded and the request of the next
    page raises, the request is answered with an error and the totals
    folded so far are given up: status 500 with ["Erro: "] before the
    text of the exception, or status 401 when that text carries the
    marker; the temporary files are removed first. *)
Theorem X14_erro_na_listagem :
  forall (k j : nat) (w : mundo) (request : FaturamentoRequestCertificado)
         (chave certificado : string) (status_login : Z) (cookies : list string)
         (dropdown_perfil : option string) (mes_filtro : option string)
         (st : laco) (e1 : estado) (x : excecao),
    validar_mes (mes request) estado_inicial
      = (Retorna mes_filtro, estado_inicial) ->
    pkcs12_load w (certificado_base64 request) (senha_certificado request)
      = Some (Pkcs12 (Some chave) (Some certificado)) ->
    get_certificado w = LoginResposta status_login cookies (Corpo dropdown_perfil) ->
    In "Emissor" cookies ->
    voltas k w (ano request) mes_filtro (Volta laco_inicial) estado_logado
      = (Retorna (Volta st), e1) ->
    get_notas w (url_pagina (pagina st)) = NotasLevanta x ->
    exists e,
      obter_faturamento_certificado (k + S j) w request estado_inicial =
      (Levanta (if contains MARCA_AUTENTICACAO (str x)
                then http_exception 401 (str x)
                else http_exception 500 ("Erro: " ++ str x)%string), e) /\
      fs e = Arquivos false false false /\
      registro e = registro e1 ++ [EvGet (url_pagina (pagina st))] ++ log_limpeza.
Proof.
  intros k j w request chave certificado status_login cookies dp mf st e1 x
         Hmes Hload Hget Hc Hk Hx.
  rewrite obter_faturamento_certificado_eq, Hmes. cbn [fst].
  unfold login_em, desfecho_http.
  rewrite Hload, Hget, (com_emissor cookies Hc). cbn [certificate private_key].
  rewrite apos_login_eq by reflexivity.
  change (Estado (Arquivos true true true)
            (registro estado_inicial ++ log_escrita ++ [EvGet URL_CERTIFICADO]))
    with estado_logado.
  rewrite voltas_soma, Hk.
  destruct (voltas_invariante w (ano request) mf k _ _ _ Hk)
    as (k' & _ & _ & _ & _ & _ & Hcont).
  cbn [voltas]. unfold bind. rewrite volta_eq, Hcont, Hx.
  eexists. split; [reflexivity|]. split; [reflexivity|].
  cbn [registro]. now rewrite <- app_assoc.
Qed.

Lemma X14_erro_na_listagem_witness :
  exists e,
    obter_faturamento_certificado 1 mundo_listagem_cai (pedido None) estado_inicial
      = (Levanta (http_exception 500 "Erro: Read timed out."), e) /\
    fs e = Arquivos false false false.
Proof.
  destruct (X14_erro_na_listagem 0 0 mundo_listagem_cai (pedido None) "KEY" "CERT"
              200 ["Emissor"] (Some "Empresa CNPJ: 12345678901234") None
              laco_inicial estado_logado
              (Excecao (Outra "ReadTimeout") "Read timed out."))
    as (e & H & Hfs & _); try reflexivity.
  - now left.
  - exists e. split; [exact H | exact Hfs].
Defined.

(** X15.  A response depends on the portal only through the pages that
    were requested: on another portal that answers the login in the same
    way and gives the same answers for the pages in the log, the request
    has the same response and leaves the same state, whatever that portal
    has on the pages that were not requested. *)
Theorem X15_so_as_paginas_pedidas :
  forall (fuel : nat) (w1 w2 : mundo) (request : FaturamentoRequestCertificado)
         (r : FaturamentoResponse) (e : estado),
    obter_faturamento_certificado fuel w1 request estado_inicial
      = (Retorna (Some r), e) ->
    pkcs12_load w2 (certificado_base64 request) (senha_certificado request)
      = pkcs12_load w1 (certificado_base64 request) (senha_certificado request) ->
    get_certificado w2 = get_certificado w1 ->
    (forall p, In (EvGet (url_pagina p)) (registro e) ->
               get_notas w2 (url_pagina p) = get_notas w1 (url_pagina p)) ->
    obter_faturamento_certificado fuel w2 request estado_inicial
      = (Retorna (Some r), e).
Proof.
  intros fuel w1 w2 request r e Hrun Hload Hget Hpag.
  rewrite obter_faturamento_certificado_eq in *.
  destruct (fst (validar_mes (mes request) estado_inicial)) as [mf|x];
    [|rewrite tratar_None in Hrun; discriminate].
  assert (Hl : login_em w2 (certificado_base64 request) (senha_certificado request)
                 estado_inicial =
               login_em w1 (certificado_base64 request) (senha_certificado request)
                 estado_inicial).
  { unfold login_em. now rewrite Hload, Hget. }
  rewrite Hl.
  destruct (login_em w1 (certificado_base64 request) (senha_certificado request)
              estado_inicial) as [[[sess cnpj]|x] e1] eqn:El;
    [|rewrite tratar_None in Hrun; discriminate].
  apply login_retorna_sessao in El. destruct El as (cookies & -> & Hfs).
  unfold sessao_de in *. rewrite apos_login_eq in * by exact Hfs.
  destruct (voltas fuel w1 (ano request) mf (Volta laco_inicial) e1)
    as [[[st|st]|x] e2] eqn:Ev; try discriminate.
  destruct (voltas_invariante w1 (ano request) mf fuel e1 _ _ Ev)
    as (k & _ & _ & Hreg & _).
  destruct (voltas_mesmas_respostas w1 w2 (ano request) mf fuel _ _ _ _ Ev)
    as (evs & Hevs & Hsame).
  rewrite Hreg in Hevs. apply app_inv_head in Hevs. subst evs.
  rewrite Hsame; [exact Hrun|].
  intros u Hu. assert (Hin := Hu).
  unfold gets_das_paginas in Hu. apply in_map_iff in Hu.
  destruct Hu as (p & [= <-] & _). apply Hpag.
  injection Hrun as _ <-. cbn [registro]. rewrite Hreg.
  rewrite !in_app_iff. left. right. exact Hin.
Qed.

Lemma X15_so_as_paginas_pedidas_witness :
  obter_faturamento_certificado 3 mundo_com_mais_paginas (pedido None)
    estado_inicial =
  (Retorna (Some (FaturamentoResposta "12.345.678/9012-34" (Finito 350) 4
                    "2025" "Ano todo")),
   Estado (Arquivos false false false)
     (log_escrita ++ [EvGet URL_CERTIFICADO] ++ gets_das_paginas 2
        ++ log_limpeza)).
Proof.
  apply (X15_so_as_paginas_pedidas 3 mundo_duas_paginas mundo_com_mais_paginas
           (pedido None)).
  - vm_compute. reflexivity.
  - reflexivity.
  - reflexivity.
  - intros p Hp. unfold log_escrita, log_limpeza, gets_das_paginas in Hp.
    cbn [registro app map seq In] in Hp.
    repeat (destruct Hp as [Hp|Hp]; try discriminate Hp); try contradiction.
    + injection Hp as Hp. symmetry in Hp. now apply url_pagina_nao_e_login in Hp.
    + injection Hp as Hp. apply url_pagina_inj in Hp. subst p. reflexivity.
    + injection Hp as Hp. apply url_pagina_inj in Hp. subst p. reflexivity.
Defined.

End ListagemTeoremas.

Section OutrosFatos.
Import Texto PyFloat Regex Pagina Efeito Login Busca Endpoint Vocabulario Extensao.

(** The count never goes down in a scan, and an unchanged count means an
    unchanged amount. *)
Lemma percorrer_contagem (ano : string) (mes : option string)
    (linhas : list linha) (fat : float) (n : nat) :
  (n <= snd (fst (percorrer ano mes linhas fat n)))%nat /\
  (snd (fst (percorrer ano mes linhas fat n)) = n ->
   fst (fst (percorrer ano mes linhas fat n)) = fat).
Proof.
  revert fat n. induction linhas as [|l linhas IH]; intros fat n; cbn [percorrer].
  - cbn. auto.
  - destruct (processar_linha ano mes l).
    + destruct (IH (add fat valor) (S n)) as [Hle Heq]. split; [lia|].
      intros H. lia.
    + apply IH.
    + cbn. auto.
Qed.

Lemma processar_pagina_sem_notas (s : soup) (ano : string) (mes : option string) :
  snd (fst (processar_pagina s ano mes)) = 0%nat ->
  fst (fst (processar_pagina s ano mes)) = zero.
Proof.
  unfold processar_pagina. destruct (tbody s) as [[|l linhas]|]; try reflexivity.
  apply percorrer_contagem.
Qed.

Lemma agregado_sem_notas (w : mundo) (ano : string) (mes : option string)
    (ps : list nat) :
  snd (agregado w ano mes ps) = 0%nat -> fst (agregado w ano mes ps) = zero.
Proof.
  induction ps as [|p ps IH] using rev_ind; [reflexivity|].
  unfold agregado in *. rewrite fold_left_app. cbn [fold_left].
  destruct (contribuicao w ano mes p) as [[f j]|] eqn:Ec; [|exact IH].
  cbn [fst snd]. intros H.
  assert (Hj : j = 0%nat) by lia. subst j.
  rewrite IH by lia.
  unfold contribuicao in Ec.
  destruct (get_notas w (url_pagina p)) as [x|status_code s]; [discriminate|].
  destruct (status_code =? 200)%Z; [|discriminate].
  pose proof (processar_pagina_sem_notas s ano mes) as Hz.
  destruct (processar_pagina s ano mes) as [[fp np] cont].
  injection Ec as -> ->. cbn [fst snd] in Hz. rewrite Hz by reflexivity.
  reflexivity.
Qed.

Lemma filter_so_digitos (l : list ascii) :
  forallb is_digit l = true -> filter is_digit l = l.
Proof.
  induction l as [|c l IH]; [reflexivity|]. cbn. intros H.
  apply andb_prop in H. destruct H as [Hc Hl]. now rewrite Hc, (IH Hl).
Qed.

Lemma filter_sem_separador (l r : list ascii) (sep : ascii) :
  is_digit sep = false ->
  filter is_digit (l ++ sep :: r) = filter is_digit l ++ filter is_digit r.
Proof.
  intros H. rewrite filter_app. cbn [filter]. now rewrite H.
Qed.

End OutrosFatos.

Section OutrosTeoremas.
Import Texto PyFloat Regex Pagina Efeito Login Busca Endpoint Vocabulario Exemplos Extensao.

(** X16.  The identifier that the login returns has 18 characters and its
    digits, read in order, are the 14 digits captured after the label:
    the regrouping loses nothing, and two digit strings give the same
    identifier only when they are the same. *)
Theorem X16_identificador_preserva_digitos :
  (forall (perfil c : string),
      extrair_cnpj (Some perfil) = Some c ->
      String.length c = 18%nat /\
      exists d, search_cnpj perfil = Some d /\ String.length d = 14%nat /\
                filter is_digit (chars c) = chars d) /\
  (forall (d d' : string),
      String.length d = 14%nat -> String.length d' = 14%nat ->
      formatar_cnpj d = formatar_cnpj d' -> d = d').
Proof.
  split.
  - intros perfil c H. unfold extrair_cnpj in H.
    destruct (search_cnpj perfil) as [d|] eqn:Hd; [|discriminate].
    destruct (String.length d =? 14)%nat eqn:Hlen; [|discriminate].
    apply Nat.eqb_eq in Hlen. injection H as <-.
    pose proof (search_cnpj_digitos perfil d Hd) as Hdig.
    destruct (quatorze d Hlen)
      as (c1 & c2 & c3 & c4 & c5 & c6 & c7 & c8 & c9 & c10 & c11 & c12 & c13 & c14 & ->).
    split; [reflexivity|].
    exists (texto [c1; c2; c3; c4; c5; c6; c7; c8; c9; c10; c11; c12; c13; c14]).
    split; [reflexivity|]. split; [reflexivity|].
    rewrite chars_texto in Hdig.
    change [c1; c2; c3; c4; c5; c6; c7; c8; c9; c10; c11; c12; c13; c14]
      with ([c1; c2] ++ [c3; c4; c5] ++ [c6; c7; c8] ++ [c9; c10; c11; c12]
              ++ [c13; c14]) in Hdig.
    rewrite !forallb_app in Hdig.
    apply andb_prop in Hdig. destruct Hdig as [H1 Hdig].
    apply andb_prop in Hdig. destruct Hdig as [H2 Hdig].
    apply andb_prop in Hdig. destruct Hdig as [H3 Hdig].
    apply andb_prop in Hdig. destruct Hdig as [H4 H5].
    change (chars (formatar_cnpj
                     (texto [c1; c2; c3; c4; c5; c6; c7; c8; c9; c10; c11; c12; c13; c14])))
      with ([c1; c2] ++ "."%char :: [c3; c4; c5] ++ "."%char :: [c6; c7; c8]
              ++ "/"%char :: [c9; c10; c11; c12] ++ "-"%char :: [c13; c14]).
    rewrite chars_texto.
    rewrite !filter_sem_separador by reflexivity.
    rewrite (filter_so_digitos _ H1), (filter_so_digitos _ H2),
            (filter_so_digitos _ H3), (filter_so_digitos _ H4),
            (filter_so_digitos _ H5).
    reflexivity.
  - intros d d' Hd Hd' H.
    destruct (quatorze d Hd)
      as (c1 & c2 & c3 & c4 & c5 & c6 & c7 & c8 & c9 & c10 & c11 & c12 & c13 & c14 & ->).
    destruct (quatorze d' Hd')
      as (b1 & b2 & b3 & b4 & b5 & b6 & b7 & b8 & b9 & b10 & b11 & b12 & b13 & b14 & ->).
    injection H. intros. subst. reflexivity.
Qed.

Lemma X16_identificador_preserva_digitos_witness :
  String.length "12.345.678/9012-34" = 18%nat /\
  exists d, search_cnpj "Empresa CNPJ: 12345678901234" = Some d /\
            String.length d = 14%nat /\
            filter is_digit (chars "12.345.678/9012-34") = chars d.
Proof.
  destruct X16_identificador_preserva_digitos as (H & _).
  apply (H "Empresa CNPJ: 12345678901234" "12.345.678/9012-34"). reflexivity.
Defined.

(** X17.  The pages of the listing have each their own address: two page
    numbers with the same URL are the same number, only page 1 has the
    bare address of the listing, and no page has the address of the
    login. *)
Theorem X17_urls_das_paginas :
  forall (p q : nat),
    (url_pagina p = url_pagina q -> p = q) /\
    (url_pagina p = URL_BASE <-> p = 1%nat) /\
    url_pagina p <> URL_CERTIFICADO.
Proof.
  intros p q. split; [apply url_pagina_inj|]. split.
  - split.
    + intros H. apply (url_pagina_inj p 1). exact H.
    + intros ->. reflexivity.
  - apply url_pagina_nao_e_login.
Qed.

Lemma X17_urls_das_paginas_witness :
  url_pagina 0 <> url_pagina 1.
Proof.
  intros H. apply (X17_urls_das_paginas 0 1) in H. discriminate H.
Defined.

(** X18.  A month that is given and is not an integer from 1 to 12, be it
    out of range or not a number at all, ends the request before
    anything is done: the state is left as it was, and the error has
    status 500, or 401 when its text carries the marker. *)
Theorem X18_mes_recusado :
  forall (fuel : nat) (w : mundo) (request : FaturamentoRequestCertificado)
         (m : string) (e0 : estado),
    mes request = Some m -> m <> "" ->
    (forall z, py_int m = Some z -> (z < 1 \/ 12 < z)%Z) ->
    exists x,
      obter_faturamento_certificado fuel w request e0 = (Levanta x, e0) /\
      erro_http x.
Proof.
  intros fuel w request m e0 Hm Hne Hz.
  assert (Hcaso : forall y : excecao,
             erro_http (if contains MARCA_AUTENTICACAO (str y)
                        then http_exception 401 (str y)
                        else http_exception 500 ("Erro: " ++ str y)%string)).
  { intros y. exists (str y).
    destruct (contains MARCA_AUTENTICACAO (str y)); [left | right]; auto. }
  rewrite obter_faturamento_certificado_eq, Hm.
  destruct (py_int m) as [z|] eqn:Ez.
  - rewrite (validar_mes_fora m z estado_inicial Ez (Hz z eq_refl)). cbn [fst].
    rewrite tratar_None. eexists. split; [reflexivity | apply Hcaso].
  - unfold validar_mes, truthy. apply String.eqb_neq in Hne. rewrite Hne, Ez.
    cbn [negb fst raise]. rewrite tratar_None.
    eexists. split; [reflexivity | apply Hcaso].
Qed.

Lemma X18_mes_recusado_witness :
  exists x,
    obter_faturamento_certificado 3 mundo_duas_paginas (pedido (Some "maio"))
      estado_inicial = (Levanta x, estado_inicial) /\
    erro_http x.
Proof.
  apply (X18_mes_recusado 3 mundo_duas_paginas (pedido (Some "maio")) "maio"
           estado_inicial eq_refl).
  - discriminate.
  - intros z Hz. discriminate Hz.
Defined.

(** X19.  No page of the listing is ever requested without a login that
    succeeded: if the log of a request, however it ended, has the GET of
    a page, then the loader gave a key and a certificate and the login
    page came back with the cookie [Emissor] in the jar. *)
Theorem X19_listagem_so_com_login :
  forall (fuel : nat) (w : mundo) (request : FaturamentoRequestCertificado)
         (r : resultado (option FaturamentoResponse)) (e : estado) (p : nat),
    obter_faturamento_certificado fuel w request estado_inicial = (r, e) ->
    In (EvGet (url_pagina p)) (registro e) ->
    exists chave certificado status_code cookies dropdown_perfil,
      pkcs12_load w (certificado_base64 request) (senha_certificado request)
        = Some (Pkcs12 (Some chave) (Some certificado)) /\
      get_certificado w = LoginResposta status_code cookies (Corpo dropdown_perfil) /\
      In "Emissor" cookies.
Proof.
  intros fuel w request r e p Hrun Hin.
  rewrite obter_faturamento_certificado_eq in Hrun.
  destruct (fst (validar_mes (mes request) estado_inicial)) as [mf|x].
  2:{ rewrite tratar_None in Hrun. injection Hrun as _ <-. destruct Hin. }
  unfold login_em, desfecho_http in Hrun.
  destruct (pkcs12_load w (certificado_base64 request) (senha_certificado request))
    as [[k c]|].
  2:{ rewrite tratar_None in Hrun. injection Hrun as _ <-. cbn in Hin.
      destruct Hin as [Hin|[]]. discriminate Hin. }
  cbn [certificate private_key] in Hrun.
  destruct c as [c|].
  2:{ rewrite tratar_None in Hrun. injection Hrun as _ <-. cbn in Hin.
      repeat (destruct Hin as [Hin|Hin]; try discriminate Hin). destruct Hin. }
  destruct k as [k|].
  2:{ rewrite tratar_None in Hrun. injection Hrun as _ <-. cbn in Hin.
      repeat (destruct Hin as [Hin|Hin]; try discriminate Hin). destruct Hin. }
  assert (Hfalha : forall x : excecao,
             tratar None (excecao_do_login x)
               (Estado (Arquivos false false false)
                  (registro estado_inicial ++ log_escrita
                     ++ [EvGet URL_CERTIFICADO] ++ log_limpeza)) = (r, e) -> False).
  { intros x Hx. rewrite tratar_None in Hx. injection Hx as _ <-.
    unfold log_escrita, log_limpeza in Hin. cbn [registro estado_inicial app In] in Hin.
    repeat (destruct Hin as [Hin|Hin]; try discriminate Hin); try contradiction.
    injection Hin as Hin. symmetry in Hin.
    now apply url_pagina_nao_e_login in Hin. }
  destruct (get_certificado w) as [x|status_code cookies corpo];
    [exfalso; now apply (Hfalha x)|].
  destruct (existsb (String.eqb "Emissor") cookies) eqn:Ec;
    [|exfalso; now apply (Hfalha falha_autenticacao)].
  destruct corpo as [x|dp]; [exfalso; now apply (Hfalha x)|].
  exists k, c, status_code, cookies, dp. repeat split.
  apply existsb_exists in Ec. destruct Ec as (n & Hn & Heq).
  apply String.eqb_eq in Heq. now subst n.
Qed.

Lemma X19_listagem_so_com_login_witness :
  exists chave certificado status_code cookies dropdown_perfil,
    pkcs12_load mundo_403 "MIIKPAIBAzCC" "senha"
      = Some (Pkcs12 (Some chave) (Some certificado)) /\
    get_certificado mundo_403
      = LoginResposta status_code cookies (Corpo dropdown_perfil) /\
    In "Emissor" cookies.
Proof.
  destruct (obter_faturamento_certificado 3 mundo_403 (pedido None) estado_inicial)
    as [r e] eqn:E.
  apply (X19_listagem_so_com_login 3 mundo_403 (pedido None) r e 1 E).
  vm_compute in E. injection E as _ <-.
  unfold url_pagina. cbn. tauto.
Defined.

(** X20.  A response that reports no invoice reports no revenue. *)
Theorem X20_sem_notas_sem_faturamento :
  forall (fuel : nat) (w : mundo) (request : FaturamentoRequestCertificado)
         (r : FaturamentoResponse) (e : estado),
    obter_faturamento_certificado fuel w request estado_inicial
      = (Retorna (Some r), e) ->
    Notas_Encontradas r = 0%nat ->
    Faturamento r = Finito 0.
Proof.
  intros fuel w request r e Hrun Hn.
  destruct (resposta_decomposta fuel w request r e Hrun)
    as (mf & k & fat & _ & _ & Hag & Hf & _).
  pose proof (agregado_sem_notas w (ano request) mf (seq 1 k)) as Hz.
  rewrite Hag in Hz. cbn [fst snd] in Hz. rewrite Hf, (Hz Hn). reflexivity.
Qed.

Lemma X20_sem_notas_sem_faturamento_witness :
  Faturamento (FaturamentoResposta "12.345.678/9012-34" (Finito 0) 0
                 "2025" "Ano todo") = Finito 0.
Proof.
  apply (X20_sem_notas_sem_faturamento 3 mundo_403 (pedido None) _
           (Estado (Arquivos false false false)
              (log_escrita ++ [EvGet URL_CERTIFICADO] ++ gets_das_paginas 1
                 ++ log_limpeza))).
  - vm_compute. reflexivity.
  - reflexivity.
Defined.

End OutrosTeoremas.
